(** * LandSetHeightAction: a shallow embedding of
      src/openrct2/actions/LandSetHeightAction.cpp

    The action raises, lowers or reshapes the surface of one map cell.
    [Query] validates the request and projects its cost, [Execute] applies
    it.  Both read the process-wide game state; here that state is an
    explicit record threaded through a small state monad, so that "reads
    only" and "writes" are visible in the terms. *)

From Stdlib Require Import ZArith Lia Bool List.
From stdpp Require Import base option list gmap.

Local Open Scope Z_scope.

(** ** Machine integers *)

(** [uint8_t]: a value is kept as a [Z]; arithmetic that is stored back into
    a [uint8_t] wraps modulo 256. *)
Definition wrap_uint8 (z : Z) : Z := z mod 256.

(** [uint32_t] arithmetic wraps modulo 2^32. *)
Definition wrap_uint32 (z : Z) : Z := z mod 4294967296.

(** [money32] is a signed 32-bit integer; sums are reduced to the two's
    complement range. *)
Definition wrap_int32 (z : Z) : Z := (z + 2147483648) mod 4294967296 - 2147483648.

Definition money32_add (a b : Z) : Z := wrap_int32 (a + b).

(** Modelled from the spec: the [MONEY] macro is declared in common.h, outside
    LandSetHeightAction.cpp; the spec speaks of signed integer currency
    units.  [#define MONEY(whole, fraction) ((whole)*10 + ((fraction) / 10))],
    evaluated in [int]. *)
Definition MONEY (whole fraction : Z) : Z := whole * 10 + Z.quot fraction 10.

(** ** Constants of the engine headers used by the action

    Modelled from the spec: these constants are declared in the world and
    park headers, outside LandSetHeightAction.cpp.  The spec names the slope
    style a bitfield of a raised-corner mask, a diagonal flag and a slope
    mask, and names the two park policy flags, the editor screen flag and
    the tree flag of small scenery.  The land-height limits, whose values
    the spec leaves open, are fields of [Engine] below. *)

Definition COORDS_XY_STEP : Z := 32.
Definition COORDS_Z_STEP : Z := 8.
Definition MAXIMUM_MAP_SIZE_BIG : Z := 256 * COORDS_XY_STEP.

Definition TILE_ELEMENT_SURFACE_DIAGONAL_FLAG : Z := 0x10.
Definition TILE_ELEMENT_SURFACE_RAISED_CORNERS_MASK : Z := 0x0F.
Definition TILE_ELEMENT_SURFACE_SLOPE_MASK : Z :=
  Z.lor TILE_ELEMENT_SURFACE_DIAGONAL_FLAG TILE_ELEMENT_SURFACE_RAISED_CORNERS_MASK.

Definition TILE_ELEMENT_SLOPE_N_CORNER_UP : Z := 0x01.
Definition TILE_ELEMENT_SLOPE_E_CORNER_UP : Z := 0x02.
Definition TILE_ELEMENT_SLOPE_S_CORNER_UP : Z := 0x04.
Definition TILE_ELEMENT_SLOPE_W_CORNER_UP : Z := 0x08.
Definition TILE_ELEMENT_SLOPE_DOUBLE_HEIGHT : Z := 0x10.
Definition TILE_ELEMENT_SLOPE_W_CORNER_DN : Z := 0x07.
Definition TILE_ELEMENT_SLOPE_S_CORNER_DN : Z := 0x0B.
Definition TILE_ELEMENT_SLOPE_E_CORNER_DN : Z := 0x0D.
Definition TILE_ELEMENT_SLOPE_N_CORNER_DN : Z := 0x0E.

Definition PARK_FLAGS_FORBID_LANDSCAPE_CHANGES : Z := Z.shiftl 1 2.
Definition PARK_FLAGS_FORBID_TREE_REMOVAL : Z := Z.shiftl 1 3.
Definition SCREEN_FLAGS_SCENARIO_EDITOR : Z := 2.
Definition SMALL_SCENERY_FLAG_IS_TREE : Z := Z.shiftl 1 28.

(** A C condition [(flags & mask)] is true when the masked value is not 0. *)
Definition has_flag (flags mask : Z) : bool := negb (Z.land flags mask =? 0).

(** ** Data model *)

Record CoordsXY := { x : Z; y : Z }.
Record CoordsXYZ := { xy : CoordsXY; z : Z }.
Record CoordsXYRangedZ := { rxy : CoordsXY; baseZ : Z; clearanceZ : Z }.

Inductive rct_string_id :=
| STR_NONE
| STR_FORBIDDEN_BY_THE_LOCAL_AUTHORITY
| STR_LAND_NOT_OWNED_BY_PARK
| STR_OFF_EDGE_OF_MAP
| STR_TOO_LOW
| STR_TOO_HIGH
| STR_SUPPORTS_CANT_BE_EXTENDED
| STR_REMOVE_LEVEL_CROSSING_FIRST
| STR_ID (n : Z).

Definition is_STR_NONE (s : rct_string_id) : bool :=
  match s with STR_NONE => true | _ => false end.

(** Modelled from the spec: the result type of a game action is declared in
    actions/GameAction.h, outside LandSetHeightAction.cpp.  The spec gives
    the result surface as an outcome, a cost in signed currency units, a
    position hint and a localized-message identifier with arguments. *)
Module GameActions.

Inductive Status :=
| Ok | InvalidParameters | Disallowed | GamePaused | InsufficientFunds
| NotInEditorMode | NotOwned | TooLow | TooHigh | NoClearance
| ItemAlreadyPlaced | NotClosed | Broken | NoFreeElements | Unknown.

Definition is_Ok (s : Status) : bool :=
  match s with Ok => true | _ => false end.

Inductive ExpenditureType := Landscaping | Count.

Record Result := {
  Error : Status;
  ErrorTitle : rct_string_id;
  ErrorMessage : rct_string_id;
  ErrorMessageArgs : list Z;
  Position : CoordsXYZ;
  Cost : Z;
  Expenditure : ExpenditureType
}.

Definition LOCATION_NULL : Z := -32768.

(** [Result()] *)
Definition Result0 : Result :=
  {| Error := Ok; ErrorTitle := STR_NONE; ErrorMessage := STR_NONE;
     ErrorMessageArgs := [];
     Position := {| xy := {| x := LOCATION_NULL; y := LOCATION_NULL |}; z := LOCATION_NULL |};
     Cost := 0; Expenditure := Count |}.

(** [Result(error, message)] *)
Definition Result2 (error : Status) (message : rct_string_id) : Result :=
  {| Error := error; ErrorTitle := STR_NONE; ErrorMessage := message;
     ErrorMessageArgs := ErrorMessageArgs Result0;
     Position := Position Result0; Cost := 0; Expenditure := Count |}.

(** [Result(error, title, message, args)] *)
Definition Result4 (error : Status) (title message : rct_string_id) (args : list Z) : Result :=
  {| Error := error; ErrorTitle := title; ErrorMessage := message;
     ErrorMessageArgs := args;
     Position := Position Result0; Cost := 0; Expenditure := Count |}.

End GameActions.

Import GameActions.

(** The surface payload of a tile element. *)
Record SurfaceElement := {
  Slope : Z;                       (* uint8_t *)
  WaterHeight : Z;                 (* uint8_t, in steps of 16 coordinate units *)
  HasTrackThatNeedsWater : bool
}.

(** The part of [rct_scenery_entry] the action reads. *)
Record rct_scenery_entry := {
  removal_price : Z;               (* int16_t *)
  flags : Z                        (* uint32_t *)
}.

(** A tile element is a tagged union; [GetType] is the tag.  A small-scenery
    element carries the object entry that [GetEntry] resolves for it, a
    track element the index of its ride. *)
Inductive TileElementBody :=
| Surface (s : SurfaceElement)
| Path
| Track (RideIndex : Z)
| SmallScenery (entry : rct_scenery_entry)
| Entrance
| Wall
| LargeScenery
| Banner
| Corrupt.

Record TileElement := {
  body : TileElementBody;
  base_height : Z;                 (* uint8_t *)
  clearance_height : Z;            (* uint8_t *)
  IsGhost : bool
}.

Inductive TileElementType :=
| TILE_ELEMENT_TYPE_SURFACE | TILE_ELEMENT_TYPE_PATH | TILE_ELEMENT_TYPE_TRACK
| TILE_ELEMENT_TYPE_SMALL_SCENERY | TILE_ELEMENT_TYPE_ENTRANCE | TILE_ELEMENT_TYPE_WALL
| TILE_ELEMENT_TYPE_LARGE_SCENERY | TILE_ELEMENT_TYPE_BANNER | TILE_ELEMENT_TYPE_CORRUPT.

Definition GetType (te : TileElement) : TileElementType :=
  match body te with
  | Surface _ => TILE_ELEMENT_TYPE_SURFACE
  | Path => TILE_ELEMENT_TYPE_PATH
  | Track _ => TILE_ELEMENT_TYPE_TRACK
  | SmallScenery _ => TILE_ELEMENT_TYPE_SMALL_SCENERY
  | Entrance => TILE_ELEMENT_TYPE_ENTRANCE
  | Wall => TILE_ELEMENT_TYPE_WALL
  | LargeScenery => TILE_ELEMENT_TYPE_LARGE_SCENERY
  | Banner => TILE_ELEMENT_TYPE_BANNER
  | Corrupt => TILE_ELEMENT_TYPE_CORRUPT
  end.

Definition AsSurface (te : TileElement) : option SurfaceElement :=
  match body te with Surface s => Some s | _ => None end.

Definition AsSmallScenery (te : TileElement) : option rct_scenery_entry :=
  match body te with SmallScenery e => Some e | _ => None end.

Definition AsTrack (te : TileElement) : option Z :=
  match body te with Track r => Some r | _ => None end.

Definition GetBaseZ (te : TileElement) : Z := base_height te * COORDS_Z_STEP.
Definition GetClearanceZ (te : TileElement) : Z := clearance_height te * COORDS_Z_STEP.

Definition scenery_small_entry_has_flag (e : rct_scenery_entry) (flag : Z) : bool :=
  has_flag (flags e) flag.

(** What [CheckRideSupports] reads of a ride: the [max_height] of its ride
    entry (when the entry is loaded) and the [Heights.MaxHeight] of its ride
    type descriptor. *)
Record Ride := {
  ride_entry_max_height : option Z;
  type_descriptor_MaxHeight : Z
}.

(** The process-wide state the action reads and writes.  The tile grid maps
    a tile position to the cell's element stack, first element first; the
    element that ends the list is the one flagged last-for-tile. *)
Record GameState := {
  gParkFlags : Z;
  gScreenFlags : Z;
  gCheatsSandboxMode : bool;
  gCheatsDisableClearanceChecks : bool;
  gCheatsDisableSupportLimits : bool;
  gMapSizeMaxXY : Z;
  gTileElements : gmap (Z * Z) (list TileElement);
  gRides : gmap Z Ride;
  gLitter : list CoordsXYZ;
  gCash : Z
}.

(** The command parameters. *)
Record LandSetHeightAction := {
  _coords : CoordsXY;
  _height : Z;                     (* uint8_t *)
  _style : Z                       (* uint8_t *)
}.

(** ** The state monad *)

Definition Game (A : Type) : Type := GameState -> A * GameState.

Definition ret {A} (a : A) : Game A := fun s => (a, s).

Definition bind {A B} (m : Game A) (k : A -> Game B) : Game B :=
  fun s => let (a, s') := m s in k a s'.

Definition gets {A} (f : GameState -> A) : Game A := fun s => (f s, s).

Definition modify (f : GameState -> GameState) : Game unit := fun s => (tt, f s).

Notation "'let*' x ':=' m 'in' k" := (bind m (fun x => k))
  (at level 10, x name, m at level 100, k at level 200).

Notation "m1 ';;;' m2" := (bind m1 (fun _ => m2))
  (at level 100, right associativity).

(** Early return: a checked computation either leaves with the result the
    source [return]s, or goes on with a value. *)
Definition Checked (A : Type) : Type := Game (GameActions.Result + A).

Definition pass {A} (a : A) : Checked A := ret (inr a).

Definition reject {A} (r : GameActions.Result) : Checked A := ret (inl r).

Definition lift {A} (m : Game A) : Checked A := let* a := m in ret (inr a).

Definition check_bind {A B} (m : Checked A) (k : A -> Checked B) : Checked B :=
  let* r := m in
  match r with
  | inl res => ret (inl res)
  | inr a => k a
  end.

Definition run_checked (m : Checked GameActions.Result) : Game GameActions.Result :=
  let* r := m in
  match r with
  | inl res => ret res
  | inr res => ret res
  end.

Notation "'let?' x ':=' m 'in' k" := (check_bind m (fun x => k))
  (at level 10, x name, m at level 100, k at level 200).

(** ** World-grid accessors *)

(** Modelled from the spec: [map_is_location_valid] is defined in
    world/Map.cpp, outside LandSetHeightAction.cpp; a position is on the map
    when both coordinates lie within the world's axis limits. *)
Definition map_is_location_valid (c : CoordsXY) : bool :=
  (x c <? MAXIMUM_MAP_SIZE_BIG) && (0 <=? x c) && (y c <? MAXIMUM_MAP_SIZE_BIG) && (0 <=? y c).

Definition TileCoords (c : CoordsXY) : Z * Z :=
  (Z.quot (x c) COORDS_XY_STEP, Z.quot (y c) COORDS_XY_STEP).

(** Modelled from the spec: the world-grid accessors are defined in
    world/Map.cpp, outside LandSetHeightAction.cpp; the spec lists them as
    getFirstElement, getSurfaceElement and getFootpathElement.
    [map_get_first_element_at]: the cell's stack, or nothing ([nullptr]) for
    a position off the map. *)
Definition map_get_first_element_at (s : GameState) (c : CoordsXY) : option (list TileElement) :=
  if map_is_location_valid c then gTileElements s !! TileCoords c else None.

(** The stack as the scanning loops see it: no elements when the lookup gave
    [nullptr]. *)
Definition tile_stack (s : GameState) (c : CoordsXY) : list TileElement :=
  default [] (map_get_first_element_at s c).

(** A [TileElement*] into a cell's stack is the element's position in the
    stack; pointer comparison is comparison of positions. *)
Fixpoint find_surface (stk : list TileElement) (i : nat) : option (nat * TileElement) :=
  match stk with
  | [] => None
  | te :: rest =>
    match GetType te with
    | TILE_ELEMENT_TYPE_SURFACE => Some (i, te)
    | _ => find_surface rest (S i)
    end
  end.

(** Modelled from the spec: [map_get_surface_element_at] (world/Map.cpp), the
    spec's getSurfaceElement: the first surface element of the cell, with
    its position, or nothing. *)
Definition map_get_surface_element_at (s : GameState) (c : CoordsXY) : option (nat * TileElement) :=
  match map_get_first_element_at s c with
  | None => None
  | Some stk => find_surface stk 0
  end.

(** Modelled from the spec: [map_get_footpath_element] (world/Footpath.cpp),
    the spec's getFootpathElement: the first path element of the cell whose
    base is at the given height, or nothing. *)
Fixpoint find_footpath (stk : list TileElement) (cz : Z) : option TileElement :=
  match stk with
  | [] => None
  | te :: rest =>
    match GetType te with
    | TILE_ELEMENT_TYPE_PATH => if GetBaseZ te =? cz then Some te else find_footpath rest cz
    | _ => find_footpath rest cz
    end
  end.

Definition map_get_footpath_element (s : GameState) (c : CoordsXYZ) : option TileElement :=
  find_footpath (tile_stack s (xy c)) (z c).

Definition get_ride (s : GameState) (rideIndex : Z) : option Ride := gRides s !! rideIndex.

Definition set_gTileElements (g : gmap (Z * Z) (list TileElement)) (s : GameState) : GameState :=
  {| gParkFlags := gParkFlags s;
     gScreenFlags := gScreenFlags s;
     gCheatsSandboxMode := gCheatsSandboxMode s;
     gCheatsDisableClearanceChecks := gCheatsDisableClearanceChecks s;
     gCheatsDisableSupportLimits := gCheatsDisableSupportLimits s;
     gMapSizeMaxXY := gMapSizeMaxXY s;
     gTileElements := g;
     gRides := gRides s;
     gLitter := gLitter s;
     gCash := gCash s |}.

Definition set_gLitter (l : list CoordsXYZ) (s : GameState) : GameState :=
  {| gParkFlags := gParkFlags s;
     gScreenFlags := gScreenFlags s;
     gCheatsSandboxMode := gCheatsSandboxMode s;
     gCheatsDisableClearanceChecks := gCheatsDisableClearanceChecks s;
     gCheatsDisableSupportLimits := gCheatsDisableSupportLimits s;
     gMapSizeMaxXY := gMapSizeMaxXY s;
     gTileElements := gTileElements s;
     gRides := gRides s;
     gLitter := l;
     gCash := gCash s |}.

(** Rewrite the stack of the cell at [c]; nothing happens off the map or
    where the grid holds no stack. *)
Definition update_tile_stack (c : CoordsXY) (f : list TileElement -> list TileElement)
    (s : GameState) : GameState :=
  match map_get_first_element_at s c with
  | None => s
  | Some stk => set_gTileElements (<[TileCoords c := f stk]> (gTileElements s)) s
  end.

(** Modelled from the spec: [tile_element_remove] is defined in world/Map.cpp,
    outside LandSetHeightAction.cpp.  The spec describes the storage as a
    packed element stack compacted in place on removal: the element at the
    given position is detached and its successors move down by one, the new
    last element taking the last-for-tile mark. *)
Definition tile_element_remove (stk : list TileElement) (i : nat) : list TileElement :=
  delete i stk.

(** A wall element overlapping the given height range. *)
Definition wall_in_range (r : CoordsXYRangedZ) (te : TileElement) : bool :=
  match GetType te with
  | TILE_ELEMENT_TYPE_WALL => (baseZ r <? GetClearanceZ te) && (GetBaseZ te <? clearanceZ r)
  | _ => false
  end.

(** Modelled from the spec: [wall_remove_at] is defined in world/Wall.cpp,
    outside LandSetHeightAction.cpp; the spec lists it as the "wall removal"
    step of [Execute].  It removes every wall element of the cell that
    overlaps the given height range. *)
Definition wall_remove_at (r : CoordsXYRangedZ) (s : GameState) : GameState :=
  update_tile_stack (rxy r) (List.filter (fun te => negb (wall_in_range r te))) s.

(** A piece of litter on the cell of [pos], within 32 height units of it. *)
Definition litter_in_reach (pos l : CoordsXYZ) : bool :=
  (Z.quot (x (xy l)) COORDS_XY_STEP =? Z.quot (x (xy pos)) COORDS_XY_STEP)
  && (Z.quot (y (xy l)) COORDS_XY_STEP =? Z.quot (y (xy pos)) COORDS_XY_STEP)
  && (Z.abs (z l - z pos) <=? 32).

(** Modelled from the spec: [footpath_remove_litter] is defined in
    world/Footpath.cpp, outside LandSetHeightAction.cpp; the spec lists it as
    the "litter cleanup" step of [Execute].  It removes the litter lying on
    the cell within 32 height units of the given position. *)
Definition footpath_remove_litter (pos : CoordsXYZ) (s : GameState) : GameState :=
  set_gLitter (List.filter (fun l => negb (litter_in_reach pos l)) (gLitter s)) s.

(** Modelled from the spec: [map_get_corner_height] is defined in
    world/Map.cpp, outside LandSetHeightAction.cpp.  The spec derives a corner's effective height
    from base height and slope style per direction: a raised corner stands 2
    above the base, 4 when the slope is the diagonal one whose opposite
    corner is the low one.  The result is a [uint8_t]. *)
Definition map_get_corner_height (z0 slope direction : Z) : Z :=
  let raise (up opposite_dn : Z) : Z :=
    if has_flag slope up then
      if slope =? Z.lor opposite_dn TILE_ELEMENT_SLOPE_DOUBLE_HEIGHT then z0 + 4 else z0 + 2
    else z0 in
  wrap_uint8
    (if direction =? 0 then raise TILE_ELEMENT_SLOPE_N_CORNER_UP TILE_ELEMENT_SLOPE_S_CORNER_DN
     else if direction =? 1 then raise TILE_ELEMENT_SLOPE_E_CORNER_UP TILE_ELEMENT_SLOPE_W_CORNER_DN
     else if direction =? 2 then raise TILE_ELEMENT_SLOPE_S_CORNER_UP TILE_ELEMENT_SLOPE_N_CORNER_DN
     else if direction =? 3 then raise TILE_ELEMENT_SLOPE_W_CORNER_UP TILE_ELEMENT_SLOPE_E_CORNER_DN
     else z0).

(** Modelled from the spec: the surface accessors are defined in
    world/Surface.cpp, outside LandSetHeightAction.cpp.  [GetSlope] and [SetSlope] read and store the
    slope style; the water height is stored in steps of 16 coordinate units
    and [GetWaterHeight] returns it in coordinate units. *)
Definition GetSlope (s : SurfaceElement) : Z := Slope s.

Definition SetSlope (newSlope : Z) (s : SurfaceElement) : SurfaceElement :=
  {| Slope := newSlope; WaterHeight := WaterHeight s;
     HasTrackThatNeedsWater := HasTrackThatNeedsWater s |}.

Definition GetWaterHeight (s : SurfaceElement) : Z := WaterHeight s * 16.

Definition SetWaterHeight (newWaterHeight : Z) (s : SurfaceElement) : SurfaceElement :=
  {| Slope := Slope s; WaterHeight := Z.quot newWaterHeight 16;
     HasTrackThatNeedsWater := HasTrackThatNeedsWater s |}.

Definition tile_element_get_corner_height (surfaceElement : TileElement) (direction : Z) : Z :=
  match AsSurface surfaceElement with
  | Some s => map_get_corner_height (base_height surfaceElement) (GetSlope s) direction
  | None => map_get_corner_height (base_height surfaceElement) 0 direction
  end.

Definition ALL_DIRECTIONS : list Z := [0; 1; 2; 3].

(** ** Collaborators

    The action consumes the rest of the engine through a handful of calls
    whose bodies are not part of this file's source.  The read-only ones are
    kept abstract: they may inspect the whole game state but cannot change
    it.  The two land-height limits are constants of world/Map.h. *)
Record Engine := {
  MINIMUM_LAND_HEIGHT : Z;
  MAXIMUM_LAND_HEIGHT : Z;
  (* the cell lies within park-owned territory *)
  map_is_location_in_park : GameState -> CoordsXY -> bool;
  (* PathElement::IsLevelCrossing of the given path element *)
  IsLevelCrossing : GameState -> TileElement -> CoordsXYZ -> bool;
  (* the construction-clearance collaborator, called with
     map_set_land_height_clear_func, all four quadrants, no flags and
     CREATE_CROSSING_MODE_NONE *)
  MapCanConstructWithClearAt : GameState -> CoordsXYRangedZ -> Result;
  (* the message and arguments that map_obstruction_set_error_text writes
     into a result for the element at the given position of the cell *)
  map_obstruction_set_error_text : GameState -> CoordsXY -> nat -> rct_string_id * list Z;
  (* the ground height at a position *)
  tile_element_height : GameState -> CoordsXY -> Z
}.

(** Modelled from the spec: [GameAction::LocationValid] is defined in
    actions/GameAction.cpp, outside LandSetHeightAction.cpp; the spec asks
    that the cell be within world bounds.  It is [map_is_location_valid],
    its scripting hook left out. *)
Definition LocationValid (c : CoordsXY) : bool := map_is_location_valid c.

(** [MakeResult(status, STR_NONE)] followed by
    [map_obstruction_set_error_text(tileElement, *res)]. *)
Definition obstruction_result (status : Status) (text : rct_string_id * list Z) : Result :=
  {| Error := status; ErrorTitle := STR_NONE; ErrorMessage := fst text;
     ErrorMessageArgs := snd text;
     Position := Position Result0; Cost := 0; Expenditure := Count |}.

Section Action.

Context (E : Engine).

(** ** Parameter validation *)

Definition CheckParameters (a : LandSetHeightAction) : Game rct_string_id :=
  if negb (LocationValid (_coords a)) then ret STR_OFF_EDGE_OF_MAP
  else
  let* mapSizeMaxXY := gets gMapSizeMaxXY in
  if (x (_coords a) >? mapSizeMaxXY) || (y (_coords a) >? mapSizeMaxXY)
  then ret STR_OFF_EDGE_OF_MAP
  else if _height a <? MINIMUM_LAND_HEIGHT E then ret STR_TOO_LOW
  else if _height a >? MAXIMUM_LAND_HEIGHT E then ret STR_TOO_HIGH
  else if (_height a >? MAXIMUM_LAND_HEIGHT E - 2)
          && negb (Z.land (_style a) TILE_ELEMENT_SURFACE_SLOPE_MASK =? 0)
  then ret STR_TOO_HIGH
  else if (_height a =? MAXIMUM_LAND_HEIGHT E - 2)
          && has_flag (_style a) TILE_ELEMENT_SURFACE_DIAGONAL_FLAG
  then ret STR_TOO_HIGH
  else ret STR_NONE.

(** ** Scans over the cell's element stack

    Each scan is the source's [do ... while (!(tileElement++)->IsLastForTile())]
    loop; [continue] moves on to the next element, and the loop ends behind
    the flagged last one.  [i] is the position of the head of the list in
    the cell's stack. *)

Fixpoint CheckTreeObstructions_loop (height : Z) (stk : list TileElement) (i : nat) : option nat :=
  match stk with
  | [] => None
  | tileElement :: rest =>
    match AsSmallScenery tileElement with
    | None => CheckTreeObstructions_loop height rest (S i)
    | Some sceneryEntry =>
      if height >? clearance_height tileElement then CheckTreeObstructions_loop height rest (S i)
      else if height + 4 <? base_height tileElement then CheckTreeObstructions_loop height rest (S i)
      else if scenery_small_entry_has_flag sceneryEntry SMALL_SCENERY_FLAG_IS_TREE then Some i
      else CheckTreeObstructions_loop height rest (S i)
    end
  end.

Definition CheckTreeObstructions (a : LandSetHeightAction) : Game (option nat) :=
  gets (fun s => CheckTreeObstructions_loop (_height a) (tile_stack s (_coords a)) 0).

Fixpoint GetSmallSceneryRemovalCost_loop (height : Z) (stk : list TileElement) (cost : Z) : Z :=
  match stk with
  | [] => cost
  | tileElement :: rest =>
    match AsSmallScenery tileElement with
    | None => GetSmallSceneryRemovalCost_loop height rest cost
    | Some sceneryEntry =>
      if height >? clearance_height tileElement then GetSmallSceneryRemovalCost_loop height rest cost
      else if height + 4 <? base_height tileElement then GetSmallSceneryRemovalCost_loop height rest cost
      else GetSmallSceneryRemovalCost_loop height rest
             (money32_add cost (MONEY (removal_price sceneryEntry) 0))
    end
  end.

Definition GetSmallSceneryRemovalCost (a : LandSetHeightAction) : Game Z :=
  gets (fun s => GetSmallSceneryRemovalCost_loop (_height a) (tile_stack s (_coords a)) 0).

(** Modelled from the spec: [IsLastForTile] and the array the stacks are
    stored in belong to the world grid (world/TileElement.cpp, world/Map.cpp),
    outside LandSetHeightAction.cpp; the spec describes a packed element
    stack with a last-for-tile sentinel.  This is [IsLastForTile()] of the
    element at cursor [cur].  Inside the stack it is the mark of the last
    element.  One slot before the stack's first element the cursor has left
    the cell: the stacks lie back to back in one packed array, each ended by
    its marked element, so that slot ends another stack and carries the
    mark. *)
Definition IsLastForTile_at (stk : list TileElement) (cur : Z) : bool :=
  if cur <? 0 then true else cur + 1 =? Z.of_nat (length stk).

(** One round of the removal loop's body: the stack and the cursor after it.
    [tile_element_remove(tileElement--)] removes at the cursor and steps the
    cursor back. *)
Definition SmallSceneryRemoval_body (height : Z) (stk : list TileElement) (cur : Z)
    : list TileElement * Z :=
  match stk !! Z.to_nat cur with
  | None => (stk, cur)
  | Some tileElement =>
    match AsSmallScenery tileElement with
    | None => (stk, cur)
    | Some _ =>
      if height >? clearance_height tileElement then (stk, cur)
      else if height + 4 <? base_height tileElement then (stk, cur)
      else (tile_element_remove stk (Z.to_nat cur), cur - 1)
    end
  end.

(** The loop: body, then [while (!(tileElement++)->IsLastForTile())]. *)
Fixpoint SmallSceneryRemoval_loop (fuel : nat) (height : Z) (stk : list TileElement) (cur : Z)
    : list TileElement :=
  match fuel with
  | O => stk
  | S fuel' =>
    let '(stk', cur') := SmallSceneryRemoval_body height stk cur in
    if IsLastForTile_at stk' cur' then stk'
    else SmallSceneryRemoval_loop fuel' height stk' (cur' + 1)
  end.

(** Every round either advances the cursor or shortens the stack, so the
    length of the stack bounds the number of rounds. *)
Definition SmallSceneryRemoval_stack (height : Z) (stk : list TileElement) : list TileElement :=
  match stk with
  | [] => []
  | _ => SmallSceneryRemoval_loop (length stk) height stk 0
  end.

Definition SmallSceneryRemoval (a : LandSetHeightAction) : Game unit :=
  modify (update_tile_stack (_coords a) (SmallSceneryRemoval_stack (_height a))).

Fixpoint CheckRideSupports_loop (s : GameState) (height : Z) (stk : list TileElement)
    : rct_string_id :=
  match stk with
  | [] => STR_NONE
  | tileElement :: rest =>
    match AsTrack tileElement with
    | None => CheckRideSupports_loop s height rest
    | Some rideIndex =>
      match get_ride s rideIndex with
      | None => CheckRideSupports_loop s height rest
      | Some ride =>
        match ride_entry_max_height ride with
        | None => CheckRideSupports_loop s height rest
        | Some max_height =>
          let maxHeight := if max_height =? 0 then type_descriptor_MaxHeight ride else max_height in
          let zDelta := clearance_height tileElement - height in
          if (zDelta >=? 0) && (Z.quot zDelta 2 >? maxHeight)
          then STR_SUPPORTS_CANT_BE_EXTENDED
          else CheckRideSupports_loop s height rest
        end
      end
    end
  end.

Definition CheckRideSupports (a : LandSetHeightAction) : Game rct_string_id :=
  gets (fun s => CheckRideSupports_loop s (_height a) (tile_stack s (_coords a))).

(** [surfaceElement] is the surface with its position; the result, when there
    is one, is the position behind it ([++surfaceElement]). *)
Definition CheckFloatingStructures (a : LandSetHeightAction)
    (surfaceElement : nat * TileElement) (zCorner : Z) : option nat :=
  match AsSurface (snd surfaceElement) with
  | None => None
  | Some surface =>
    if HasTrackThatNeedsWater surface then
      let waterHeight := wrap_uint32 (GetWaterHeight surface) in
      if negb (waterHeight =? 0) then
        let zCorner1 :=
          if negb (Z.land (_style a) TILE_ELEMENT_SURFACE_SLOPE_MASK =? 0) then
            if has_flag (_style a) TILE_ELEMENT_SURFACE_DIAGONAL_FLAG
            then wrap_uint8 (wrap_uint8 (zCorner + 2) + 2)
            else wrap_uint8 (zCorner + 2)
          else zCorner in
        if zCorner1 >? wrap_uint32 (Z.quot waterHeight COORDS_Z_STEP - 2)
        then Some (S (fst surfaceElement))
        else None
      else None
    else None
  end.

Fixpoint CheckUnremovableObstructions_loop (height : Z) (surfaceElement : nat) (zCorner : Z)
    (stk : list TileElement) (i : nat) : option nat :=
  match stk with
  | [] => None
  | tileElement :: rest =>
    let continue := CheckUnremovableObstructions_loop height surfaceElement zCorner rest (S i) in
    match GetType tileElement with
    | TILE_ELEMENT_TYPE_WALL => continue
    | TILE_ELEMENT_TYPE_SMALL_SCENERY => continue
    | _ =>
      if IsGhost tileElement then continue
      else if Nat.eqb i surfaceElement then continue
      else if Nat.ltb surfaceElement i then
        if zCorner >? base_height tileElement then Some i else continue
      else if height <? clearance_height tileElement then Some i
      else continue
    end
  end.

Definition CheckUnremovableObstructions (a : LandSetHeightAction)
    (surfaceElement : nat * TileElement) (zCorner : Z) : Game (option nat) :=
  gets (fun s => CheckUnremovableObstructions_loop (_height a) (fst surfaceElement) zCorner
                   (tile_stack s (_coords a)) 0).

(** ** Cost of the height change *)

Definition GetSurfaceHeightChangeCost (a : LandSetHeightAction) (surfaceElement : TileElement) : Z :=
  fold_left
    (fun cost i =>
       let cornerHeight :=
         tile_element_get_corner_height surfaceElement i
         - map_get_corner_height (_height a)
             (Z.land (_style a) TILE_ELEMENT_SURFACE_SLOPE_MASK) i in
       money32_add cost (MONEY (Z.quot (Z.abs cornerHeight * 5) 2) 0))
    ALL_DIRECTIONS 0.

(** ** Applying the new height *)

(** The writes of [SetSurfaceHeight] to the surface element.
    [map_invalidate_tile_full] only schedules a redraw and has no part in
    the game state. *)
Definition SetSurfaceHeight_element (a : LandSetHeightAction) (surfaceElement : TileElement)
    : TileElement :=
  {| body :=
       match body surfaceElement with
       | Surface surface =>
         let surface1 := SetSlope (_style a) surface in
         let waterHeight := Z.quot (wrap_uint32 (GetWaterHeight surface1)) COORDS_Z_STEP in
         if negb (waterHeight =? 0) && (waterHeight <=? _height a)
         then Surface (SetWaterHeight 0 surface1)
         else Surface surface1
       | other => other
       end;
     base_height := _height a;
     clearance_height := _height a;
     IsGhost := IsGhost surfaceElement |}.

Definition SetSurfaceHeight (a : LandSetHeightAction) (surfaceElement : nat * TileElement)
    : Game unit :=
  modify (update_tile_stack (_coords a)
            (alter (SetSurfaceHeight_element a) (fst surfaceElement))).

(** The upper corner height [Query] hands to the clearance checks. *)
Definition Query_zCorner (a : LandSetHeightAction) : Z :=
  if has_flag (_style a) TILE_ELEMENT_SURFACE_RAISED_CORNERS_MASK then
    if has_flag (_style a) TILE_ELEMENT_SURFACE_DIAGONAL_FLAG
    then wrap_uint8 (wrap_uint8 (_height a + 2) + 2)
    else wrap_uint8 (_height a + 2)
  else _height a.

(** ** Query *)

Definition Query_checks (a : LandSetHeightAction) : Checked Result :=
  let? parkFlags := lift (gets gParkFlags) in
  let? _ :=
    if has_flag parkFlags PARK_FLAGS_FORBID_LANDSCAPE_CHANGES
    then reject (Result2 Disallowed STR_FORBIDDEN_BY_THE_LOCAL_AUTHORITY)
    else pass tt in
  let? errorTitle := lift (CheckParameters a) in
  let? _ :=
    if negb (is_STR_NONE errorTitle)
    then reject (Result2 Disallowed errorTitle)
    else pass tt in
  let? screenFlags := lift (gets gScreenFlags) in
  let? sandboxMode := lift (gets gCheatsSandboxMode) in
  let? _ :=
    if negb (has_flag screenFlags SCREEN_FLAGS_SCENARIO_EDITOR) && negb sandboxMode then
      let? inPark := lift (gets (fun s => map_is_location_in_park E s (_coords a))) in
      if negb inPark
      then reject (Result2 Disallowed STR_LAND_NOT_OWNED_BY_PARK)
      else pass tt
    else pass tt in
  let? disableClearanceChecks := lift (gets gCheatsDisableClearanceChecks) in
  let? sceneryRemovalCost :=
    if negb disableClearanceChecks then
      let? parkFlags := lift (gets gParkFlags) in
      let? _ :=
        if has_flag parkFlags PARK_FLAGS_FORBID_TREE_REMOVAL then
          (* Check for obstructing large trees *)
          let? tileElement := lift (CheckTreeObstructions a) in
          match tileElement with
          | Some p =>
            let? text := lift (gets (fun s => map_obstruction_set_error_text E s (_coords a) p)) in
            reject (obstruction_result Disallowed text)
          | None => pass tt
          end
        else pass tt in
      lift (GetSmallSceneryRemovalCost a)
    else pass 0 in
  (* Check for ride support limits *)
  let? disableSupportLimits := lift (gets gCheatsDisableSupportLimits) in
  let? _ :=
    if negb disableSupportLimits then
      let? errorTitle := lift (CheckRideSupports a) in
      if negb (is_STR_NONE errorTitle)
      then reject (Result2 Disallowed errorTitle)
      else pass tt
    else pass tt in
  let? surface := lift (gets (fun s => map_get_surface_element_at s (_coords a))) in
  match surface with
  | None => reject (Result2 Unknown STR_NONE)
  | Some surfaceElement =>
    (* the level crossing is looked up at the old height *)
    let oldCoords := {| xy := _coords a; z := GetBaseZ (snd surfaceElement) |} in
    let? pathElement := lift (gets (fun s => map_get_footpath_element s oldCoords)) in
    let? _ :=
      match pathElement with
      | Some path =>
        let? crossing := lift (gets (fun s => IsLevelCrossing E s path oldCoords)) in
        if crossing
        then reject (Result2 Disallowed STR_REMOVE_LEVEL_CROSSING_FIRST)
        else pass tt
      | None => pass tt
      end in
    let? _ :=
      match CheckFloatingStructures a surfaceElement (_height a) with
      | Some p =>
        let? text := lift (gets (fun s => map_obstruction_set_error_text E s (_coords a) p)) in
        reject (obstruction_result Disallowed text)
      | None => pass tt
      end in
    let? disableClearanceChecks := lift (gets gCheatsDisableClearanceChecks) in
    let? _ :=
      if negb disableClearanceChecks then
        let zCorner := Query_zCorner a in
        let? clearResult :=
          lift (gets (fun s => MapCanConstructWithClearAt E s
                                 {| rxy := _coords a;
                                    baseZ := _height a * COORDS_Z_STEP;
                                    clearanceZ := zCorner * COORDS_Z_STEP |})) in
        let? _ :=
          if negb (is_Ok (Error clearResult))
          then reject (Result4 Disallowed STR_NONE (ErrorMessage clearResult)
                         (ErrorMessageArgs clearResult))
          else pass tt in
        let? tileElement := lift (CheckUnremovableObstructions a surfaceElement zCorner) in
        match tileElement with
        | Some p =>
          let? text := lift (gets (fun s => map_obstruction_set_error_text E s (_coords a) p)) in
          reject (obstruction_result Disallowed text)
        | None => pass tt
        end
      else pass tt in
    pass {| Error := Ok; ErrorTitle := STR_NONE; ErrorMessage := STR_NONE;
            ErrorMessageArgs := ErrorMessageArgs Result0;
            Position := Position Result0;
            Cost := money32_add sceneryRemovalCost
                      (GetSurfaceHeightChangeCost a (snd surfaceElement));
            Expenditure := Landscaping |}
  end.

Definition Query (a : LandSetHeightAction) : Game Result := run_checked (Query_checks a).

(** ** Execute *)

Definition Execute (a : LandSetHeightAction) : Game Result :=
  let cost := MONEY 0 0 in
  let* surfaceHeight := gets (fun s => tile_element_height E s (_coords a)) in
  modify (footpath_remove_litter {| xy := _coords a; z := surfaceHeight |}) ;;;
  let* disableClearanceChecks := gets gCheatsDisableClearanceChecks in
  let* cost :=
    if negb disableClearanceChecks then
      modify (wall_remove_at {| rxy := _coords a;
                                baseZ := _height a * 8 - 16;
                                clearanceZ := _height a * 8 + 32 |}) ;;;
      let* removal := GetSmallSceneryRemovalCost a in
      SmallSceneryRemoval a ;;;
      ret (money32_add cost removal)
    else ret cost in
  let* surface := gets (fun s => map_get_surface_element_at s (_coords a)) in
  match surface with
  | None => ret (Result2 Unknown STR_NONE)
  | Some surfaceElement =>
    let cost := money32_add cost (GetSurfaceHeightChangeCost a (snd surfaceElement)) in
    SetSurfaceHeight a surfaceElement ;;;
    ret {| Error := Ok; ErrorTitle := STR_NONE; ErrorMessage := STR_NONE;
           ErrorMessageArgs := ErrorMessageArgs Result0;
           Position := {| xy := {| x := x (_coords a) + 16; y := y (_coords a) + 16 |};
                          z := surfaceHeight |};
           Cost := cost;
           Expenditure := Landscaping |}
  end.

End Action.

(** * Vocabulary of the properties *)

(** A computation is read-only when it hands back the state it was given. *)
Definition read_only {A} (m : Game A) : Prop := forall s, snd (m s) = s.

(** The height test the three scenery scans share: the element reaches up to
    the target height and starts no more than 4 units above it. *)
Definition overlaps_target (height : Z) (te : TileElement) : Prop :=
  height <= clearance_height te /\ base_height te <= height + 4.

(** The signed difference, at corner [i], between the surface's present
    corner height and the one the command asks for. *)
Definition corner_delta (a : LandSetHeightAction) (surfaceElement : TileElement) (i : Z) : Z :=
  tile_element_get_corner_height surfaceElement i
  - map_get_corner_height (_height a) (Z.land (_style a) TILE_ELEMENT_SURFACE_SLOPE_MASK) i.

Definition corner_delta_sum (a : LandSetHeightAction) (surfaceElement : TileElement) : Z :=
  Z.abs (corner_delta a surfaceElement 0) + Z.abs (corner_delta a surfaceElement 1)
  + Z.abs (corner_delta a surfaceElement 2) + Z.abs (corner_delta a surfaceElement 3).

(** What the code charges for one corner. *)
Definition corner_cost (delta : Z) : Z := MONEY (Z.quot (Z.abs delta * 5) 2) 0.

(** The removal cost [Query] adds: none when clearance checks are disabled. *)
Definition Query_sceneryRemovalCost (a : LandSetHeightAction) (s : GameState) : Z :=
  if gCheatsDisableClearanceChecks s then 0
  else GetSmallSceneryRemovalCost_loop (_height a) (tile_stack s (_coords a)) 0.

(** The element is small scenery that the three scans select: it reaches up
    to the target height and starts no more than 4 units above it. *)
Definition qualifies_for_removal (height : Z) (te : TileElement) : bool :=
  match AsSmallScenery te with
  | Some _ => negb (height >? clearance_height te) && negb (height + 4 <? base_height te)
  | None => false
  end.

(** The price charged for removing an element. *)
Definition removal_cost_of (te : TileElement) : Z :=
  match AsSmallScenery te with
  | Some sceneryEntry => MONEY (removal_price sceneryEntry) 0
  | None => 0
  end.

(** The sum of the removal prices of the selected elements, in [Z]. *)
Definition qualifying_price_sum (height : Z) (stk : list TileElement) : Z :=
  fold_right Z.add 0 (map removal_cost_of (List.filter (qualifies_for_removal height) stk)).

(** The stack with the selected small scenery taken out. *)
Definition without_qualifying (height : Z) (stk : list TileElement) : list TileElement :=
  List.filter (fun te => negb (qualifies_for_removal height te)) stk.

(** The state [Execute] has produced when it looks up the surface: litter
    removed, and, unless clearance checks are disabled, walls and small
    scenery removed. *)
Definition Execute_wall_range (a : LandSetHeightAction) : CoordsXYRangedZ :=
  {| rxy := _coords a; baseZ := _height a * 8 - 16; clearanceZ := _height a * 8 + 32 |}.

Section ExecuteStages.

Context (E : Engine).

Definition Execute_unlittered (a : LandSetHeightAction) (s : GameState) : GameState :=
  footpath_remove_litter {| xy := _coords a; z := tile_element_height E s (_coords a) |} s.

Definition Execute_cleared (a : LandSetHeightAction) (s : GameState) : GameState :=
  if gCheatsDisableClearanceChecks s then Execute_unlittered a s
  else update_tile_stack (_coords a) (SmallSceneryRemoval_stack (_height a))
         (wall_remove_at (Execute_wall_range a) (Execute_unlittered a s)).

(** The removal cost [Execute] charges: computed after the walls are gone and
    before the scenery is removed. *)
Definition Execute_removalCost (a : LandSetHeightAction) (s : GameState) : Z :=
  if gCheatsDisableClearanceChecks s then MONEY 0 0
  else money32_add (MONEY 0 0)
         (GetSmallSceneryRemovalCost_loop (_height a)
            (tile_stack (wall_remove_at (Execute_wall_range a) (Execute_unlittered a s))
               (_coords a)) 0).

End ExecuteStages.

(** The element is small scenery flagged as a tree that the tree scan
    selects. *)
Definition is_obstructing_tree (height : Z) (te : TileElement) : bool :=
  match AsSmallScenery te with
  | Some sceneryEntry =>
    negb (height >? clearance_height te) && negb (height + 4 <? base_height te)
    && scenery_small_entry_has_flag sceneryEntry SMALL_SCENERY_FLAG_IS_TREE
  | None => false
  end.

(** The element is a track piece of a known ride with a loaded ride entry
    whose supports would have to reach further down than the ride allows. *)
Definition supports_exceeded (s : GameState) (height : Z) (te : TileElement) : bool :=
  match AsTrack te with
  | Some rideIndex =>
    match get_ride s rideIndex with
    | Some ride =>
      match ride_entry_max_height ride with
      | Some max_height =>
        (clearance_height te - height >=? 0)
        && (Z.quot (clearance_height te - height) 2
            >? (if max_height =? 0 then type_descriptor_MaxHeight ride else max_height))
      | None => false
      end
    | None => false
    end
  | None => false
  end.

(** The element at position [i] is one the unremovable-obstruction scan
    reports, the surface being at position [surfaceElement]. *)
Definition blocks_height_change (height : Z) (surfaceElement : nat) (zCorner : Z)
    (i : nat) (te : TileElement) : bool :=
  match GetType te with
  | TILE_ELEMENT_TYPE_WALL => false
  | TILE_ELEMENT_TYPE_SMALL_SCENERY => false
  | _ =>
    negb (IsGhost te) && negb (Nat.eqb i surfaceElement)
    && (if Nat.ltb surfaceElement i then zCorner >? base_height te
        else height <? clearance_height te)
  end.

(** The command that would set a surface element to what it already is. *)
Definition describes (a : LandSetHeightAction) (te : TileElement) : Prop :=
  exists surface,
    body te = Surface surface
    /\ _height a = base_height te
    /\ Z.land (_style a) TILE_ELEMENT_SURFACE_SLOPE_MASK = GetSlope surface.

(** Two states that differ at most in the stack of the cell at [c] and in
    the litter. *)
Definition same_outside_cell (c : CoordsXY) (s s' : GameState) : Prop :=
  gParkFlags s' = gParkFlags s
  /\ gScreenFlags s' = gScreenFlags s
  /\ gCheatsSandboxMode s' = gCheatsSandboxMode s
  /\ gCheatsDisableClearanceChecks s' = gCheatsDisableClearanceChecks s
  /\ gCheatsDisableSupportLimits s' = gCheatsDisableSupportLimits s
  /\ gMapSizeMaxXY s' = gMapSizeMaxXY s
  /\ gRides s' = gRides s
  /\ gCash s' = gCash s
  /\ (forall k, k <> TileCoords c -> gTileElements s' !! k = gTileElements s !! k).

Section QueryOutcome.

Context (E : Engine).

(** The volume [Query] hands to the construction-clearance collaborator. *)
Definition Query_clearance_range (a : LandSetHeightAction) : CoordsXYRangedZ :=
  {| rxy := _coords a;
     baseZ := _height a * COORDS_Z_STEP;
     clearanceZ := Query_zCorner a * COORDS_Z_STEP |}.

(** The result of an accepted [Query]. *)
Definition Query_accepted (a : LandSetHeightAction) (sceneryRemovalCost : Z)
    (surfaceElement : nat * TileElement) : Result :=
  {| Error := Ok; ErrorTitle := STR_NONE; ErrorMessage := STR_NONE;
     ErrorMessageArgs := ErrorMessageArgs Result0;
     Position := Position Result0;
     Cost := money32_add sceneryRemovalCost (GetSurfaceHeightChangeCost a (snd surfaceElement));
     Expenditure := Landscaping |}.

(** The answer of [Query] written as one expression over the state: the
    checks in the order [Query] makes them, the first that fails giving the
    result. *)
Definition Query_outcome (a : LandSetHeightAction) (s : GameState) : Result :=
  let obstruction p :=
    obstruction_result Disallowed (map_obstruction_set_error_text E s (_coords a) p) in
  if has_flag (gParkFlags s) PARK_FLAGS_FORBID_LANDSCAPE_CHANGES
  then Result2 Disallowed STR_FORBIDDEN_BY_THE_LOCAL_AUTHORITY
  else if negb (is_STR_NONE (fst (CheckParameters E a s)))
  then Result2 Disallowed (fst (CheckParameters E a s))
  else if negb (has_flag (gScreenFlags s) SCREEN_FLAGS_SCENARIO_EDITOR)
          && negb (gCheatsSandboxMode s)
          && negb (map_is_location_in_park E s (_coords a))
  then Result2 Disallowed STR_LAND_NOT_OWNED_BY_PARK
  else
  match (if negb (gCheatsDisableClearanceChecks s)
            && has_flag (gParkFlags s) PARK_FLAGS_FORBID_TREE_REMOVAL
         then CheckTreeObstructions_loop (_height a) (tile_stack s (_coords a)) 0
         else None) with
  | Some p => obstruction p
  | None =>
    if negb (gCheatsDisableSupportLimits s)
       && negb (is_STR_NONE (CheckRideSupports_loop s (_height a) (tile_stack s (_coords a))))
    then Result2 Disallowed (CheckRideSupports_loop s (_height a) (tile_stack s (_coords a)))
    else
    match map_get_surface_element_at s (_coords a) with
    | None => Result2 Unknown STR_NONE
    | Some surfaceElement =>
      let oldCoords := {| xy := _coords a; z := GetBaseZ (snd surfaceElement) |} in
      if match map_get_footpath_element s oldCoords with
         | Some path => IsLevelCrossing E s path oldCoords
         | None => false
         end
      then Result2 Disallowed STR_REMOVE_LEVEL_CROSSING_FIRST
      else
      match CheckFloatingStructures a surfaceElement (_height a) with
      | Some p => obstruction p
      | None =>
        if gCheatsDisableClearanceChecks s then Query_accepted a 0 surfaceElement
        else
        let clearResult := MapCanConstructWithClearAt E s (Query_clearance_range a) in
        if negb (is_Ok (Error clearResult))
        then Result4 Disallowed STR_NONE (ErrorMessage clearResult)
               (ErrorMessageArgs clearResult)
        else
        match CheckUnremovableObstructions_loop (_height a) (fst surfaceElement)
                (Query_zCorner a) (tile_stack s (_coords a)) 0 with
        | Some p => obstruction p
        | None =>
          Query_accepted a
            (GetSmallSceneryRemovalCost_loop (_height a) (tile_stack s (_coords a)) 0)
            surfaceElement
        end
      end
    end
  end.

(** The checks [Query] makes before it looks up the surface all let the
    command pass: policy gate, parameter validation, ownership, protected
    trees, ride supports. *)
Definition passes_opening_checks (a : LandSetHeightAction) (s : GameState) : Prop :=
  has_flag (gParkFlags s) PARK_FLAGS_FORBID_LANDSCAPE_CHANGES = false
  /\ fst (CheckParameters E a s) = STR_NONE
  /\ (has_flag (gScreenFlags s) SCREEN_FLAGS_SCENARIO_EDITOR = true
      \/ gCheatsSandboxMode s = true
      \/ map_is_location_in_park E s (_coords a) = true)
  /\ (gCheatsDisableClearanceChecks s = false ->
      has_flag (gParkFlags s) PARK_FLAGS_FORBID_TREE_REMOVAL = true ->
      CheckTreeObstructions_loop (_height a) (tile_stack s (_coords a)) 0 = None)
  /\ (gCheatsDisableSupportLimits s = false ->
      CheckRideSupports_loop s (_height a) (tile_stack s (_coords a)) = STR_NONE).

End QueryOutcome.

(** * Scenarios *)

Module Scenario.

(** An engine with the land-height limits 2 and 142, every cell park-owned
    or not as [owned] says, every path a level crossing or not as [crossing]
    says, and a clearance collaborator that finds nothing in the way. *)
Definition engine (owned crossing : bool) : Engine :=
  {| MINIMUM_LAND_HEIGHT := 2;
     MAXIMUM_LAND_HEIGHT := 142;
     map_is_location_in_park := fun _ _ => owned;
     IsLevelCrossing := fun _ _ _ => crossing;
     MapCanConstructWithClearAt := fun _ _ => Result0;
     map_obstruction_set_error_text := fun _ _ _ => (STR_ID 0, []);
     tile_element_height := fun s c =>
       match map_get_surface_element_at s c with
       | Some surfaceElement => GetBaseZ (snd surfaceElement)
       | None => 16
       end |}.

(** A 128 x 128 map holding one cell, (10, 10), with the given stack. *)
Definition state (parkFlags : Z) (stk : list TileElement) : GameState :=
  {| gParkFlags := parkFlags;
     gScreenFlags := 0;
     gCheatsSandboxMode := false;
     gCheatsDisableClearanceChecks := false;
     gCheatsDisableSupportLimits := false;
     gMapSizeMaxXY := 4063;
     gTileElements := {[ (10, 10) := stk ]};
     gRides := ∅;
     gLitter := [];
     gCash := 100000 |}.

Definition cell : CoordsXY := {| x := 320; y := 320 |}.

Definition set_height (height style : Z) : LandSetHeightAction :=
  {| _coords := cell; _height := height; _style := style |}.

Definition surface_at (height water : Z) : TileElement :=
  {| body := Surface {| Slope := 0; WaterHeight := water; HasTrackThatNeedsWater := false |};
     base_height := height; clearance_height := height; IsGhost := false |}.

Definition bush (price base clearance : Z) : TileElement :=
  {| body := SmallScenery {| removal_price := price; flags := 0 |};
     base_height := base; clearance_height := clearance; IsGhost := false |}.

Definition tree (price base clearance : Z) : TileElement :=
  {| body := SmallScenery {| removal_price := price; flags := SMALL_SCENERY_FLAG_IS_TREE |};
     base_height := base; clearance_height := clearance; IsGhost := false |}.

Definition footpath (base : Z) : TileElement :=
  {| body := Path; base_height := base; clearance_height := base + 4; IsGhost := false |}.

End Scenario.

(** * Properties *)

(** ** Read-only computations *)

Lemma read_only_ret {A} (a : A) : read_only (ret a).
Proof. intros s. reflexivity. Qed.

Lemma read_only_gets {A} (f : GameState -> A) : read_only (gets f).
Proof. intros s. reflexivity. Qed.

Lemma read_only_bind {A B} (m : Game A) (k : A -> Game B) :
  read_only m -> (forall a, read_only (k a)) -> read_only (bind m k).
Proof.
  intros Hm Hk s. unfold bind.
  specialize (Hm s). destruct (m s) as [a s']. simpl in Hm. subst s'.
  apply Hk.
Qed.

Lemma read_only_pass {A} (a : A) : read_only (pass a).
Proof. apply read_only_ret. Qed.

Lemma read_only_reject {A} (r : Result) : read_only (@reject A r).
Proof. apply read_only_ret. Qed.

Lemma read_only_lift {A} (m : Game A) : read_only m -> read_only (lift m).
Proof. intros Hm. apply read_only_bind; [exact Hm | intros; apply read_only_ret]. Qed.

Lemma read_only_check_bind {A B} (m : Checked A) (k : A -> Checked B) :
  read_only m -> (forall a, read_only (k a)) -> read_only (check_bind m k).
Proof.
  intros Hm Hk. apply read_only_bind; [exact Hm |].
  intros [res | a]; [apply read_only_ret | apply Hk].
Qed.

Lemma read_only_run_checked (m : Checked Result) : read_only m -> read_only (run_checked m).
Proof.
  intros Hm. apply read_only_bind; [exact Hm |].
  intros [res | res]; apply read_only_ret.
Qed.

(** Running a read-only computation again, on the state the first run left,
    gives the same answer. *)
Lemma read_only_rerun {A} (m : Game A) (s : GameState) :
  read_only m -> m (snd (m s)) = m s.
Proof. intros Hm. rewrite (Hm s). reflexivity. Qed.

(** A read-only computation is determined by the value it returns. *)
Lemma read_only_run {A} (m : Game A) (s : GameState) :
  read_only m -> m s = (fst (m s), s).
Proof. intros Hm. specialize (Hm s). destruct (m s) as [a s']. simpl in *. congruence. Qed.

(** Break a computation down along its binds and branches. *)
Ltac read_only_step :=
  match goal with
  | |- read_only (ret _) => apply read_only_ret
  | |- read_only (gets _) => apply read_only_gets
  | |- read_only (pass _) => apply read_only_pass
  | |- read_only (reject _) => apply read_only_reject
  | |- read_only (lift _) => apply read_only_lift
  | |- read_only (check_bind _ _) => apply read_only_check_bind; [| intros ?]
  | |- read_only (bind _ _) => apply read_only_bind; [| intros ?]
  | |- read_only (run_checked _) => apply read_only_run_checked
  | |- read_only (if ?b then _ else _) => destruct b
  | |- read_only (match ?o with Some _ => _ | None => _ end) => destruct o
  end.

Section ActionProperties.

Context (E : Engine).

Lemma CheckParameters_read_only (a : LandSetHeightAction) : read_only (CheckParameters E a).
Proof. unfold CheckParameters. repeat read_only_step. Qed.

Lemma Query_checks_read_only (a : LandSetHeightAction) : read_only (Query_checks E a).
Proof.
  unfold Query_checks, CheckTreeObstructions, GetSmallSceneryRemovalCost,
    CheckRideSupports, CheckUnremovableObstructions.
  repeat first [ apply CheckParameters_read_only | read_only_step ].
Qed.

Lemma Query_read_only (a : LandSetHeightAction) : read_only (Query E a).
Proof. apply read_only_run_checked, Query_checks_read_only. Qed.

(** C2. Two successive calls of [Query] with the same command, the second on
    the state the first one left, return the same result: same status, same
    cost, same error message. *)
Theorem Query_twice_same_result (a : LandSetHeightAction) (s : GameState) :
  let first := Query E a s in
  let second := Query E a (snd first) in
  fst second = fst first
  /\ Error (fst second) = Error (fst first)
  /\ Cost (fst second) = Cost (fst first)
  /\ ErrorMessage (fst second) = ErrorMessage (fst first).
Proof.
  cbv zeta. rewrite (read_only_rerun (Query E a) s (Query_read_only a)). auto.
Qed.


(** Unfold [Query] down to the reads it makes. *)
Ltac unfold_Query :=
  unfold Query, run_checked, Query_checks, CheckTreeObstructions,
    GetSmallSceneryRemovalCost, CheckRideSupports, CheckUnremovableObstructions,
    check_bind, lift, pass, reject, bind, gets, ret.

Lemma Query_forbidden (a : LandSetHeightAction) (s : GameState) :
  has_flag (gParkFlags s) PARK_FLAGS_FORBID_LANDSCAPE_CHANGES = true ->
  Query E a s = (Result2 Disallowed STR_FORBIDDEN_BY_THE_LOCAL_AUTHORITY, s).
Proof.
  intros H. unfold_Query. rewrite H. reflexivity.
Qed.

(** One step through the unfolded [Query]: reduce what is known, then split
    on the next test that reads the state. *)
Ltac Query_reduce := cbv beta iota zeta; cbn [fst snd].

Ltac Query_split :=
  Query_reduce;
  match goal with
  | |- context [CheckParameters ?E ?a ?s] =>
    lazymatch goal with
    | |- context [let (_, _) := CheckParameters E a s in _] =>
      rewrite (read_only_run _ s (CheckParameters_read_only a))
    end
  | |- context [if ?c then _ else _] => destruct c eqn:?
  | |- context [match ?o with Some _ => _ | None => _ end] => destruct o eqn:?
  end;
  Query_reduce.

Lemma Query_not_owned (a : LandSetHeightAction) (s : GameState) :
  has_flag (gScreenFlags s) SCREEN_FLAGS_SCENARIO_EDITOR = false ->
  gCheatsSandboxMode s = false ->
  map_is_location_in_park E s (_coords a) = false ->
  fst (Query E a s) = Result2 Disallowed STR_FORBIDDEN_BY_THE_LOCAL_AUTHORITY
  \/ (fst (CheckParameters E a s) <> STR_NONE
      /\ fst (Query E a s) = Result2 Disallowed (fst (CheckParameters E a s)))
  \/ fst (Query E a s) = Result2 Disallowed STR_LAND_NOT_OWNED_BY_PARK.
Proof.
  intros Hed Hsb Hpark. unfold_Query.
  Query_split; [left; reflexivity | right].
  Query_split.
  destruct (is_STR_NONE (fst (CheckParameters E a s))) eqn:Ht; cbn [negb]; Query_reduce.
  - right. rewrite Hed, Hsb. cbn [negb andb]. Query_reduce. rewrite Hpark. reflexivity.
  - left. split; [intros Hn; rewrite Hn in Ht; discriminate | reflexivity].
Qed.

(** C7. With the forbid-landscape-changes park flag set, [Query] returns
    [Disallowed] (forbidden by the local authority) at once, whatever the
    command and the rest of the state.  Outside the scenario editor and
    without sandbox mode, a cell that is not park-owned is rejected with
    [Disallowed] by one of the three opening checks (policy flag, parameter
    validation, ownership), before any of the obstruction rules is run. *)
Theorem Query_authorization_gate (a : LandSetHeightAction) (s : GameState) :
  (has_flag (gParkFlags s) PARK_FLAGS_FORBID_LANDSCAPE_CHANGES = true ->
   Query E a s = (Result2 Disallowed STR_FORBIDDEN_BY_THE_LOCAL_AUTHORITY, s))
  /\ (has_flag (gScreenFlags s) SCREEN_FLAGS_SCENARIO_EDITOR = false ->
      gCheatsSandboxMode s = false ->
      map_is_location_in_park E s (_coords a) = false ->
      Error (fst (Query E a s)) = Disallowed
      /\ (fst (Query E a s) = Result2 Disallowed STR_FORBIDDEN_BY_THE_LOCAL_AUTHORITY
          \/ (fst (CheckParameters E a s) <> STR_NONE
              /\ fst (Query E a s) = Result2 Disallowed (fst (CheckParameters E a s)))
          \/ fst (Query E a s) = Result2 Disallowed STR_LAND_NOT_OWNED_BY_PARK)).
Proof.
  split; [apply Query_forbidden |].
  intros Hed Hsb Hpark.
  pose proof (Query_not_owned a s Hed Hsb Hpark) as H.
  split; [| exact H].
  destruct H as [H | [[_ H] | H]]; rewrite H; reflexivity.
Qed.

(** *** Protected trees *)

Lemma overlaps_target_tests (height : Z) (te : TileElement) :
  overlaps_target height te <->
  (height >? clearance_height te) = false /\ (height + 4 <? base_height te) = false.
Proof. unfold overlaps_target. rewrite Z.gtb_ltb, !Z.ltb_ge. tauto. Qed.

Lemma CheckTreeObstructions_loop_finds (height : Z) (stk : list TileElement) (i : nat)
    (te : TileElement) (entry : rct_scenery_entry) :
  In te stk ->
  AsSmallScenery te = Some entry ->
  scenery_small_entry_has_flag entry SMALL_SCENERY_FLAG_IS_TREE = true ->
  overlaps_target height te ->
  exists p, CheckTreeObstructions_loop height stk i = Some p.
Proof.
  intros Hin Hsc Htree Hov. revert i.
  induction stk as [| hd rest IH]; intros i; [destruct Hin |].
  cbn [CheckTreeObstructions_loop].
  destruct Hin as [-> | Hin].
  - apply overlaps_target_tests in Hov as [H1 H2].
    rewrite Hsc, H1, H2, Htree. eauto.
  - destruct (AsSmallScenery hd) as [e |]; [| apply IH, Hin].
    destruct (height >? clearance_height hd); [apply IH, Hin |].
    destruct (height + 4 <? base_height hd); [apply IH, Hin |].
    destruct (scenery_small_entry_has_flag e SMALL_SCENERY_FLAG_IS_TREE); [eauto | apply IH, Hin].
Qed.

(** C5. With the forbid-tree-removal park flag set and clearance checks not
    disabled, a small-scenery element of the cell that is flagged as a tree
    and overlaps the target height makes [Query] return [Disallowed],
    whatever else stands on the cell: the result is that of the policy gate,
    of parameter validation, of the ownership check or of the tree check
    itself, none of which looks at other obstructions or at removal cost. *)
Theorem Query_protected_tree (a : LandSetHeightAction) (s : GameState)
    (te : TileElement) (entry : rct_scenery_entry) :
  has_flag (gParkFlags s) PARK_FLAGS_FORBID_TREE_REMOVAL = true ->
  gCheatsDisableClearanceChecks s = false ->
  In te (tile_stack s (_coords a)) ->
  AsSmallScenery te = Some entry ->
  scenery_small_entry_has_flag entry SMALL_SCENERY_FLAG_IS_TREE = true ->
  _height a <= clearance_height te ->
  base_height te <= _height a + 4 ->
  Error (fst (Query E a s)) = Disallowed
  /\ exists p,
      CheckTreeObstructions_loop (_height a) (tile_stack s (_coords a)) 0 = Some p
      /\ (fst (Query E a s) = Result2 Disallowed STR_FORBIDDEN_BY_THE_LOCAL_AUTHORITY
          \/ fst (Query E a s) = Result2 Disallowed (fst (CheckParameters E a s))
          \/ fst (Query E a s) = Result2 Disallowed STR_LAND_NOT_OWNED_BY_PARK
          \/ fst (Query E a s)
             = obstruction_result Disallowed (map_obstruction_set_error_text E s (_coords a) p)).
Proof.
  intros Hflag Hclear Hin Hsc Htree Hlo Hhi.
  destruct (CheckTreeObstructions_loop_finds (_height a) _ 0%nat te entry Hin Hsc Htree
              (conj Hlo Hhi)) as [p Hp].
  assert (Hres : fst (Query E a s) = Result2 Disallowed STR_FORBIDDEN_BY_THE_LOCAL_AUTHORITY
          \/ fst (Query E a s) = Result2 Disallowed (fst (CheckParameters E a s))
          \/ fst (Query E a s) = Result2 Disallowed STR_LAND_NOT_OWNED_BY_PARK
          \/ fst (Query E a s)
             = obstruction_result Disallowed (map_obstruction_set_error_text E s (_coords a) p)).
  { unfold_Query.
    Query_split; [left; reflexivity | right].
    Query_split.
    destruct (is_STR_NONE (fst (CheckParameters E a s))); cbn [negb]; Query_reduce;
      [| left; reflexivity].
    right.
    destruct (negb (has_flag (gScreenFlags s) SCREEN_FLAGS_SCENARIO_EDITOR)
              && negb (gCheatsSandboxMode s)); Query_reduce.
    - destruct (map_is_location_in_park E s (_coords a)); cbn [negb]; Query_reduce;
        [| left; reflexivity].
      right. rewrite Hclear. cbn [negb]. Query_reduce. rewrite Hflag. Query_reduce.
      rewrite Hp. reflexivity.
    - right. rewrite Hclear. cbn [negb]. Query_reduce. rewrite Hflag. Query_reduce.
      rewrite Hp. reflexivity. }
  split; [| exists p; split; [exact Hp | exact Hres]].
  destruct Hres as [H | [H | [H | H]]]; rewrite H; reflexivity.
Qed.

(** *** Level crossings *)

Lemma Query_level_crossing_status (a : LandSetHeightAction) (s : GameState)
    (surfaceElement : nat * TileElement) (path : TileElement) :
  map_get_surface_element_at s (_coords a) = Some surfaceElement ->
  map_get_footpath_element s {| xy := _coords a; z := GetBaseZ (snd surfaceElement) |} = Some path ->
  IsLevelCrossing E s path {| xy := _coords a; z := GetBaseZ (snd surfaceElement) |} = true ->
  Error (fst (Query E a s)) = Disallowed.
Proof.
  intros Hsurf Hpath Hcross. unfold_Query.
  repeat (Query_reduce; rewrite ?Hsurf; Query_reduce; rewrite ?Hpath; Query_reduce;
          rewrite ?Hcross; Query_reduce;
          first [reflexivity | Query_split]).
Qed.

Lemma Query_level_crossing_first (a : LandSetHeightAction) (s : GameState)
    (surfaceElement : nat * TileElement) (path : TileElement) :
  map_get_surface_element_at s (_coords a) = Some surfaceElement ->
  map_get_footpath_element s {| xy := _coords a; z := GetBaseZ (snd surfaceElement) |} = Some path ->
  IsLevelCrossing E s path {| xy := _coords a; z := GetBaseZ (snd surfaceElement) |} = true ->
  has_flag (gParkFlags s) PARK_FLAGS_FORBID_LANDSCAPE_CHANGES = false ->
  fst (CheckParameters E a s) = STR_NONE ->
  (has_flag (gScreenFlags s) SCREEN_FLAGS_SCENARIO_EDITOR = true
   \/ gCheatsSandboxMode s = true
   \/ map_is_location_in_park E s (_coords a) = true) ->
  (gCheatsDisableClearanceChecks s = false ->
   has_flag (gParkFlags s) PARK_FLAGS_FORBID_TREE_REMOVAL = true ->
   CheckTreeObstructions_loop (_height a) (tile_stack s (_coords a)) 0 = None) ->
  (gCheatsDisableSupportLimits s = false ->
   CheckRideSupports_loop s (_height a) (tile_stack s (_coords a)) = STR_NONE) ->
  fst (Query E a s) = Result2 Disallowed STR_REMOVE_LEVEL_CROSSING_FIRST.
Proof.
  intros Hsurf Hpath Hcross Hgate Hparams Hown Htree Hsupp. unfold_Query.
  rewrite Hgate. Query_reduce.
  rewrite (read_only_run _ s (CheckParameters_read_only a)). Query_reduce.
  rewrite Hparams. cbn [is_STR_NONE negb]. Query_reduce.
  assert (Hown' : (if negb (has_flag (gScreenFlags s) SCREEN_FLAGS_SCENARIO_EDITOR)
                      && negb (gCheatsSandboxMode s)
                   then negb (map_is_location_in_park E s (_coords a)) else false) = false).
  { destruct (has_flag (gScreenFlags s) SCREEN_FLAGS_SCENARIO_EDITOR),
      (gCheatsSandboxMode s), (map_is_location_in_park E s (_coords a));
      try reflexivity.
    destruct Hown as [H | [H | H]]; discriminate H. }
  destruct (negb (has_flag (gScreenFlags s) SCREEN_FLAGS_SCENARIO_EDITOR)
            && negb (gCheatsSandboxMode s)); Query_reduce;
    [rewrite Hown'; Query_reduce |].
  all: destruct (gCheatsDisableClearanceChecks s) eqn:Hdis; cbn [negb]; Query_reduce.
  all: try (destruct (has_flag (gParkFlags s) PARK_FLAGS_FORBID_TREE_REMOVAL) eqn:Hft;
            Query_reduce; [rewrite (Htree eq_refl eq_refl); Query_reduce |]).
  all: destruct (gCheatsDisableSupportLimits s) eqn:Hds; cbn [negb]; Query_reduce.
  all: try (rewrite (Hsupp eq_refl); cbn [is_STR_NONE negb]; Query_reduce).
  all: rewrite Hsurf; Query_reduce; rewrite Hpath; Query_reduce; rewrite Hcross; reflexivity.
Qed.

(** *** Parameter validation *)

(** C6 (as the code has it).  Validation applies its rules in order, the
    first failing rule giving the answer.  A command whose target height is
    above maximum - 2 with any slope bit set, or equal to maximum - 2 with
    the diagonal flag set, never passes: it is answered "off edge of map"
    when its cell is outside the world bounds, else "too low" when its
    height is below the minimum, else "too high".  At exactly maximum - 2 a
    style without the diagonal flag is not rejected by these rules: within
    the bounds and not below the minimum it passes validation. *)
Theorem CheckParameters_too_high (a : LandSetHeightAction) (s : GameState) :
  let in_bounds :=
    LocationValid (_coords a) = true
    /\ x (_coords a) <= gMapSizeMaxXY s
    /\ y (_coords a) <= gMapSizeMaxXY s in
  ((MAXIMUM_LAND_HEIGHT E - 2 < _height a
    /\ Z.land (_style a) TILE_ELEMENT_SURFACE_SLOPE_MASK <> 0)
   \/ (_height a = MAXIMUM_LAND_HEIGHT E - 2
       /\ Z.land (_style a) TILE_ELEMENT_SURFACE_DIAGONAL_FLAG <> 0) ->
   fst (CheckParameters E a s) <> STR_NONE
   /\ (~ in_bounds -> fst (CheckParameters E a s) = STR_OFF_EDGE_OF_MAP)
   /\ (in_bounds -> _height a < MINIMUM_LAND_HEIGHT E ->
       fst (CheckParameters E a s) = STR_TOO_LOW)
   /\ (in_bounds -> MINIMUM_LAND_HEIGHT E <= _height a ->
       fst (CheckParameters E a s) = STR_TOO_HIGH))
  /\ (_height a = MAXIMUM_LAND_HEIGHT E - 2 ->
      Z.land (_style a) TILE_ELEMENT_SURFACE_DIAGONAL_FLAG = 0 ->
      in_bounds -> MINIMUM_LAND_HEIGHT E <= _height a ->
      fst (CheckParameters E a s) = STR_NONE).
Proof.
  cbv zeta.
  assert (Hcp : fst (CheckParameters E a s) =
    if negb (LocationValid (_coords a)) then STR_OFF_EDGE_OF_MAP
    else if (x (_coords a) >? gMapSizeMaxXY s) || (y (_coords a) >? gMapSizeMaxXY s)
    then STR_OFF_EDGE_OF_MAP
    else if _height a <? MINIMUM_LAND_HEIGHT E then STR_TOO_LOW
    else if _height a >? MAXIMUM_LAND_HEIGHT E then STR_TOO_HIGH
    else if (_height a >? MAXIMUM_LAND_HEIGHT E - 2)
            && negb (Z.land (_style a) TILE_ELEMENT_SURFACE_SLOPE_MASK =? 0)
    then STR_TOO_HIGH
    else if (_height a =? MAXIMUM_LAND_HEIGHT E - 2)
            && negb (Z.land (_style a) TILE_ELEMENT_SURFACE_DIAGONAL_FLAG =? 0)
    then STR_TOO_HIGH
    else STR_NONE).
  { unfold CheckParameters, bind, gets, ret, has_flag.
    repeat match goal with |- context [if ?c then _ else _] => destruct c end; reflexivity. }
  rewrite Hcp. clear Hcp.
  destruct (LocationValid (_coords a)); cbn [negb].
  2: { split; [intros _ | intros _ _ (H & _); discriminate].
       split; [discriminate |]. split; [reflexivity |].
       split; intros (H & _); discriminate. }
  destruct (x (_coords a) >? gMapSizeMaxXY s) eqn:Hx; cbn [orb].
  { split; [intros _ | intros _ _ (_ & H & _); lia].
    split; [discriminate |]. split; [reflexivity |].
    split; intros (_ & H & _); lia. }
  destruct (y (_coords a) >? gMapSizeMaxXY s) eqn:Hy.
  { split; [intros _ | intros _ _ (_ & _ & H); lia].
    split; [discriminate |]. split; [reflexivity |].
    split; intros (_ & _ & H); lia. }
  assert (Hin : true = true /\ x (_coords a) <= gMapSizeMaxXY s
                /\ y (_coords a) <= gMapSizeMaxXY s) by (repeat split; lia).
  destruct (_height a <? MINIMUM_LAND_HEIGHT E) eqn:Hlo.
  { split; [intros _ | intros; lia].
    split; [discriminate |]. split; [tauto |].
    split; [reflexivity | intros; lia]. }
  destruct (_height a >? MAXIMUM_LAND_HEIGHT E) eqn:Hhi.
  { split; [intros _ | intros; lia].
    split; [discriminate |]. split; [tauto |].
    split; [intros; lia | reflexivity]. }
  destruct (_height a >? MAXIMUM_LAND_HEIGHT E - 2) eqn:Hh2;
    destruct (Z.land (_style a) TILE_ELEMENT_SURFACE_SLOPE_MASK =? 0) eqn:Hsl;
    destruct (_height a =? MAXIMUM_LAND_HEIGHT E - 2) eqn:Heq;
    destruct (Z.land (_style a) TILE_ELEMENT_SURFACE_DIAGONAL_FLAG =? 0) eqn:Hd;
    cbn [negb andb]; try lia;
    (split;
     [ intros Hcase;
       first [ exfalso; destruct Hcase as [[? ?] | [? ?]]; lia
             | split; [discriminate |]; split; [tauto |];
               split; [intros; lia | reflexivity] ]
     | intros; first [reflexivity | lia] ]).
Qed.

(** *** Cost of the height change *)

Lemma wrap_int32_in_range (v : Z) :
  -2147483648 <= v < 2147483648 -> wrap_int32 v = v.
Proof. intros H. unfold wrap_int32. rewrite Z.mod_small; lia. Qed.

Lemma money32_add_in_range (u v : Z) :
  -2147483648 <= u + v < 2147483648 -> money32_add u v = u + v.
Proof. apply wrap_int32_in_range. Qed.

Lemma map_get_corner_height_range (z0 slope direction : Z) :
  0 <= map_get_corner_height z0 slope direction < 256.
Proof. unfold map_get_corner_height, wrap_uint8. apply Z.mod_pos_bound. lia. Qed.

Lemma tile_element_get_corner_height_range (te : TileElement) (i : Z) :
  0 <= tile_element_get_corner_height te i < 256.
Proof.
  unfold tile_element_get_corner_height.
  destruct (AsSurface te); apply map_get_corner_height_range.
Qed.

Lemma corner_delta_range (a : LandSetHeightAction) (te : TileElement) (i : Z) :
  -255 <= corner_delta a te i <= 255.
Proof.
  unfold corner_delta.
  pose proof (tile_element_get_corner_height_range te i).
  pose proof (map_get_corner_height_range (_height a)
                (Z.land (_style a) TILE_ELEMENT_SURFACE_SLOPE_MASK) i).
  lia.
Qed.

Lemma corner_cost_range (delta : Z) : -255 <= delta <= 255 -> 0 <= corner_cost delta <= 6370.
Proof.
  intros H. unfold corner_cost, MONEY.
  change (Z.quot 0 10) with 0.
  assert (0 <= Z.quot (Z.abs delta * 5) 2 <= 637).
  { rewrite Z.quot_div_nonneg by lia.
    pose proof (Z.div_mod (Z.abs delta * 5) 2).
    pose proof (Z.mod_pos_bound (Z.abs delta * 5) 2).
    lia. }
  lia.
Qed.

Lemma corner_cost_even (delta : Z) : Z.even delta = true -> corner_cost delta = 25 * Z.abs delta.
Proof.
  intros Hev. unfold corner_cost, MONEY. change (Z.quot 0 10) with 0.
  apply Z.even_spec in Hev as [k ->].
  replace (Z.abs (2 * k) * 5) with (Z.abs k * 5 * 2) by lia.
  rewrite Z.quot_mul by lia. lia.
Qed.

(** The four corner charges add up without leaving the [money32] range. *)
Lemma GetSurfaceHeightChangeCost_sum (a : LandSetHeightAction) (surfaceElement : TileElement) :
  GetSurfaceHeightChangeCost a surfaceElement
  = corner_cost (corner_delta a surfaceElement 0) + corner_cost (corner_delta a surfaceElement 1)
    + corner_cost (corner_delta a surfaceElement 2) + corner_cost (corner_delta a surfaceElement 3).
Proof.
  pose proof (corner_cost_range _ (corner_delta_range a surfaceElement 0)).
  pose proof (corner_cost_range _ (corner_delta_range a surfaceElement 1)).
  pose proof (corner_cost_range _ (corner_delta_range a surfaceElement 2)).
  pose proof (corner_cost_range _ (corner_delta_range a surfaceElement 3)).
  unfold GetSurfaceHeightChangeCost, ALL_DIRECTIONS. cbn [fold_left].
  fold (corner_delta a surfaceElement 0) (corner_delta a surfaceElement 1)
       (corner_delta a surfaceElement 2) (corner_delta a surfaceElement 3).
  repeat match goal with
         | |- context [MONEY (Z.quot (Z.abs ?d * 5) 2) 0] => fold (corner_cost d)
         end.
  set (c0 := corner_cost (corner_delta a surfaceElement 0)) in *.
  set (c1 := corner_cost (corner_delta a surfaceElement 1)) in *.
  set (c2 := corner_cost (corner_delta a surfaceElement 2)) in *.
  set (c3 := corner_cost (corner_delta a surfaceElement 3)) in *.
  rewrite (money32_add_in_range 0 c0) by lia.
  rewrite (money32_add_in_range (0 + c0) c1) by lia.
  rewrite (money32_add_in_range (0 + c0 + c1) c2) by lia.
  rewrite (money32_add_in_range (0 + c0 + c1 + c2) c3) by lia.
  lia.
Qed.

Lemma GetSurfaceHeightChangeCost_even (a : LandSetHeightAction) (surfaceElement : TileElement) :
  (forall i, In i ALL_DIRECTIONS -> Z.even (corner_delta a surfaceElement i) = true) ->
  GetSurfaceHeightChangeCost a surfaceElement = 25 * corner_delta_sum a surfaceElement.
Proof.
  intros Hev. rewrite GetSurfaceHeightChangeCost_sum. unfold corner_delta_sum.
  rewrite !corner_cost_even by (apply Hev; cbn; tauto). lia.
Qed.

Lemma Query_Ok_cost (a : LandSetHeightAction) (s : GameState) :
  Error (fst (Query E a s)) = Ok ->
  exists surfaceElement,
    map_get_surface_element_at s (_coords a) = Some surfaceElement
    /\ Cost (fst (Query E a s))
       = money32_add (Query_sceneryRemovalCost a s)
           (GetSurfaceHeightChangeCost a (snd surfaceElement)).
Proof.
  unfold Query_sceneryRemovalCost. unfold_Query.
  repeat (Query_split; try (intros; discriminate)).
  all: intros _; eexists; split; reflexivity.
Qed.

(** *** Small scenery: cost and removal *)

Lemma qualifies_for_removal_spec (height : Z) (te : TileElement) :
  qualifies_for_removal height te = true <->
  GetType te = TILE_ELEMENT_TYPE_SMALL_SCENERY /\ overlaps_target height te.
Proof.
  unfold qualifies_for_removal, AsSmallScenery, GetType, overlaps_target.
  destruct (body te); rewrite ?andb_true_iff, ?negb_true_iff, ?Z.gtb_ltb, ?Z.ltb_ge;
    intuition (try discriminate; try lia).
Qed.

Lemma wrap_int32_add_l (u v : Z) : wrap_int32 (wrap_int32 u + v) = wrap_int32 (u + v).
Proof.
  unfold wrap_int32. f_equal.
  replace ((u + 2147483648) mod 4294967296 - 2147483648 + v + 2147483648)
    with ((u + 2147483648) mod 4294967296 + v) by lia.
  rewrite Zplus_mod_idemp_l. f_equal. lia.
Qed.

Lemma GetSmallSceneryRemovalCost_loop_sum (height : Z) (stk : list TileElement) (cost : Z) :
  wrap_int32 (GetSmallSceneryRemovalCost_loop height stk cost)
  = wrap_int32 (cost + qualifying_price_sum height stk).
Proof.
  revert cost. unfold qualifying_price_sum.
  induction stk as [| te rest IH]; intros cost; cbn [GetSmallSceneryRemovalCost_loop List.filter].
  - cbn. f_equal. lia.
  - unfold qualifies_for_removal at 1.
    destruct (AsSmallScenery te) as [e |] eqn:Hsc; [| apply IH].
    destruct (height >? clearance_height te); cbn [negb andb]; [apply IH |].
    destruct (height + 4 <? base_height te); cbn [negb]; [apply IH |].
    rewrite IH. cbn [map fold_right].
    replace (removal_cost_of te) with (MONEY (removal_price e) 0)
      by (unfold removal_cost_of; rewrite Hsc; reflexivity).
    unfold money32_add. rewrite wrap_int32_add_l. f_equal. lia.
Qed.

Lemma wrap_int32_range (v : Z) : -2147483648 <= wrap_int32 v < 2147483648.
Proof.
  unfold wrap_int32. pose proof (Z.mod_pos_bound (v + 2147483648) 4294967296). lia.
Qed.

Lemma wrap_int32_idem (v : Z) : wrap_int32 (wrap_int32 v) = wrap_int32 v.
Proof. apply wrap_int32_in_range, wrap_int32_range. Qed.

(** The cost the scan returns is the sum of the selected elements' removal
    prices, reduced to [money32]. *)
Lemma GetSmallSceneryRemovalCost_loop_total (height : Z) (stk : list TileElement) :
  GetSmallSceneryRemovalCost_loop height stk 0 = wrap_int32 (qualifying_price_sum height stk).
Proof.
  assert (Hfix : forall l c, wrap_int32 c = c ->
            wrap_int32 (GetSmallSceneryRemovalCost_loop height l c)
            = GetSmallSceneryRemovalCost_loop height l c).
  { induction l as [| te rest IH]; intros c Hc; cbn [GetSmallSceneryRemovalCost_loop]; [exact Hc |].
    destruct (AsSmallScenery te); [| apply IH, Hc].
    destruct (height >? clearance_height te); [apply IH, Hc |].
    destruct (height + 4 <? base_height te); [apply IH, Hc |].
    apply IH. unfold money32_add. apply wrap_int32_idem. }
  rewrite <- Hfix by reflexivity.
  rewrite GetSmallSceneryRemovalCost_loop_sum. reflexivity.
Qed.

Lemma SmallSceneryRemoval_body_at (height : Z) (pre : list TileElement) (te : TileElement)
    (rest : list TileElement) :
  SmallSceneryRemoval_body height (pre ++ te :: rest) (Z.of_nat (length pre))
  = if qualifies_for_removal height te
    then (pre ++ rest, Z.of_nat (length pre) - 1)
    else (pre ++ te :: rest, Z.of_nat (length pre)).
Proof.
  unfold SmallSceneryRemoval_body, qualifies_for_removal, tile_element_remove.
  rewrite Nat2Z.id, (list_lookup_middle pre rest te) by reflexivity.
  destruct (AsSmallScenery te); [| reflexivity].
  destruct (height >? clearance_height te); [reflexivity |].
  destruct (height + 4 <? base_height te); [reflexivity |].
  cbn [negb andb]. rewrite delete_middle. reflexivity.
Qed.

(** Past the first element the loop does what it is meant to: it walks the
    rest of the stack and takes out every selected element. *)
Lemma SmallSceneryRemoval_loop_inner (height : Z) (rest : list TileElement) :
  forall (pre : list TileElement) (fuel : nat),
    pre <> [] -> rest <> [] -> (length rest <= fuel)%nat ->
    SmallSceneryRemoval_loop fuel height (pre ++ rest) (Z.of_nat (length pre))
    = pre ++ without_qualifying height rest.
Proof.
  induction rest as [| te rest IH]; intros pre fuel Hpre Hrest Hfuel; [congruence |].
  destruct fuel as [| fuel]; [cbn in Hfuel; lia |].
  cbn [SmallSceneryRemoval_loop]. rewrite SmallSceneryRemoval_body_at.
  assert (Hlen : (0 < length pre)%nat) by (destruct pre; [congruence | cbn; lia]).
  unfold without_qualifying. cbn [List.filter].
  fold (without_qualifying height rest).
  destruct (qualifies_for_removal height te); cbn [negb];
    unfold IsLastForTile_at.
  - replace (Z.of_nat (length pre) - 1 <? 0) with false by (symmetry; lia).
    rewrite length_app.
    destruct rest as [| te' rest'].
    + cbn [length]. rewrite (proj2 (Z.eqb_eq _ _)) by lia.
      cbn [without_qualifying List.filter]. reflexivity.
    + rewrite (proj2 (Z.eqb_neq _ _)) by (cbn [length]; lia).
      replace (Z.of_nat (length pre) - 1 + 1) with (Z.of_nat (length pre)) by lia.
      apply IH; [exact Hpre | discriminate | cbn [length] in *; lia].
  - replace (Z.of_nat (length pre) <? 0) with false by (symmetry; lia).
    rewrite length_app.
    destruct rest as [| te' rest'].
    + cbn [length]. rewrite (proj2 (Z.eqb_eq _ _)) by lia.
      cbn [without_qualifying List.filter]. reflexivity.
    + rewrite (proj2 (Z.eqb_neq _ _)) by (cbn [length]; lia).
      replace (pre ++ te :: te' :: rest') with ((pre ++ [te]) ++ te' :: rest')
        by (rewrite <- app_assoc; reflexivity).
      replace (Z.of_nat (length pre) + 1) with (Z.of_nat (length (pre ++ [te])))
        by (rewrite length_app; cbn [length]; lia).
      rewrite IH; [rewrite <- app_assoc; reflexivity | | discriminate | cbn [length] in *; lia].
      destruct pre; discriminate.
Qed.

(** What [SmallSceneryRemoval] does to a stack.  When the first element of
    the stack is itself selected, the cursor steps back out of the cell, the
    loop test reads a last-for-tile mark there, and the loop stops: only
    that first element is removed.  Otherwise every selected element is
    removed. *)
Lemma SmallSceneryRemoval_stack_spec (height : Z) (stk : list TileElement) :
  SmallSceneryRemoval_stack height stk
  = match stk with
    | [] => []
    | te :: rest =>
      if qualifies_for_removal height te then rest
      else te :: without_qualifying height rest
    end.
Proof.
  destruct stk as [| te rest]; [reflexivity |].
  unfold SmallSceneryRemoval_stack. cbn [length SmallSceneryRemoval_loop].
  pose proof (SmallSceneryRemoval_body_at height [] te rest) as Hbody.
  change (Z.of_nat (length [])) with 0 in Hbody.
  change ([] ++ te :: rest) with (te :: rest) in Hbody.
  change ([] ++ rest) with rest in Hbody.
  rewrite Hbody.
  destruct (qualifies_for_removal height te).
  - reflexivity.
  - unfold IsLastForTile_at. cbn [Z.ltb Z.compare].
    destruct rest as [| te' rest'].
    + reflexivity.
    + rewrite (proj2 (Z.eqb_neq _ _)) by (simpl length; lia).
      apply (SmallSceneryRemoval_loop_inner height (te' :: rest') [te]);
        [discriminate | discriminate | reflexivity].
Qed.

(** *** Execute *)

Lemma Execute_run (a : LandSetHeightAction) (s : GameState) :
  Execute E a s
  = match map_get_surface_element_at (Execute_cleared E a s) (_coords a) with
    | None => (Result2 Unknown STR_NONE, Execute_cleared E a s)
    | Some surfaceElement =>
      ({| Error := Ok; ErrorTitle := STR_NONE; ErrorMessage := STR_NONE;
          ErrorMessageArgs := ErrorMessageArgs Result0;
          Position := {| xy := {| x := x (_coords a) + 16; y := y (_coords a) + 16 |};
                         z := tile_element_height E s (_coords a) |};
          Cost := money32_add (Execute_removalCost E a s)
                    (GetSurfaceHeightChangeCost a (snd surfaceElement));
          Expenditure := Landscaping |},
       update_tile_stack (_coords a)
         (alter (SetSurfaceHeight_element a) (fst surfaceElement)) (Execute_cleared E a s))
    end.
Proof.
  unfold Execute, Execute_cleared, Execute_removalCost, Execute_unlittered, Execute_wall_range,
    SetSurfaceHeight, SmallSceneryRemoval, GetSmallSceneryRemovalCost, bind, gets, modify, ret.
  cbn [gCheatsDisableClearanceChecks footpath_remove_litter set_gLitter].
  destruct (gCheatsDisableClearanceChecks s); cbn [negb];
    match goal with
    | |- context [map_get_surface_element_at ?st ?c] =>
      destruct (map_get_surface_element_at st c)
    end; reflexivity.
Qed.

Lemma map_get_first_element_at_update (c : CoordsXY) (f : list TileElement -> list TileElement)
    (s : GameState) (stk : list TileElement) :
  map_get_first_element_at s c = Some stk ->
  map_get_first_element_at (update_tile_stack c f s) c = Some (f stk).
Proof.
  intros H. unfold update_tile_stack. rewrite H.
  unfold map_get_first_element_at in *. cbn [gTileElements set_gTileElements].
  destruct (map_is_location_valid c); [| discriminate].
  apply lookup_insert_eq.
Qed.

Lemma tile_stack_update (c : CoordsXY) (f : list TileElement -> list TileElement)
    (s : GameState) (stk : list TileElement) :
  map_get_first_element_at s c = Some stk ->
  tile_stack (update_tile_stack c f s) c = f stk.
Proof.
  intros H. unfold tile_stack. rewrite (map_get_first_element_at_update c f s stk H). reflexivity.
Qed.

Lemma find_surface_Some (stk : list TileElement) (i p : nat) (te : TileElement) :
  find_surface stk i = Some (p, te) ->
  (i <= p)%nat /\ stk !! (p - i)%nat = Some te /\ exists surface, body te = Surface surface.
Proof.
  revert i. induction stk as [| hd rest IH]; intros i H; [discriminate |].
  cbn [find_surface] in H. unfold GetType in H.
  destruct (body hd) as [sf | | | | | | | |] eqn:Hb;
    try (apply IH in H as (Hle & Hlk & Hsf);
         split; [lia |]; split; [| exact Hsf];
         replace (p - i)%nat with (S (p - S i)) by lia; exact Hlk).
  injection H as <- <-. split; [lia |]. rewrite Nat.sub_diag.
  split; [reflexivity | eauto].
Qed.

(** The cell's stack once [Execute] has cleared it, clearance checks being
    enabled: walls in range are gone, and of the selected small scenery
    either all of it or, when the stack starts with a selected element,
    that first element only. *)
Lemma Execute_cleared_stack (a : LandSetHeightAction) (s : GameState) (stk : list TileElement) :
  gCheatsDisableClearanceChecks s = false ->
  map_get_first_element_at (Execute_unlittered E a s) (_coords a) = Some stk ->
  tile_stack (Execute_cleared E a s) (_coords a)
  = match List.filter (fun te => negb (wall_in_range (Execute_wall_range a) te)) stk with
    | [] => []
    | te :: rest =>
      if qualifies_for_removal (_height a) te then rest
      else te :: without_qualifying (_height a) rest
    end.
Proof.
  intros Hdis Hstk. unfold Execute_cleared. rewrite Hdis.
  unfold wall_remove_at. change (rxy (Execute_wall_range a)) with (_coords a).
  rewrite (tile_stack_update _ _ _ _ (map_get_first_element_at_update _ _ _ _ Hstk)).
  apply SmallSceneryRemoval_stack_spec.
Qed.

(** A failing [Execute] that has written: on a cell holding a path and a bush
    but no surface, the bush is removed before the surface is missed. *)
Lemma Execute_fails_after_writing :
  exists (a : LandSetHeightAction) (s : GameState),
    Error (fst (Execute E a s)) = Unknown /\ snd (Execute E a s) <> s.
Proof.
  pose (bush := {| body := SmallScenery {| removal_price := 3; flags := 0 |};
                   base_height := 14; clearance_height := 16; IsGhost := false |}).
  pose (path := {| body := Path; base_height := 14; clearance_height := 18;
                   IsGhost := false |}).
  exists {| _coords := {| x := 320; y := 320 |}; _height := 14; _style := 0 |}.
  exists {| gParkFlags := 0; gScreenFlags := 0; gCheatsSandboxMode := false;
            gCheatsDisableClearanceChecks := false; gCheatsDisableSupportLimits := false;
            gMapSizeMaxXY := 4063;
            gTileElements := {[ (10, 10) := [path; bush] ]};
            gRides := ∅; gLitter := []; gCash := 0 |}.
  rewrite Execute_run.
  match goal with
  | |- context [Execute_cleared E ?a ?s] =>
    assert (Hstack : tile_stack (Execute_cleared E a s) (_coords a) = [path])
      by (vm_compute; reflexivity);
    assert (Hsurf : map_get_surface_element_at (Execute_cleared E a s) (_coords a) = None)
      by (vm_compute; reflexivity)
  end.
  rewrite Hsurf. cbn [fst snd]. split; [reflexivity |].
  intros Heq. rewrite Heq in Hstack. vm_compute in Hstack. discriminate Hstack.
Qed.

(** C9. When [Execute] finds no surface element at the cell, it returns an
    [Unknown] result with cost 0 and writes no surface height; the state it
    leaves is the one in which litter, and with clearance checks enabled
    walls and selected small scenery, have already been removed.  There are
    states on which such a failing [Execute] has changed the world. *)
Theorem Execute_without_surface :
  (forall (a : LandSetHeightAction) (s : GameState),
     map_get_surface_element_at (Execute_cleared E a s) (_coords a) = None ->
     Execute E a s = (Result2 Unknown STR_NONE, Execute_cleared E a s)
     /\ Error (fst (Execute E a s)) = Unknown
     /\ Cost (fst (Execute E a s)) = 0)
  /\ (exists (a : LandSetHeightAction) (s : GameState),
       Error (fst (Execute E a s)) = Unknown /\ snd (Execute E a s) <> s).
Proof.
  split.
  - intros a s H. rewrite Execute_run, H. auto.
  - apply Execute_fails_after_writing.
Qed.

(** C1. [Query] hands back the game state it was given: the tile grid, the
    litter and the ledger (cash) are those of before the call, whatever the
    command and whatever the state.  The writes of the action are those of
    [Execute], which does change the state on some inputs. *)
Theorem Query_leaves_state_unchanged :
  (forall (a : LandSetHeightAction) (s : GameState),
     snd (Query E a s) = s
     /\ gTileElements (snd (Query E a s)) = gTileElements s
     /\ gLitter (snd (Query E a s)) = gLitter s
     /\ gCash (snd (Query E a s)) = gCash s)
  /\ (exists (a : LandSetHeightAction) (s : GameState), snd (Execute E a s) <> s).
Proof.
  split.
  - intros a s. pose proof (Query_read_only a s) as H. rewrite H. auto.
  - destruct Execute_fails_after_writing as (a & s & _ & H). eauto.
Qed.

(** The writes of [SetSurfaceHeight] to one surface element. *)
Lemma SetSurfaceHeight_element_spec (a : LandSetHeightAction) (te : TileElement)
    (surface : SurfaceElement) :
  body te = Surface surface ->
  0 <= WaterHeight surface <= 255 ->
  exists surface',
    body (SetSurfaceHeight_element a te) = Surface surface'
    /\ base_height (SetSurfaceHeight_element a te) = _height a
    /\ clearance_height (SetSurfaceHeight_element a te) = _height a
    /\ GetSlope surface' = _style a
    /\ (GetWaterHeight surface <> 0 /\ GetWaterHeight surface / COORDS_Z_STEP <= _height a ->
        GetWaterHeight surface' = 0)
    /\ (~ (GetWaterHeight surface <> 0 /\ GetWaterHeight surface / COORDS_Z_STEP <= _height a) ->
        GetWaterHeight surface' = GetWaterHeight surface).
Proof.
  intros Hbody Hrange.
  unfold SetSurfaceHeight_element. rewrite Hbody. cbn [body base_height clearance_height].
  assert (Hconv : Z.quot (wrap_uint32 (GetWaterHeight (SetSlope (_style a) surface))) COORDS_Z_STEP
                  = GetWaterHeight surface / COORDS_Z_STEP).
  { unfold GetWaterHeight, SetSlope, wrap_uint32, COORDS_Z_STEP. cbn [WaterHeight].
    rewrite Z.mod_small by lia. apply Z.quot_div_nonneg; lia. }
  rewrite Hconv.
  assert (Hdiv : GetWaterHeight surface / COORDS_Z_STEP = 2 * WaterHeight surface).
  { unfold GetWaterHeight, COORDS_Z_STEP.
    replace (WaterHeight surface * 16) with (2 * WaterHeight surface * 8) by lia.
    apply Z.div_mul. lia. }
  destruct (negb (GetWaterHeight surface / COORDS_Z_STEP =? 0)
            && (GetWaterHeight surface / COORDS_Z_STEP <=? _height a)) eqn:Hc.
  - eexists. split; [reflexivity |]. repeat split.
    intros Hn. exfalso. apply Hn.
    apply andb_true_iff in Hc as [H1 H2].
    apply negb_true_iff, Z.eqb_neq in H1. apply Z.leb_le in H2.
    unfold GetWaterHeight in *. lia.
  - eexists. split; [reflexivity |]. repeat split.
    intros [Hnz Hle]. exfalso.
    apply andb_false_iff in Hc as [H1 | H2].
    + apply negb_false_iff, Z.eqb_eq in H1. unfold GetWaterHeight in *. lia.
    + apply Z.leb_gt in H2. lia.
Qed.

(** C10. In [Execute], [SetSurfaceHeight] leaves the surface element with
    base height and clearance height equal to the target height and with the
    target style as its slope; its water height becomes 0 when it was not 0
    and, in height units, not above the target height, and is kept
    otherwise.  The other elements of the cell are not written. *)
Theorem Execute_sets_surface_height (a : LandSetHeightAction) (s : GameState)
    (surfaceElement : nat * TileElement) (surface : SurfaceElement) :
  map_get_surface_element_at (Execute_cleared E a s) (_coords a) = Some surfaceElement ->
  body (snd surfaceElement) = Surface surface ->
  0 <= WaterHeight surface <= 255 ->
  let stack_before := tile_stack (Execute_cleared E a s) (_coords a) in
  let stack_after := tile_stack (snd (Execute E a s)) (_coords a) in
  (exists te' surface',
     stack_after !! fst surfaceElement = Some te'
     /\ body te' = Surface surface'
     /\ base_height te' = _height a
     /\ clearance_height te' = _height a
     /\ GetSlope surface' = _style a
     /\ (GetWaterHeight surface <> 0 /\ GetWaterHeight surface / COORDS_Z_STEP <= _height a ->
         GetWaterHeight surface' = 0)
     /\ (~ (GetWaterHeight surface <> 0 /\ GetWaterHeight surface / COORDS_Z_STEP <= _height a) ->
         GetWaterHeight surface' = GetWaterHeight surface))
  /\ (forall j, j <> fst surfaceElement -> stack_after !! j = stack_before !! j).
Proof.
  intros Hsurf Hbody Hrange. cbv zeta.
  rewrite Execute_run, Hsurf. cbn [snd].
  destruct surfaceElement as [p te]. cbn [fst snd] in *.
  unfold map_get_surface_element_at in Hsurf.
  destruct (map_get_first_element_at (Execute_cleared E a s) (_coords a)) as [stk |] eqn:Hstk;
    [| discriminate].
  rewrite (tile_stack_update _ _ _ stk Hstk).
  unfold tile_stack at 1. rewrite Hstk. cbn [default].
  apply find_surface_Some in Hsurf as (_ & Hlk & _). rewrite Nat.sub_0_r in Hlk.
  split.
  - destruct (SetSurfaceHeight_element_spec a te surface Hbody Hrange) as (sf' & H).
    exists (SetSurfaceHeight_element a te), sf'.
    split; [| exact H].
    rewrite list_lookup_alter_eq, Hlk. reflexivity.
  - intros j Hj. apply list_lookup_alter_ne. congruence.
Qed.

Lemma GetSurfaceHeightChangeCost_range (a : LandSetHeightAction) (surfaceElement : TileElement) :
  0 <= GetSurfaceHeightChangeCost a surfaceElement <= 25480.
Proof.
  rewrite GetSurfaceHeightChangeCost_sum.
  pose proof (corner_cost_range _ (corner_delta_range a surfaceElement 0)).
  pose proof (corner_cost_range _ (corner_delta_range a surfaceElement 1)).
  pose proof (corner_cost_range _ (corner_delta_range a surfaceElement 2)).
  pose proof (corner_cost_range _ (corner_delta_range a surfaceElement 3)).
  lia.
Qed.

Lemma Query_sceneryRemovalCost_none (a : LandSetHeightAction) (s : GameState) :
  List.filter (qualifies_for_removal (_height a)) (tile_stack s (_coords a)) = [] ->
  Query_sceneryRemovalCost a s = 0.
Proof.
  intros Hnone. unfold Query_sceneryRemovalCost.
  destruct (gCheatsDisableClearanceChecks s); [reflexivity |].
  rewrite GetSmallSceneryRemovalCost_loop_total. unfold qualifying_price_sum.
  rewrite Hnone. reflexivity.
Qed.

(** C3 (as the code has it).  When [Query] accepts the command, its cost is
    the scenery removal cost plus the height-change cost, added as
    [money32].  The height-change cost is the sum over the four corners of
    MONEY(|delta| * 5 / 2, 0), the division truncating; it equals 25 times
    the sum of the absolute corner deltas when every corner delta is even.
    With no small scenery selected for removal the cost is the height-change
    cost alone.  [Execute] computes its cost in the same way from the state
    it has cleared. *)
Theorem Query_cost_formula (a : LandSetHeightAction) (s : GameState) :
  Error (fst (Query E a s)) = Ok ->
  exists surfaceElement,
    map_get_surface_element_at s (_coords a) = Some surfaceElement
    /\ Cost (fst (Query E a s))
       = money32_add (Query_sceneryRemovalCost a s)
           (GetSurfaceHeightChangeCost a (snd surfaceElement))
    /\ GetSurfaceHeightChangeCost a (snd surfaceElement)
       = corner_cost (corner_delta a (snd surfaceElement) 0)
         + corner_cost (corner_delta a (snd surfaceElement) 1)
         + corner_cost (corner_delta a (snd surfaceElement) 2)
         + corner_cost (corner_delta a (snd surfaceElement) 3)
    /\ ((forall i, In i ALL_DIRECTIONS -> Z.even (corner_delta a (snd surfaceElement) i) = true) ->
        GetSurfaceHeightChangeCost a (snd surfaceElement)
        = 25 * corner_delta_sum a (snd surfaceElement))
    /\ (List.filter (qualifies_for_removal (_height a)) (tile_stack s (_coords a)) = [] ->
        Cost (fst (Query E a s)) = GetSurfaceHeightChangeCost a (snd surfaceElement))
    /\ (forall executed,
          map_get_surface_element_at (Execute_cleared E a s) (_coords a) = Some executed ->
          Cost (fst (Execute E a s))
          = money32_add (Execute_removalCost E a s)
              (GetSurfaceHeightChangeCost a (snd executed))).
Proof.
  intros HOk. destruct (Query_Ok_cost a s HOk) as (surf & Hsurf & Hcost).
  exists surf. split; [exact Hsurf |]. split; [exact Hcost |].
  split; [apply GetSurfaceHeightChangeCost_sum |].
  split; [apply GetSurfaceHeightChangeCost_even |].
  split.
  - intros Hnone. rewrite Hcost, (Query_sceneryRemovalCost_none a s Hnone).
    apply money32_add_in_range.
    pose proof (GetSurfaceHeightChangeCost_range a (snd surf)). lia.
  - intros executed Hex. rewrite Execute_run, Hex. reflexivity.
Qed.

End ActionProperties.


(** ** C3: the cost is not a fixed rate per unit *)

(** C3, counterexample.  On a flat cell at height 14 with nothing else on it,
    [Query] accepts a
    flat raise to 15 at cost 80 for a corner delta sum of 4, and a flat raise
    to 16 at cost 200 for a corner delta sum of 8: no per-unit rate gives
    both. *)
Lemma Query_cost_not_proportional :
  let e := Scenario.engine true false in
  let s := Scenario.state 0 [Scenario.surface_at 14 0] in
  let by1 := Scenario.set_height 15 0 in
  let by2 := Scenario.set_height 16 0 in
  Error (fst (Query e by1 s)) = Ok
  /\ Cost (fst (Query e by1 s)) = 80
  /\ corner_delta_sum by1 (Scenario.surface_at 14 0) = 4
  /\ Error (fst (Query e by2 s)) = Ok
  /\ Cost (fst (Query e by2 s)) = 200
  /\ corner_delta_sum by2 (Scenario.surface_at 14 0) = 8
  /\ ~ (exists rate,
          Cost (fst (Query e by1 s)) = rate * corner_delta_sum by1 (Scenario.surface_at 14 0)
          /\ Cost (fst (Query e by2 s)) = rate * corner_delta_sum by2 (Scenario.surface_at 14 0)).
Proof.
  cbv zeta.
  assert (H1 : Cost (fst (Query (Scenario.engine true false) (Scenario.set_height 15 0)
                            (Scenario.state 0 [Scenario.surface_at 14 0]))) = 80)
    by (vm_compute; reflexivity).
  assert (H2 : Cost (fst (Query (Scenario.engine true false) (Scenario.set_height 16 0)
                            (Scenario.state 0 [Scenario.surface_at 14 0]))) = 200)
    by (vm_compute; reflexivity).
  assert (D1 : corner_delta_sum (Scenario.set_height 15 0) (Scenario.surface_at 14 0) = 4)
    by (vm_compute; reflexivity).
  assert (D2 : corner_delta_sum (Scenario.set_height 16 0) (Scenario.surface_at 14 0) = 8)
    by (vm_compute; reflexivity).
  repeat split; try assumption; try (vm_compute; reflexivity).
  rewrite H1, H2, D1, D2. intros (rate & Ha & Hb). lia.
Qed.

Lemma Query_cost_formula_witness :
  let e := Scenario.engine true false in
  let s := Scenario.state 0 [Scenario.surface_at 14 0] in
  let a := Scenario.set_height 16 0 in
  Error (fst (Query e a s)) = Ok
  /\ exists surfaceElement,
      map_get_surface_element_at s (_coords a) = Some surfaceElement
      /\ Cost (fst (Query e a s))
         = money32_add (Query_sceneryRemovalCost a s)
             (GetSurfaceHeightChangeCost a (snd surfaceElement)).
Proof.
  cbv zeta.
  assert (HOk : Error (fst (Query (Scenario.engine true false) (Scenario.set_height 16 0)
                              (Scenario.state 0 [Scenario.surface_at 14 0]))) = Ok)
    by (vm_compute; reflexivity).
  split; [exact HOk |].
  destruct (Query_cost_formula (Scenario.engine true false) (Scenario.set_height 16 0)
              (Scenario.state 0 [Scenario.surface_at 14 0]) HOk) as (surf & Hs & Hc & _).
  exists surf. split; assumption.
Defined.

(** The flat raise from 14 to 16 on an empty cell: [Query] projects 200, and
    [Execute] charges 200 and leaves the surface at 16. *)
Example raise_14_to_16 :
  let e := Scenario.engine true false in
  let s := Scenario.state 0 [Scenario.surface_at 14 0] in
  let a := Scenario.set_height 16 0 in
  fst (Query e a s)
  = {| Error := Ok; ErrorTitle := STR_NONE; ErrorMessage := STR_NONE; ErrorMessageArgs := [];
       Position := Position Result0; Cost := 200; Expenditure := Landscaping |}
  /\ Cost (fst (Execute e a s)) = 200
  /\ tile_stack (snd (Execute e a s)) (_coords a) = [Scenario.surface_at 16 0].
Proof. cbv zeta. repeat split; vm_compute; reflexivity. Qed.

(** With three selected bushes behind the surface, two of them adjacent,
    [Execute] removes all three and charges the sum of their prices. *)
Example Execute_removes_three_bushes :
  let e := Scenario.engine true false in
  let a := Scenario.set_height 14 0 in
  let s := Scenario.state 0
             [Scenario.surface_at 14 0; Scenario.bush 3 14 16; Scenario.bush 5 14 18;
              Scenario.footpath 30; Scenario.bush 7 16 18] in
  tile_stack (snd (Execute e a s)) (_coords a) = [Scenario.surface_at 14 0; Scenario.footpath 30]
  /\ Cost (fst (Execute e a s)) = MONEY 3 0 + MONEY 5 0 + MONEY 7 0.
Proof. cbv zeta. split; vm_compute; reflexivity. Qed.

(** ** C4: scenery the removal loop leaves behind *)

(** C4, at a failing input.  A cell whose stack starts with a bush (heights
    10 to 14, price 3), then
    holds the surface (height 12) and a second bush (heights 12 to 16, price
    5); the target height is 14, so both bushes are selected.  [Execute]
    charges for both (30 + 50, plus 200 for the height change) and removes
    only the first: having removed the element at the start of the stack,
    the loop steps its cursor back out of the cell and stops. *)
Theorem Execute_leaves_selected_scenery :
  let e := Scenario.engine true false in
  let a := Scenario.set_height 14 0 in
  let stk := [Scenario.bush 3 10 14; Scenario.surface_at 12 0; Scenario.bush 5 12 16] in
  let s := Scenario.state 0 stk in
  List.filter (qualifies_for_removal (_height a)) (tile_stack s (_coords a))
  = [Scenario.bush 3 10 14; Scenario.bush 5 12 16]
  /\ Error (fst (Query e a s)) = Ok
  /\ Cost (fst (Query e a s)) = 280
  /\ Error (fst (Execute e a s)) = Ok
  /\ Cost (fst (Execute e a s)) = 280
  /\ tile_stack (snd (Execute e a s)) (_coords a)
     = [Scenario.surface_at 14 0; Scenario.bush 5 12 16].
Proof.
  cbv zeta. repeat split; vm_compute; reflexivity.
Qed.

(** ** C5: witness *)

Lemma Query_protected_tree_witness :
  let e := Scenario.engine true false in
  let a := Scenario.set_height 14 0 in
  let s := Scenario.state PARK_FLAGS_FORBID_TREE_REMOVAL
             [Scenario.surface_at 12 0; Scenario.tree 4 12 20] in
  Error (fst (Query e a s)) = Disallowed.
Proof.
  cbv zeta.
  refine (proj1 (Query_protected_tree (Scenario.engine true false) (Scenario.set_height 14 0)
                   (Scenario.state PARK_FLAGS_FORBID_TREE_REMOVAL
                      [Scenario.surface_at 12 0; Scenario.tree 4 12 20])
                   (Scenario.tree 4 12 20)
                   {| removal_price := 4; flags := SMALL_SCENERY_FLAG_IS_TREE |}
                   _ _ _ _ _ _ _)).
  - vm_compute; reflexivity.
  - reflexivity.
  - vm_compute. right. left. reflexivity.
  - reflexivity.
  - vm_compute; reflexivity.
  - vm_compute; discriminate.
  - vm_compute; discriminate.
Defined.

(** ** C6: a raised corner at maximum - 2 *)

(** C6, counterexample.  A command for a cell on the map with height 140, two
    units below the maximum 142, and one raised corner: the height is within
    2 units of the maximum and a slope bit is set, yet validation passes. *)
Lemma CheckParameters_accepts_slope_two_below_maximum :
  let e := Scenario.engine true false in
  let a := Scenario.set_height 140 1 in
  let s := Scenario.state 0 [Scenario.surface_at 14 0] in
  Z.abs (MAXIMUM_LAND_HEIGHT e - _height a) <= 2
  /\ Z.land (_style a) TILE_ELEMENT_SURFACE_SLOPE_MASK <> 0
  /\ LocationValid (_coords a) = true
  /\ x (_coords a) <= gMapSizeMaxXY s
  /\ y (_coords a) <= gMapSizeMaxXY s
  /\ MINIMUM_LAND_HEIGHT e <= _height a
  /\ fst (CheckParameters e a s) = STR_NONE
  /\ fst (CheckParameters e a s) <> STR_TOO_HIGH.
Proof.
  cbv zeta. repeat split; vm_compute; congruence.
Qed.

Lemma CheckParameters_too_high_witness :
  let e := Scenario.engine true false in
  let s := Scenario.state 0 [Scenario.surface_at 14 0] in
  fst (CheckParameters e (Scenario.set_height 141 1) s) = STR_TOO_HIGH
  /\ fst (CheckParameters e (Scenario.set_height 140 16) s) = STR_TOO_HIGH
  /\ fst (CheckParameters e
            {| _coords := {| x := -32; y := 320 |}; _height := 142; _style := 1 |} s)
     = STR_OFF_EDGE_OF_MAP
  /\ fst (CheckParameters e (Scenario.set_height 140 1) s) = STR_NONE.
Proof.
  cbv zeta. split; [| split; [| split]].
  - refine (proj2 (proj2 (proj2 (proj1 (CheckParameters_too_high (Scenario.engine true false)
                     (Scenario.set_height 141 1)
                     (Scenario.state 0 [Scenario.surface_at 14 0])) _))) _ _).
    + left. split; [vm_compute; reflexivity | vm_compute; discriminate].
    + repeat split; vm_compute; discriminate.
    + vm_compute; discriminate.
  - refine (proj2 (proj2 (proj2 (proj1 (CheckParameters_too_high (Scenario.engine true false)
                     (Scenario.set_height 140 16)
                     (Scenario.state 0 [Scenario.surface_at 14 0])) _))) _ _).
    + right. split; [reflexivity | vm_compute; discriminate].
    + repeat split; vm_compute; discriminate.
    + vm_compute; discriminate.
  - refine (proj1 (proj2 (proj1 (CheckParameters_too_high (Scenario.engine true false)
                     {| _coords := {| x := -32; y := 320 |}; _height := 142; _style := 1 |}
                     (Scenario.state 0 [Scenario.surface_at 14 0])) _)) _).
    + left. split; [vm_compute; reflexivity | vm_compute; discriminate].
    + intros (H & _). vm_compute in H. discriminate H.
  - refine (proj2 (CheckParameters_too_high (Scenario.engine true false)
                     (Scenario.set_height 140 1)
                     (Scenario.state 0 [Scenario.surface_at 14 0])) _ _ _ _).
    + reflexivity.
    + reflexivity.
    + repeat split; vm_compute; discriminate.
    + vm_compute; discriminate.
Defined.

(** ** C7: witness *)

Lemma Query_authorization_gate_witness :
  let a := Scenario.set_height 16 0 in
  Query (Scenario.engine true false) a
    (Scenario.state PARK_FLAGS_FORBID_LANDSCAPE_CHANGES [Scenario.surface_at 14 0])
  = (Result2 Disallowed STR_FORBIDDEN_BY_THE_LOCAL_AUTHORITY,
     Scenario.state PARK_FLAGS_FORBID_LANDSCAPE_CHANGES [Scenario.surface_at 14 0])
  /\ Error (fst (Query (Scenario.engine false false) a
                   (Scenario.state 0 [Scenario.surface_at 14 0]))) = Disallowed.
Proof.
  cbv zeta. split.
  - refine (proj1 (Query_authorization_gate (Scenario.engine true false)
                     (Scenario.set_height 16 0)
                     (Scenario.state PARK_FLAGS_FORBID_LANDSCAPE_CHANGES
                        [Scenario.surface_at 14 0])) _).
    reflexivity.
  - refine (proj1 (proj2 (Query_authorization_gate (Scenario.engine false false)
                            (Scenario.set_height 16 0)
                            (Scenario.state 0 [Scenario.surface_at 14 0])) _ _ _)).
    + reflexivity.
    + reflexivity.
    + reflexivity.
Defined.

(** ** C8: the error on a level-crossing cell depends on the target height *)

(** C8, counterexample.  A flat cell at height 14 carrying a level crossing
    at that height.  Asked
    for height 200 the answer is "too high"; asked for height 16 it is
    "remove level crossing first". *)
Lemma Query_level_crossing_error_varies :
  let e := Scenario.engine true true in
  let s := Scenario.state 0 [Scenario.surface_at 14 0; Scenario.footpath 14] in
  map_get_surface_element_at s Scenario.cell = Some (0%nat, Scenario.surface_at 14 0)
  /\ map_get_footpath_element s {| xy := Scenario.cell; z := GetBaseZ (Scenario.surface_at 14 0) |}
     = Some (Scenario.footpath 14)
  /\ IsLevelCrossing e s (Scenario.footpath 14)
       {| xy := Scenario.cell; z := GetBaseZ (Scenario.surface_at 14 0) |} = true
  /\ fst (Query e (Scenario.set_height 200 0) s) = Result2 Disallowed STR_TOO_HIGH
  /\ ErrorMessage (fst (Query e (Scenario.set_height 200 0) s)) <> STR_REMOVE_LEVEL_CROSSING_FIRST
  /\ fst (Query e (Scenario.set_height 16 0) s)
     = Result2 Disallowed STR_REMOVE_LEVEL_CROSSING_FIRST.
Proof.
  cbv zeta. repeat split; vm_compute; congruence.
Qed.

(** ** C9: witness *)

Lemma Execute_without_surface_witness :
  let e := Scenario.engine true false in
  let a := Scenario.set_height 14 0 in
  let s := Scenario.state 0 [Scenario.footpath 14; Scenario.bush 3 14 16] in
  Error (fst (Execute e a s)) = Unknown
  /\ tile_stack (snd (Execute e a s)) (_coords a) = [Scenario.footpath 14].
Proof.
  cbv zeta.
  destruct (proj1 (Execute_without_surface (Scenario.engine true false))
              (Scenario.set_height 14 0)
              (Scenario.state 0 [Scenario.footpath 14; Scenario.bush 3 14 16]))
    as (Hrun & Herr & _).
  - vm_compute; reflexivity.
  - split; [exact Herr |]. rewrite Hrun. vm_compute; reflexivity.
Defined.

(** ** C10: witness *)

Lemma Execute_sets_surface_height_witness :
  let e := Scenario.engine true false in
  let a := Scenario.set_height 16 3 in
  let s := Scenario.state 0 [Scenario.surface_at 14 1] in
  exists te' surface',
    tile_stack (snd (Execute e a s)) (_coords a) !! 0%nat = Some te'
    /\ body te' = Surface surface'
    /\ base_height te' = 16
    /\ clearance_height te' = 16
    /\ GetSlope surface' = 3
    /\ GetWaterHeight surface' = 0.
Proof.
  cbv zeta.
  destruct (Execute_sets_surface_height (Scenario.engine true false) (Scenario.set_height 16 3)
              (Scenario.state 0 [Scenario.surface_at 14 1])
              (0%nat, Scenario.surface_at 14 1)
              {| Slope := 0; WaterHeight := 1; HasTrackThatNeedsWater := false |})
    as [(te' & sf' & Hlk & Hb & Hbase & Hclr & Hslope & Hwet & _) _].
  - vm_compute; reflexivity.
  - reflexivity.
  - cbn [WaterHeight]. lia.
  - exists te', sf'. repeat split; try assumption.
    apply Hwet. vm_compute. split; discriminate.
Defined.

(** * Further properties of the action *)

Section MoreProperties.

Context (E : Engine).

(** ** Parameter validation *)

(** X1. [CheckParameters] accepts a command exactly when the cell is on the
    map and within the map size, the height lies between the two land-height
    limits, no slope bit is set above maximum - 2, and the diagonal flag is
    not set at maximum - 2. *)
Theorem CheckParameters_accepts_iff (a : LandSetHeightAction) (s : GameState) :
  fst (CheckParameters E a s) = STR_NONE
  <-> (LocationValid (_coords a) = true
       /\ x (_coords a) <= gMapSizeMaxXY s
       /\ y (_coords a) <= gMapSizeMaxXY s
       /\ MINIMUM_LAND_HEIGHT E <= _height a <= MAXIMUM_LAND_HEIGHT E
       /\ (MAXIMUM_LAND_HEIGHT E - 2 < _height a ->
           Z.land (_style a) TILE_ELEMENT_SURFACE_SLOPE_MASK = 0)
       /\ (_height a = MAXIMUM_LAND_HEIGHT E - 2 ->
           Z.land (_style a) TILE_ELEMENT_SURFACE_DIAGONAL_FLAG = 0)).
Proof.
  unfold CheckParameters, bind, gets, ret, has_flag.
  destruct (LocationValid (_coords a)); cbn [negb fst];
    [| split; [discriminate | intros (H & _); discriminate]].
  destruct (x (_coords a) >? gMapSizeMaxXY s) eqn:Hx; cbn [orb fst];
    [split; [discriminate | intros (_ & H & _); lia] |].
  destruct (y (_coords a) >? gMapSizeMaxXY s) eqn:Hy; cbn [fst];
    [split; [discriminate | intros (_ & _ & H & _); lia] |].
  destruct (_height a <? MINIMUM_LAND_HEIGHT E) eqn:Hlo; cbn [fst];
    [split; [discriminate | intros (_ & _ & _ & H & _); lia] |].
  destruct (_height a >? MAXIMUM_LAND_HEIGHT E) eqn:Hhi; cbn [fst];
    [split; [discriminate | intros (_ & _ & _ & H & _); lia] |].
  destruct (_height a >? MAXIMUM_LAND_HEIGHT E - 2) eqn:Hh2;
    destruct (Z.land (_style a) TILE_ELEMENT_SURFACE_SLOPE_MASK =? 0) eqn:Hsl;
    cbn [negb andb fst];
    try (split; [discriminate | intros (_ & _ & _ & _ & H & _); lia]).
  all: destruct (_height a =? MAXIMUM_LAND_HEIGHT E - 2) eqn:He;
    destruct (Z.land (_style a) TILE_ELEMENT_SURFACE_DIAGONAL_FLAG =? 0) eqn:Hd;
    cbn [negb andb fst];
    try (split; [discriminate | intros (_ & _ & _ & _ & _ & H); lia]).
  all: split; [intros _ | reflexivity]; repeat split; try lia.
Qed.

(** Stepping through the unfolded [Query], as above. *)
Ltac open_Query :=
  unfold Query, run_checked, Query_checks, CheckTreeObstructions,
    GetSmallSceneryRemovalCost, CheckRideSupports, CheckUnremovableObstructions,
    check_bind, lift, pass, reject, bind, gets, ret.

Ltac settle := cbv beta iota zeta; cbn [fst snd].

Ltac next_check :=
  settle;
  match goal with
  | |- context [CheckParameters ?e ?a ?s] =>
    lazymatch goal with
    | |- context [let (_, _) := CheckParameters e a s in _] =>
      rewrite (read_only_run _ s (CheckParameters_read_only e a))
    end
  | |- context [if ?c then _ else _] => destruct c eqn:?
  | |- context [match ?o with Some _ => _ | None => _ end] => destruct o eqn:?
  end;
  settle.

Lemma Query_rejects_failed_validation (a : LandSetHeightAction) (s : GameState) :
  fst (CheckParameters E a s) <> STR_NONE ->
  Error (fst (Query E a s)) = Disallowed
  /\ (has_flag (gParkFlags s) PARK_FLAGS_FORBID_LANDSCAPE_CHANGES = false ->
      fst (Query E a s) = Result2 Disallowed (fst (CheckParameters E a s))).
Proof.
  intros Hcp. open_Query.
  next_check; [split; [reflexivity | discriminate] |].
  next_check.
  destruct (is_STR_NONE (fst (CheckParameters E a s))) eqn:Hn; cbn [negb]; settle.
  - destruct (fst (CheckParameters E a s)); try discriminate. congruence.
  - split; reflexivity.
Qed.

(** X2. A command for a cell off the map, or beyond the map size on either
    axis, fails validation with "off edge of map" whatever its height and
    style; [Query] rejects it with [Disallowed], and with that very message
    unless the landscape-changes policy flag rejects it first. *)
Theorem Query_off_map (a : LandSetHeightAction) (s : GameState) :
  LocationValid (_coords a) = false
  \/ gMapSizeMaxXY s < x (_coords a)
  \/ gMapSizeMaxXY s < y (_coords a) ->
  fst (CheckParameters E a s) = STR_OFF_EDGE_OF_MAP
  /\ Error (fst (Query E a s)) = Disallowed
  /\ (has_flag (gParkFlags s) PARK_FLAGS_FORBID_LANDSCAPE_CHANGES = false ->
      fst (Query E a s) = Result2 Disallowed STR_OFF_EDGE_OF_MAP).
Proof.
  intros Hoff.
  assert (Hcp : fst (CheckParameters E a s) = STR_OFF_EDGE_OF_MAP).
  { unfold CheckParameters, bind, gets, ret.
    destruct (LocationValid (_coords a)); cbn [negb]; [| reflexivity].
    destruct Hoff as [H | [H | H]]; [discriminate | |].
    - replace (x (_coords a) >? gMapSizeMaxXY s) with true by (symmetry; lia). reflexivity.
    - replace (y (_coords a) >? gMapSizeMaxXY s) with true by (symmetry; lia).
      rewrite orb_true_r. reflexivity. }
  split; [exact Hcp |].
  destruct (Query_rejects_failed_validation a s) as [Herr Hmsg];
    [rewrite Hcp; discriminate |].
  split; [exact Herr |]. rewrite Hcp in Hmsg. exact Hmsg.
Qed.

(** X3. On a cell within the map, a height below the minimum fails
    validation with "too low" and a height above the maximum with "too
    high", whatever the style; [Query] rejects both with [Disallowed]. *)
Theorem Query_height_out_of_range (a : LandSetHeightAction) (s : GameState) :
  LocationValid (_coords a) = true ->
  x (_coords a) <= gMapSizeMaxXY s ->
  y (_coords a) <= gMapSizeMaxXY s ->
  (_height a < MINIMUM_LAND_HEIGHT E ->
   fst (CheckParameters E a s) = STR_TOO_LOW /\ Error (fst (Query E a s)) = Disallowed)
  /\ (MINIMUM_LAND_HEIGHT E <= _height a ->
      MAXIMUM_LAND_HEIGHT E < _height a ->
      fst (CheckParameters E a s) = STR_TOO_HIGH /\ Error (fst (Query E a s)) = Disallowed).
Proof.
  intros Hvalid Hx Hy.
  assert (Hpre : fst (CheckParameters E a s) =
    if _height a <? MINIMUM_LAND_HEIGHT E then STR_TOO_LOW
    else if _height a >? MAXIMUM_LAND_HEIGHT E then STR_TOO_HIGH
    else fst (CheckParameters E a s)).
  { unfold CheckParameters, bind, gets, ret. rewrite Hvalid. cbn [negb].
    replace (x (_coords a) >? gMapSizeMaxXY s) with false by (symmetry; lia).
    replace (y (_coords a) >? gMapSizeMaxXY s) with false by (symmetry; lia).
    cbn [orb].
    destruct (_height a <? MINIMUM_LAND_HEIGHT E); [reflexivity |].
    destruct (_height a >? MAXIMUM_LAND_HEIGHT E); reflexivity. }
  split.
  - intros Hlo.
    assert (Hcp : fst (CheckParameters E a s) = STR_TOO_LOW).
    { rewrite Hpre. replace (_height a <? MINIMUM_LAND_HEIGHT E) with true by (symmetry; lia).
      reflexivity. }
    split; [exact Hcp |].
    apply Query_rejects_failed_validation. rewrite Hcp. discriminate.
  - intros Hmin Hhi.
    assert (Hcp : fst (CheckParameters E a s) = STR_TOO_HIGH).
    { rewrite Hpre. replace (_height a <? MINIMUM_LAND_HEIGHT E) with false by (symmetry; lia).
      replace (_height a >? MAXIMUM_LAND_HEIGHT E) with true by (symmetry; lia).
      reflexivity. }
    split; [exact Hcp |].
    apply Query_rejects_failed_validation. rewrite Hcp. discriminate.
Qed.

(** ** The scans *)

Lemma CheckTreeObstructions_loop_cons (height : Z) (te : TileElement)
    (rest : list TileElement) (i : nat) :
  CheckTreeObstructions_loop height (te :: rest) i
  = if is_obstructing_tree height te then Some i
    else CheckTreeObstructions_loop height rest (S i).
Proof.
  cbn [CheckTreeObstructions_loop]. unfold is_obstructing_tree.
  destruct (AsSmallScenery te); [| reflexivity].
  destruct (height >? clearance_height te); [reflexivity |].
  destruct (height + 4 <? base_height te); [reflexivity |].
  cbn [negb andb]. reflexivity.
Qed.

Lemma CheckTreeObstructions_loop_first (height : Z) (stk : list TileElement) :
  forall i,
    match CheckTreeObstructions_loop height stk i with
    | None => forall te, In te stk -> is_obstructing_tree height te = false
    | Some p =>
      (i <= p)%nat
      /\ (exists te, stk !! (p - i)%nat = Some te /\ is_obstructing_tree height te = true)
      /\ (forall q te', (q < p - i)%nat -> stk !! q = Some te' ->
                        is_obstructing_tree height te' = false)
    end.
Proof.
  induction stk as [| hd rest IH]; intros i; [intros te [] |].
  rewrite CheckTreeObstructions_loop_cons.
  destruct (is_obstructing_tree height hd) eqn:Hhd.
  - split; [lia |]. rewrite Nat.sub_diag. split; [eauto |]. intros q te' Hq. lia.
  - specialize (IH (S i)).
    destruct (CheckTreeObstructions_loop height rest (S i)) as [p |].
    + destruct IH as (Hle & (te & Hlk & Htree) & Hbefore).
      split; [lia |].
      replace (p - i)%nat with (S (p - S i)) by lia.
      split; [exists te; split; assumption |].
      intros [| q] te' Hq Hlk'.
      * injection Hlk' as <-. exact Hhd.
      * apply (Hbefore q te'); [lia | exact Hlk'].
    + intros te [<- | Hin]; [exact Hhd | apply IH, Hin].
Qed.

(** X4. [CheckTreeObstructions] reports the first element of the cell's stack
    that is small scenery flagged as a tree and overlaps the target height
    (clearance height at least the target, base height at most target + 4),
    and reports nothing exactly when the stack holds no such element. *)
Theorem CheckTreeObstructions_finds_first_tree (a : LandSetHeightAction) (s : GameState) :
  snd (CheckTreeObstructions a s) = s
  /\ match fst (CheckTreeObstructions a s) with
     | None =>
       forall te sceneryEntry,
         In te (tile_stack s (_coords a)) ->
         AsSmallScenery te = Some sceneryEntry ->
         scenery_small_entry_has_flag sceneryEntry SMALL_SCENERY_FLAG_IS_TREE = true ->
         _height a > clearance_height te \/ _height a + 4 < base_height te
     | Some p =>
       (exists te sceneryEntry,
          tile_stack s (_coords a) !! p = Some te
          /\ AsSmallScenery te = Some sceneryEntry
          /\ scenery_small_entry_has_flag sceneryEntry SMALL_SCENERY_FLAG_IS_TREE = true
          /\ _height a <= clearance_height te
          /\ base_height te <= _height a + 4)
       /\ (forall q te', (q < p)%nat -> tile_stack s (_coords a) !! q = Some te' ->
                         is_obstructing_tree (_height a) te' = false)
     end.
Proof.
  split; [reflexivity |]. unfold CheckTreeObstructions, gets. cbn [fst].
  pose proof (CheckTreeObstructions_loop_first (_height a) (tile_stack s (_coords a)) 0) as H.
  destruct (CheckTreeObstructions_loop (_height a) (tile_stack s (_coords a)) 0) as [p |].
  - destruct H as (_ & (te & Hlk & Htree) & Hbefore). rewrite Nat.sub_0_r in *.
    split; [| exact Hbefore].
    unfold is_obstructing_tree in Htree.
    destruct (AsSmallScenery te) as [e |] eqn:Hsc; [| discriminate].
    apply andb_true_iff in Htree as [Hov Hflag].
    apply andb_true_iff in Hov as [H1 H2].
    apply negb_true_iff in H1, H2.
    exists te, e. repeat split; try assumption; lia.
  - intros te e Hin Hsc Hflag. specialize (H te Hin).
    unfold is_obstructing_tree in H. rewrite Hsc, Hflag, andb_true_r in H.
    apply andb_false_iff in H as [H | H]; apply negb_false_iff in H; lia.
Qed.

Lemma CheckRideSupports_loop_cons (s : GameState) (height : Z) (te : TileElement)
    (rest : list TileElement) :
  CheckRideSupports_loop s height (te :: rest)
  = if supports_exceeded s height te then STR_SUPPORTS_CANT_BE_EXTENDED
    else CheckRideSupports_loop s height rest.
Proof.
  cbn [CheckRideSupports_loop]. unfold supports_exceeded.
  destruct (AsTrack te); [| reflexivity].
  destruct (get_ride s _) as [ride |]; [| reflexivity].
  destruct (ride_entry_max_height ride); reflexivity.
Qed.

Lemma CheckRideSupports_loop_existsb (s : GameState) (height : Z) (stk : list TileElement) :
  CheckRideSupports_loop s height stk
  = if existsb (supports_exceeded s height) stk then STR_SUPPORTS_CANT_BE_EXTENDED
    else STR_NONE.
Proof.
  induction stk as [| te rest IH]; [reflexivity |].
  rewrite CheckRideSupports_loop_cons. cbn [existsb].
  destruct (supports_exceeded s height te); [reflexivity | exact IH].
Qed.

(** X5. [CheckRideSupports] answers "supports can't be extended" exactly when
    the cell holds a track element of an existing ride with a loaded ride
    entry whose clearance height is at least the target height and lies more
    than twice the ride's maximum height above it (the entry's maximum, or
    the ride type's when the entry's is 0); otherwise it answers no error.
    Track of a missing ride, or below the target height, never blocks. *)
Theorem CheckRideSupports_blocks_iff (a : LandSetHeightAction) (s : GameState) :
  (fst (CheckRideSupports a s) = STR_SUPPORTS_CANT_BE_EXTENDED
   \/ fst (CheckRideSupports a s) = STR_NONE)
  /\ (fst (CheckRideSupports a s) = STR_SUPPORTS_CANT_BE_EXTENDED
      <-> exists te rideIndex ride max_height,
            In te (tile_stack s (_coords a))
            /\ AsTrack te = Some rideIndex
            /\ get_ride s rideIndex = Some ride
            /\ ride_entry_max_height ride = Some max_height
            /\ _height a <= clearance_height te
            /\ Z.quot (clearance_height te - _height a) 2
               > (if max_height =? 0 then type_descriptor_MaxHeight ride else max_height)).
Proof.
  unfold CheckRideSupports, gets. cbn [fst].
  rewrite CheckRideSupports_loop_existsb.
  destruct (existsb (supports_exceeded s (_height a)) (tile_stack s (_coords a))) eqn:Hex.
  - split; [left; reflexivity |]. split; [intros _ | reflexivity].
    apply existsb_exists in Hex as (te & Hin & Hte).
    unfold supports_exceeded in Hte.
    destruct (AsTrack te) as [r |] eqn:Htr; [| discriminate].
    destruct (get_ride s r) as [ride |] eqn:Hride; [| discriminate].
    destruct (ride_entry_max_height ride) as [mh |] eqn:Hmh; [| discriminate].
    apply andb_true_iff in Hte as [H1 H2].
    exists te, r, ride, mh. repeat split; try assumption; lia.
  - split; [right; reflexivity |]. split; [discriminate |].
    intros (te & r & ride & mh & Hin & Htr & Hride & Hmh & Hle & Hgt). exfalso.
    assert (Hte : supports_exceeded s (_height a) te = true).
    { unfold supports_exceeded. rewrite Htr, Hride, Hmh.
      apply andb_true_iff. split; lia. }
    assert (existsb (supports_exceeded s (_height a)) (tile_stack s (_coords a)) = true)
      by (apply existsb_exists; eauto).
    congruence.
Qed.

Lemma CheckUnremovableObstructions_loop_cons (height : Z) (surfaceElement : nat) (zCorner : Z)
    (te : TileElement) (rest : list TileElement) (i : nat) :
  CheckUnremovableObstructions_loop height surfaceElement zCorner (te :: rest) i
  = if blocks_height_change height surfaceElement zCorner i te then Some i
    else CheckUnremovableObstructions_loop height surfaceElement zCorner rest (S i).
Proof.
  cbn [CheckUnremovableObstructions_loop]. unfold blocks_height_change.
  destruct (GetType te); try reflexivity;
    destruct (IsGhost te); cbn [negb andb]; try reflexivity;
    destruct (Nat.eqb i surfaceElement); cbn [negb andb]; try reflexivity;
    destruct (Nat.ltb surfaceElement i); try reflexivity;
    match goal with |- context [if ?c then _ else _] => destruct c end; reflexivity.
Qed.

Lemma CheckUnremovableObstructions_loop_first (height : Z) (surfaceElement : nat) (zCorner : Z)
    (stk : list TileElement) :
  forall i,
    match CheckUnremovableObstructions_loop height surfaceElement zCorner stk i with
    | None =>
      forall q te, stk !! q = Some te ->
                   blocks_height_change height surfaceElement zCorner (i + q) te = false
    | Some p =>
      (i <= p)%nat
      /\ (exists te, stk !! (p - i)%nat = Some te
                     /\ blocks_height_change height surfaceElement zCorner p te = true)
      /\ (forall q te', (q < p - i)%nat -> stk !! q = Some te' ->
             blocks_height_change height surfaceElement zCorner (i + q) te' = false)
    end.
Proof.
  induction stk as [| hd rest IH]; intros i; [intros q te Hq; destruct q; discriminate |].
  rewrite CheckUnremovableObstructions_loop_cons.
  destruct (blocks_height_change height surfaceElement zCorner i hd) eqn:Hhd.
  - split; [lia |]. rewrite Nat.sub_diag. split; [eauto |]. intros q te' Hq. lia.
  - specialize (IH (S i)).
    destruct (CheckUnremovableObstructions_loop height surfaceElement zCorner rest (S i))
      as [p |].
    + destruct IH as (Hle & (te & Hlk & Hb) & Hbefore).
      split; [lia |].
      replace (p - i)%nat with (S (p - S i)) by lia.
      split; [exists te; split; assumption |].
      intros [| q] te' Hq Hlk'.
      * injection Hlk' as <-. rewrite Nat.add_0_r. exact Hhd.
      * replace (i + S q)%nat with (S i + q)%nat by lia.
        apply (Hbefore q te'); [lia | exact Hlk'].
    + intros [| q] te Hlk.
      * injection Hlk as <-. rewrite Nat.add_0_r. exact Hhd.
      * replace (i + S q)%nat with (S i + q)%nat by lia. apply IH, Hlk.
Qed.

Lemma blocks_height_change_true (height : Z) (surfaceElement : nat) (zCorner : Z)
    (i : nat) (te : TileElement) :
  blocks_height_change height surfaceElement zCorner i te = true
  <-> GetType te <> TILE_ELEMENT_TYPE_WALL
      /\ GetType te <> TILE_ELEMENT_TYPE_SMALL_SCENERY
      /\ IsGhost te = false
      /\ i <> surfaceElement
      /\ ((surfaceElement < i)%nat -> base_height te < zCorner)
      /\ ((i < surfaceElement)%nat -> height < clearance_height te).
Proof.
  unfold blocks_height_change.
  destruct (Nat.eqb_spec i surfaceElement) as [Heq | Hne];
    destruct (Nat.ltb_spec surfaceElement i) as [Hlt | Hge];
    destruct (IsGhost te); destruct (GetType te); cbn [negb andb];
    rewrite ?Z.gtb_ltb, ?Z.ltb_lt;
    split; intros H; try discriminate; try tauto;
    try (destruct H as (H1 & H2 & H3 & H4 & H5 & H6); try congruence; try lia;
         try (apply H5; lia); try (apply H6; lia));
    try (repeat split; try discriminate; try lia; intros; try lia; try assumption).
Qed.

(** X6. [CheckUnremovableObstructions] reports the first element of the stack
    that is neither a wall, nor small scenery, nor a ghost, nor the surface
    itself, and that either is stored behind the surface with its base below
    the upper corner height, or is stored before the surface with its
    clearance above the target height.  It reports nothing exactly when no
    element of the stack is of that kind. *)
Theorem CheckUnremovableObstructions_finds_first (a : LandSetHeightAction) (s : GameState)
    (surfaceElement : nat * TileElement) (zCorner : Z) :
  match fst (CheckUnremovableObstructions a surfaceElement zCorner s) with
  | None =>
    forall q te,
      tile_stack s (_coords a) !! q = Some te ->
      GetType te <> TILE_ELEMENT_TYPE_WALL ->
      GetType te <> TILE_ELEMENT_TYPE_SMALL_SCENERY ->
      IsGhost te = false ->
      ((fst surfaceElement < q)%nat -> zCorner <= base_height te)
      /\ ((q < fst surfaceElement)%nat -> clearance_height te <= _height a)
  | Some p =>
    (exists te,
       tile_stack s (_coords a) !! p = Some te
       /\ GetType te <> TILE_ELEMENT_TYPE_WALL
       /\ GetType te <> TILE_ELEMENT_TYPE_SMALL_SCENERY
       /\ IsGhost te = false
       /\ p <> fst surfaceElement
       /\ ((fst surfaceElement < p)%nat -> base_height te < zCorner)
       /\ ((p < fst surfaceElement)%nat -> _height a < clearance_height te))
    /\ (forall q te', (q < p)%nat -> tile_stack s (_coords a) !! q = Some te' ->
           blocks_height_change (_height a) (fst surfaceElement) zCorner q te' = false)
  end.
Proof.
  unfold CheckUnremovableObstructions, gets. cbn [fst].
  pose proof (CheckUnremovableObstructions_loop_first (_height a) (fst surfaceElement) zCorner
                (tile_stack s (_coords a)) 0) as H.
  destruct (CheckUnremovableObstructions_loop (_height a) (fst surfaceElement) zCorner
              (tile_stack s (_coords a)) 0) as [p |].
  - destruct H as (_ & (te & Hlk & Hb) & Hbefore). rewrite Nat.sub_0_r in *.
    split.
    + exists te. split; [exact Hlk |]. apply blocks_height_change_true. exact Hb.
    + intros q te' Hq Hlk'. apply (Hbefore q te' Hq Hlk').
  - intros q te Hlk Hw Hsc Hg. specialize (H q te Hlk). cbn [Nat.add] in H.
    split.
    + intros Hlt. destruct (Z_le_gt_dec zCorner (base_height te)) as [Hle | Hgt]; [exact Hle |].
      exfalso.
      assert (Hb : blocks_height_change (_height a) (fst surfaceElement) zCorner q te = true)
        by (apply blocks_height_change_true; repeat split; try assumption; lia).
      congruence.
    + intros Hlt.
      destruct (Z_le_gt_dec (clearance_height te) (_height a)) as [Hle | Hgt]; [exact Hle |].
      exfalso.
      assert (Hb : blocks_height_change (_height a) (fst surfaceElement) zCorner q te = true)
        by (apply blocks_height_change_true; repeat split; try assumption; lia).
      congruence.
Qed.

(** X7. [CheckFloatingStructures] reports an obstruction, namely the slot
    behind the surface, exactly when the surface has track that needs water,
    its water height is not 0, and the target corner height, raised by 2 for
    a sloped style and by 4 for a diagonal one, exceeds the water height in
    height units less 2.  (Corner heights up to 251 and a water height that
    fits its 8-bit field, so that nothing wraps.) *)
Theorem CheckFloatingStructures_blocks_iff (a : LandSetHeightAction)
    (surfaceElement : nat * TileElement) (surface : SurfaceElement) (zCorner : Z) :
  AsSurface (snd surfaceElement) = Some surface ->
  0 <= WaterHeight surface <= 255 ->
  0 <= zCorner <= 251 ->
  let rise :=
    if Z.land (_style a) TILE_ELEMENT_SURFACE_SLOPE_MASK =? 0 then 0
    else if Z.land (_style a) TILE_ELEMENT_SURFACE_DIAGONAL_FLAG =? 0 then 2 else 4 in
  (CheckFloatingStructures a surfaceElement zCorner = None
   \/ CheckFloatingStructures a surfaceElement zCorner = Some (S (fst surfaceElement)))
  /\ (CheckFloatingStructures a surfaceElement zCorner <> None
      <-> HasTrackThatNeedsWater surface = true
          /\ WaterHeight surface <> 0
          /\ GetWaterHeight surface / COORDS_Z_STEP - 2 < zCorner + rise).
Proof.
  intros Hsf Hw Hz rise.
  assert (Hdiv : GetWaterHeight surface / COORDS_Z_STEP = 2 * WaterHeight surface).
  { unfold GetWaterHeight, COORDS_Z_STEP.
    replace (WaterHeight surface * 16) with (2 * WaterHeight surface * 8) by lia.
    apply Z.div_mul. lia. }
  unfold CheckFloatingStructures. rewrite Hsf.
  destruct (HasTrackThatNeedsWater surface);
    [| split; [left; reflexivity | split; [congruence | intros (H & _); discriminate]]].
  assert (Hwrap : wrap_uint32 (GetWaterHeight surface) = GetWaterHeight surface).
  { unfold wrap_uint32, GetWaterHeight. apply Z.mod_small. lia. }
  rewrite Hwrap.
  destruct (GetWaterHeight surface =? 0) eqn:Hzero; cbn [negb].
  { split; [left; reflexivity |]. split; [congruence |].
    intros (_ & Hne & _). apply Z.eqb_eq in Hzero. unfold GetWaterHeight in Hzero. lia. }
  apply Z.eqb_neq in Hzero.
  assert (Hq : wrap_uint32 (Z.quot (GetWaterHeight surface) COORDS_Z_STEP - 2)
               = GetWaterHeight surface / COORDS_Z_STEP - 2).
  { rewrite Z.quot_div_nonneg by (unfold GetWaterHeight, COORDS_Z_STEP; lia).
    unfold wrap_uint32. apply Z.mod_small. rewrite Hdiv. unfold GetWaterHeight in Hzero. lia. }
  rewrite Hq.
  assert (Hcorner :
    (if negb (Z.land (_style a) TILE_ELEMENT_SURFACE_SLOPE_MASK =? 0)
     then if has_flag (_style a) TILE_ELEMENT_SURFACE_DIAGONAL_FLAG
          then wrap_uint8 (wrap_uint8 (zCorner + 2) + 2)
          else wrap_uint8 (zCorner + 2)
     else zCorner) = zCorner + rise).
  { subst rise. unfold has_flag, wrap_uint8.
    destruct (Z.land (_style a) TILE_ELEMENT_SURFACE_SLOPE_MASK =? 0); cbn [negb]; [lia |].
    destruct (Z.land (_style a) TILE_ELEMENT_SURFACE_DIAGONAL_FLAG =? 0); cbn [negb].
    - apply Z.mod_small. lia.
    - rewrite (Z.mod_small (zCorner + 2)) by lia. rewrite Z.mod_small by lia. lia. }
  rewrite Hcorner.
  destruct (zCorner + rise >? GetWaterHeight surface / COORDS_Z_STEP - 2) eqn:Hcmp.
  - split; [right; reflexivity |]. split; [intros _ | discriminate].
    repeat split; [unfold GetWaterHeight in Hzero; lia | lia].
  - split; [left; reflexivity |]. split; [congruence |]. intros (_ & _ & H). lia.
Qed.

(** ** Scenery removal cost *)

Lemma qualifying_price_sum_bound (height : Z) (stk : list TileElement) :
  (forall te sceneryEntry,
     In te stk -> AsSmallScenery te = Some sceneryEntry ->
     -32768 <= removal_price sceneryEntry <= 32767) ->
  Z.abs (qualifying_price_sum height stk) <= 327680 * Z.of_nat (length stk).
Proof.
  unfold qualifying_price_sum.
  induction stk as [| te rest IH]; intros Hprice; [cbn; lia |].
  assert (IH' := IH (fun t e Hin => Hprice t e (or_intror Hin))).
  cbn [List.filter]. change (length (te :: rest)) with (S (length rest)).
  destruct (qualifies_for_removal height te) eqn:Hq; [| lia].
  cbn [map fold_right].
  assert (Z.abs (removal_cost_of te) <= 327680).
  { unfold removal_cost_of, MONEY.
    destruct (AsSmallScenery te) as [e |] eqn:Hsc; [| lia].
    specialize (Hprice te e (or_introl eq_refl) Hsc).
    change (Z.quot 0 10) with 0. lia. }
  lia.
Qed.

(** X8. The removal cost is the plain sum of MONEY(removal price, 0) over the
    small-scenery elements of the cell that overlap the target height, as
    long as every removal price fits its 16-bit field and the cell holds no
    more than 6553 elements, so that the [money32] sum cannot overflow.
    Ghost scenery and trees are charged like any other. *)
Theorem GetSmallSceneryRemovalCost_exact (a : LandSetHeightAction) (s : GameState) :
  (forall te sceneryEntry,
     In te (tile_stack s (_coords a)) -> AsSmallScenery te = Some sceneryEntry ->
     -32768 <= removal_price sceneryEntry <= 32767) ->
  Z.of_nat (length (tile_stack s (_coords a))) <= 6553 ->
  fst (GetSmallSceneryRemovalCost a s)
  = fold_right Z.add 0
      (map removal_cost_of
         (List.filter (qualifies_for_removal (_height a)) (tile_stack s (_coords a)))).
Proof.
  intros Hprice Hlen. unfold GetSmallSceneryRemovalCost, gets. cbn [fst].
  rewrite GetSmallSceneryRemovalCost_loop_total.
  pose proof (qualifying_price_sum_bound (_height a) _ Hprice) as Hb.
  fold (qualifying_price_sum (_height a) (tile_stack s (_coords a))).
  apply wrap_int32_in_range. lia.
Qed.

(** ** Scenery removal *)

Lemma without_qualifying_idem (height : Z) (stk : list TileElement) :
  without_qualifying height (without_qualifying height stk) = without_qualifying height stk.
Proof.
  unfold without_qualifying.
  induction stk as [| te rest IH]; [reflexivity |].
  cbn [List.filter].
  destruct (qualifies_for_removal height te) eqn:Hq; cbn [negb]; [exact IH |].
  cbn [List.filter]. rewrite Hq. cbn [negb]. f_equal. exact IH.
Qed.

Lemma without_qualifying_cons (height : Z) (te : TileElement) (stk : list TileElement) :
  without_qualifying height (te :: stk)
  = if qualifies_for_removal height te then without_qualifying height stk
    else te :: without_qualifying height stk.
Proof.
  unfold without_qualifying. cbn [List.filter].
  destruct (qualifies_for_removal height te); reflexivity.
Qed.

Lemma without_qualifying_none_left (height : Z) (stk : list TileElement) :
  List.filter (qualifies_for_removal height) (without_qualifying height stk) = [].
Proof.
  induction stk as [| te rest IH]; [reflexivity |].
  rewrite without_qualifying_cons.
  destruct (qualifies_for_removal height te) eqn:Hq; [exact IH |].
  cbn [List.filter]. rewrite Hq. exact IH.
Qed.

(** X9. [SmallSceneryRemoval] takes out only small scenery that overlaps the
    target height: every other element of the stack is kept, in order.  When
    the first element of the stack is not itself selected (as when it is the
    surface), no selected element is left. *)
Theorem SmallSceneryRemoval_keeps_the_rest (height : Z) (stk : list TileElement) :
  without_qualifying height (SmallSceneryRemoval_stack height stk)
  = without_qualifying height stk
  /\ (forall te, In te (SmallSceneryRemoval_stack height stk) -> In te stk)
  /\ (forall te rest,
        stk = te :: rest -> qualifies_for_removal height te = false ->
        SmallSceneryRemoval_stack height stk = without_qualifying height stk
        /\ List.filter (qualifies_for_removal height) (SmallSceneryRemoval_stack height stk) = []).
Proof.
  rewrite SmallSceneryRemoval_stack_spec.
  destruct stk as [| hd tl]; [repeat split; try tauto; intros; discriminate |].
  rewrite (without_qualifying_cons height hd tl).
  destruct (qualifies_for_removal height hd) eqn:Hq.
  - split; [reflexivity |]. split; [intros te Hin; right; exact Hin |].
    intros te rest Heq Hn. injection Heq as <- <-. congruence.
  - split.
    { rewrite without_qualifying_cons, Hq. f_equal. apply without_qualifying_idem. }
    split.
    { intros te [<- | Hin]; [left; reflexivity |].
      right. unfold without_qualifying in Hin. apply filter_In in Hin. tauto. }
    intros te rest Heq _. split; [reflexivity |].
    cbn [List.filter]. rewrite Hq. apply without_qualifying_none_left.
Qed.

(** ** The result of Query *)

(** [Query] answers as [Query_outcome] says. *)
Lemma Query_outcome_correct (a : LandSetHeightAction) (s : GameState) :
  fst (Query E a s) = Query_outcome E a s.
Proof.
  unfold Query_outcome, Query_accepted, Query_clearance_range. open_Query.
  destruct (has_flag (gParkFlags s) PARK_FLAGS_FORBID_LANDSCAPE_CHANGES); settle;
    [reflexivity |].
  rewrite (read_only_run _ s (CheckParameters_read_only E a)). settle.
  destruct (is_STR_NONE (fst (CheckParameters E a s))); cbn [negb]; settle; [| reflexivity].
  destruct (has_flag (gScreenFlags s) SCREEN_FLAGS_SCENARIO_EDITOR),
    (gCheatsSandboxMode s); cbn [negb andb]; settle;
    try (destruct (map_is_location_in_park E s (_coords a)); cbn [negb]; settle;
         [| reflexivity]).
  all: destruct (gCheatsDisableClearanceChecks s) eqn:Hdis; cbn [negb andb]; settle.
  all: try (destruct (has_flag (gParkFlags s) PARK_FLAGS_FORBID_TREE_REMOVAL); settle;
            [destruct (CheckTreeObstructions_loop (_height a) (tile_stack s (_coords a)) 0);
             settle; [reflexivity |] |]).
  all: destruct (gCheatsDisableSupportLimits s); cbn [negb andb]; settle.
  all: try (destruct (is_STR_NONE
                        (CheckRideSupports_loop s (_height a) (tile_stack s (_coords a))));
            cbn [negb]; settle; [| reflexivity]).
  all: destruct (map_get_surface_element_at s (_coords a)) as [surf |]; settle;
    [| reflexivity].
  all: destruct (map_get_footpath_element s
                   {| xy := _coords a; z := GetBaseZ (snd surf) |}) as [path |]; settle.
  all: try (destruct (IsLevelCrossing E s path
                        {| xy := _coords a; z := GetBaseZ (snd surf) |}); settle;
            [reflexivity |]).
  all: destruct (CheckFloatingStructures a surf (_height a)); settle; try reflexivity.
  all: rewrite Hdis; cbn [negb]; settle; try reflexivity.
  all: destruct (is_Ok (Error (MapCanConstructWithClearAt E s
                                 {| rxy := _coords a;
                                    baseZ := _height a * COORDS_Z_STEP;
                                    clearanceZ := Query_zCorner a * COORDS_Z_STEP |})));
    cbn [negb]; settle; try reflexivity.
  all: destruct (CheckUnremovableObstructions_loop (_height a) (fst surf) (Query_zCorner a)
                   (tile_stack s (_coords a)) 0); settle; reflexivity.
Qed.

Lemma Query_outcome_after_opening_checks (a : LandSetHeightAction) (s : GameState) :
  passes_opening_checks E a s ->
  Query_outcome E a s
  = match map_get_surface_element_at s (_coords a) with
    | None => Result2 Unknown STR_NONE
    | Some surfaceElement =>
      let oldCoords := {| xy := _coords a; z := GetBaseZ (snd surfaceElement) |} in
      if match map_get_footpath_element s oldCoords with
         | Some path => IsLevelCrossing E s path oldCoords
         | None => false
         end
      then Result2 Disallowed STR_REMOVE_LEVEL_CROSSING_FIRST
      else
      match CheckFloatingStructures a surfaceElement (_height a) with
      | Some p =>
        obstruction_result Disallowed (map_obstruction_set_error_text E s (_coords a) p)
      | None =>
        if gCheatsDisableClearanceChecks s then Query_accepted a 0 surfaceElement
        else
        if negb (is_Ok (Error (MapCanConstructWithClearAt E s (Query_clearance_range a))))
        then Result4 Disallowed STR_NONE
               (ErrorMessage (MapCanConstructWithClearAt E s (Query_clearance_range a)))
               (ErrorMessageArgs (MapCanConstructWithClearAt E s (Query_clearance_range a)))
        else
        match CheckUnremovableObstructions_loop (_height a) (fst surfaceElement)
                (Query_zCorner a) (tile_stack s (_coords a)) 0 with
        | Some p =>
          obstruction_result Disallowed (map_obstruction_set_error_text E s (_coords a) p)
        | None =>
          Query_accepted a
            (GetSmallSceneryRemovalCost_loop (_height a) (tile_stack s (_coords a)) 0)
            surfaceElement
        end
      end
    end.
Proof.
  intros (Hgate & Hcp & Hown & Htree & Hsupp). unfold Query_outcome.
  rewrite Hgate, Hcp. cbn [is_STR_NONE negb].
  assert (Hown' : negb (has_flag (gScreenFlags s) SCREEN_FLAGS_SCENARIO_EDITOR)
                  && negb (gCheatsSandboxMode s)
                  && negb (map_is_location_in_park E s (_coords a)) = false).
  { destruct (has_flag (gScreenFlags s) SCREEN_FLAGS_SCENARIO_EDITOR),
      (gCheatsSandboxMode s), (map_is_location_in_park E s (_coords a));
      try reflexivity.
    destruct Hown as [H | [H | H]]; discriminate H. }
  rewrite Hown'.
  assert (Htree' : (if negb (gCheatsDisableClearanceChecks s)
                       && has_flag (gParkFlags s) PARK_FLAGS_FORBID_TREE_REMOVAL
                    then CheckTreeObstructions_loop (_height a) (tile_stack s (_coords a)) 0
                    else None) = None).
  { destruct (gCheatsDisableClearanceChecks s); [reflexivity |].
    destruct (has_flag (gParkFlags s) PARK_FLAGS_FORBID_TREE_REMOVAL); [| reflexivity].
    apply Htree; reflexivity. }
  rewrite Htree'.
  assert (Hsupp' : negb (gCheatsDisableSupportLimits s)
                   && negb (is_STR_NONE
                              (CheckRideSupports_loop s (_height a) (tile_stack s (_coords a))))
                   = false).
  { destruct (gCheatsDisableSupportLimits s); [reflexivity |].
    rewrite (Hsupp eq_refl). reflexivity. }
  rewrite Hsupp'. reflexivity.
Qed.

Lemma Query_zCorner_value (a : LandSetHeightAction) :
  0 <= _height a <= 251 ->
  Query_zCorner a
  = _height a
    + (if Z.land (_style a) TILE_ELEMENT_SURFACE_RAISED_CORNERS_MASK =? 0 then 0
       else if Z.land (_style a) TILE_ELEMENT_SURFACE_DIAGONAL_FLAG =? 0 then 2 else 4).
Proof.
  intros Hh. unfold Query_zCorner, has_flag, wrap_uint8.
  destruct (Z.land (_style a) TILE_ELEMENT_SURFACE_RAISED_CORNERS_MASK =? 0); cbn [negb];
    [lia |].
  destruct (Z.land (_style a) TILE_ELEMENT_SURFACE_DIAGONAL_FLAG =? 0); cbn [negb].
  - apply Z.mod_small. lia.
  - rewrite (Z.mod_small (_height a + 2)) by lia. rewrite Z.mod_small by lia. lia.
Qed.

(** X10. [Query] answers with one of three statuses.  It is [Unknown] only
    when the cell has no surface element, and it is [Unknown] whenever the
    opening checks pass and the surface is missing.  A rejection carries
    cost 0; an accepted command carries no error message and the
    landscaping expenditure type.  [Query] accepts only if, on the surface
    it found, there is no level crossing and no floating structure and, with
    clearance checks enabled, the clearance collaborator answered [Ok] for
    the volume from the target height to the upper corner height and no
    unremovable obstruction was found.  A failure of any status from the
    collaborator makes [Query] answer [Disallowed], never [Ok]; when every
    earlier check passes the result carries the collaborator's message and
    arguments under an empty title.  The upper corner height is the target
    height plus 2 for a raised corner, plus 4 with the diagonal flag as
    well. *)
Theorem Query_result_shape (a : LandSetHeightAction) (s : GameState) :
  (Error (fst (Query E a s)) = Ok
   \/ Error (fst (Query E a s)) = Disallowed
   \/ Error (fst (Query E a s)) = Unknown)
  /\ (Error (fst (Query E a s)) = Unknown ->
      map_get_surface_element_at s (_coords a) = None)
  /\ (Error (fst (Query E a s)) <> Ok -> Cost (fst (Query E a s)) = 0)
  /\ (Error (fst (Query E a s)) = Ok ->
      ErrorMessage (fst (Query E a s)) = STR_NONE
      /\ ErrorTitle (fst (Query E a s)) = STR_NONE
      /\ Expenditure (fst (Query E a s)) = Landscaping)
  /\ (passes_opening_checks E a s ->
      map_get_surface_element_at s (_coords a) = None ->
      fst (Query E a s) = Result2 Unknown STR_NONE)
  /\ (Error (fst (Query E a s)) = Ok ->
      exists surfaceElement,
        map_get_surface_element_at s (_coords a) = Some surfaceElement
        /\ (forall path,
              map_get_footpath_element s
                {| xy := _coords a; z := GetBaseZ (snd surfaceElement) |} = Some path ->
              IsLevelCrossing E s path
                {| xy := _coords a; z := GetBaseZ (snd surfaceElement) |} = false)
        /\ CheckFloatingStructures a surfaceElement (_height a) = None
        /\ (gCheatsDisableClearanceChecks s = false ->
            Error (MapCanConstructWithClearAt E s (Query_clearance_range a)) = Ok
            /\ CheckUnremovableObstructions_loop (_height a) (fst surfaceElement)
                 (Query_zCorner a) (tile_stack s (_coords a)) 0 = None))
  /\ (gCheatsDisableClearanceChecks s = false ->
      Error (MapCanConstructWithClearAt E s (Query_clearance_range a)) <> Ok ->
      Error (fst (Query E a s)) <> Ok
      /\ (forall surfaceElement,
            map_get_surface_element_at s (_coords a) = Some surfaceElement ->
            Error (fst (Query E a s)) = Disallowed))
  /\ (forall surfaceElement,
        passes_opening_checks E a s ->
        map_get_surface_element_at s (_coords a) = Some surfaceElement ->
        match map_get_footpath_element s
                {| xy := _coords a; z := GetBaseZ (snd surfaceElement) |} with
        | Some path =>
          IsLevelCrossing E s path {| xy := _coords a; z := GetBaseZ (snd surfaceElement) |}
        | None => false
        end = false ->
        CheckFloatingStructures a surfaceElement (_height a) = None ->
        gCheatsDisableClearanceChecks s = false ->
        Error (MapCanConstructWithClearAt E s (Query_clearance_range a)) <> Ok ->
        fst (Query E a s)
        = Result4 Disallowed STR_NONE
            (ErrorMessage (MapCanConstructWithClearAt E s (Query_clearance_range a)))
            (ErrorMessageArgs (MapCanConstructWithClearAt E s (Query_clearance_range a))))
  /\ (0 <= _height a <= 251 ->
      baseZ (Query_clearance_range a) = _height a * COORDS_Z_STEP
      /\ clearanceZ (Query_clearance_range a)
         = (_height a
            + (if Z.land (_style a) TILE_ELEMENT_SURFACE_RAISED_CORNERS_MASK =? 0 then 0
               else if Z.land (_style a) TILE_ELEMENT_SURFACE_DIAGONAL_FLAG =? 0 then 2
                    else 4))
           * COORDS_Z_STEP).
Proof.
  assert (Hshape :
    (Error (fst (Query E a s)) = Ok
     \/ Error (fst (Query E a s)) = Disallowed
     \/ Error (fst (Query E a s)) = Unknown)
    /\ (Error (fst (Query E a s)) = Unknown ->
        map_get_surface_element_at s (_coords a) = None)
    /\ (Error (fst (Query E a s)) <> Ok -> Cost (fst (Query E a s)) = 0)
    /\ (Error (fst (Query E a s)) = Ok ->
        ErrorMessage (fst (Query E a s)) = STR_NONE
        /\ ErrorTitle (fst (Query E a s)) = STR_NONE
        /\ Expenditure (fst (Query E a s)) = Landscaping)).
  { open_Query.
    repeat (next_check;
            try (cbn [Error Cost ErrorMessage ErrorTitle Expenditure Result2 Result4
                      obstruction_result];
                 repeat split; auto; intros; try discriminate; congruence)). }
  assert (Haccept :
    Error (fst (Query E a s)) = Ok ->
    exists surfaceElement,
      map_get_surface_element_at s (_coords a) = Some surfaceElement
      /\ (forall path,
            map_get_footpath_element s
              {| xy := _coords a; z := GetBaseZ (snd surfaceElement) |} = Some path ->
            IsLevelCrossing E s path
              {| xy := _coords a; z := GetBaseZ (snd surfaceElement) |} = false)
      /\ CheckFloatingStructures a surfaceElement (_height a) = None
      /\ (gCheatsDisableClearanceChecks s = false ->
          Error (MapCanConstructWithClearAt E s (Query_clearance_range a)) = Ok
          /\ CheckUnremovableObstructions_loop (_height a) (fst surfaceElement)
               (Query_zCorner a) (tile_stack s (_coords a)) 0 = None)).
  { rewrite Query_outcome_correct. unfold Query_outcome.
    repeat match goal with
           | |- context [if ?c then Result2 _ _ else _] =>
             destruct c; [intros H; discriminate H |]
           | |- context [match ?o with Some _ => obstruction_result _ _ | None => _ end] =>
             destruct o eqn:?; [intros H; discriminate H |]
           end.
    destruct (map_get_surface_element_at s (_coords a)) as [surf |];
      [| intros H; discriminate H].
    cbv zeta.
    destruct (map_get_footpath_element s {| xy := _coords a; z := GetBaseZ (snd surf) |})
      as [path |] eqn:Hpath.
    - destruct (IsLevelCrossing E s path {| xy := _coords a; z := GetBaseZ (snd surf) |})
        eqn:Hcross; [intros H; discriminate H |].
      destruct (CheckFloatingStructures a surf (_height a)) eqn:Hfloat;
        [intros H; discriminate H |].
      destruct (gCheatsDisableClearanceChecks s).
      + intros _. exists surf. split; [reflexivity |].
        split; [intros p Hp; rewrite Hpath in Hp; injection Hp as <-; exact Hcross |].
        split; [exact Hfloat | discriminate].
      + destruct (Error (MapCanConstructWithClearAt E s (Query_clearance_range a))) eqn:Hclr;
          cbn [is_Ok negb]; try (intros H; discriminate H).
        destruct (CheckUnremovableObstructions_loop _ _ _ _ _) eqn:Hun;
          [intros H; discriminate H |].
        intros _. exists surf. split; [reflexivity |].
        split; [intros p Hp; rewrite Hpath in Hp; injection Hp as <-; exact Hcross |].
        split; [exact Hfloat | intros _; split; [reflexivity | exact Hun]].
    - destruct (CheckFloatingStructures a surf (_height a)) eqn:Hfloat;
        [intros H; discriminate H |].
      destruct (gCheatsDisableClearanceChecks s).
      + intros _. exists surf. split; [reflexivity |].
        split; [intros p Hp; rewrite Hpath in Hp; discriminate Hp |].
        split; [exact Hfloat | discriminate].
      + destruct (Error (MapCanConstructWithClearAt E s (Query_clearance_range a))) eqn:Hclr;
          cbn [is_Ok negb]; try (intros H; discriminate H).
        destruct (CheckUnremovableObstructions_loop _ _ _ _ _) eqn:Hun;
          [intros H; discriminate H |].
        intros _. exists surf. split; [reflexivity |].
        split; [intros p Hp; rewrite Hpath in Hp; discriminate Hp |].
        split; [exact Hfloat | intros _; split; [reflexivity | exact Hun]]. }
  destruct Hshape as (H1 & H2 & H3 & H4).
  split; [exact H1 |]. split; [exact H2 |]. split; [exact H3 |]. split; [exact H4 |].
  split.
  { intros Hpass Hnone.
    rewrite Query_outcome_correct, (Query_outcome_after_opening_checks a s Hpass), Hnone.
    reflexivity. }
  split; [exact Haccept |].
  split.
  { intros Hdis Hfail.
    assert (Hnot : Error (fst (Query E a s)) <> Ok).
    { intros HOk. destruct (Haccept HOk) as (surf & _ & _ & _ & Hc).
      destruct (Hc Hdis) as [Hc1 _]. contradiction. }
    split; [exact Hnot |].
    intros surf Hsurf. destruct H1 as [H | [H | H]]; [contradiction | exact H |].
    rewrite (H2 H) in Hsurf. discriminate Hsurf. }
  split.
  { intros surf Hpass Hsurf Hcross Hfloat Hdis Hfail.
    rewrite Query_outcome_correct, (Query_outcome_after_opening_checks a s Hpass), Hsurf.
    cbv zeta. rewrite Hcross, Hfloat, Hdis.
    destruct (Error (MapCanConstructWithClearAt E s (Query_clearance_range a)));
      try reflexivity. contradiction. }
  intros Hh. unfold Query_clearance_range. cbn [baseZ clearanceZ].
  split; [reflexivity |]. rewrite (Query_zCorner_value a Hh). reflexivity.
Qed.

(** ** Query and Execute agree *)

Lemma find_surface_filter (f : TileElement -> bool) (stk : list TileElement) :
  (forall te, GetType te = TILE_ELEMENT_TYPE_SURFACE -> f te = true) ->
  forall i j,
    option_map snd (find_surface (List.filter f stk) i) = option_map snd (find_surface stk j).
Proof.
  intros Hkeep. induction stk as [| te rest IH]; intros i j; [reflexivity |].
  cbn [List.filter find_surface].
  destruct (GetType te) eqn:Ht;
    try (destruct (f te); [cbn [find_surface]; rewrite Ht |]; apply IH).
  rewrite (Hkeep te Ht). cbn [find_surface]. rewrite Ht. reflexivity.
Qed.

Lemma GetSmallSceneryRemovalCost_loop_filter (f : TileElement -> bool) (height : Z)
    (stk : list TileElement) :
  (forall te, GetType te = TILE_ELEMENT_TYPE_SMALL_SCENERY -> f te = true) ->
  forall cost,
    GetSmallSceneryRemovalCost_loop height (List.filter f stk) cost
    = GetSmallSceneryRemovalCost_loop height stk cost.
Proof.
  intros Hkeep. induction stk as [| te rest IH]; intros cost; [reflexivity |].
  cbn [List.filter].
  destruct (f te) eqn:Hf.
  - cbn [GetSmallSceneryRemovalCost_loop].
    destruct (AsSmallScenery te); [| apply IH].
    destruct (height >? clearance_height te); [apply IH |].
    destruct (height + 4 <? base_height te); apply IH.
  - cbn [GetSmallSceneryRemovalCost_loop].
    destruct (AsSmallScenery te) as [e |] eqn:Hsc; [| apply IH].
    assert (GetType te = TILE_ELEMENT_TYPE_SMALL_SCENERY).
    { unfold AsSmallScenery in Hsc. unfold GetType. destruct (body te); congruence. }
    rewrite Hkeep in Hf by assumption. discriminate.
Qed.

Lemma wall_in_range_is_wall (r : CoordsXYRangedZ) (te : TileElement) :
  wall_in_range r te = true -> GetType te = TILE_ELEMENT_TYPE_WALL.
Proof. unfold wall_in_range. destruct (GetType te); congruence. Qed.

Lemma find_surface_shift (stk : list TileElement) :
  forall i j, option_map snd (find_surface stk i) = option_map snd (find_surface stk j).
Proof.
  induction stk as [| te rest IH]; intros i j; [reflexivity |].
  cbn [find_surface]. destruct (GetType te); try apply IH. reflexivity.
Qed.

Lemma find_surface_after_removal (height : Z) (stk : list TileElement) :
  option_map snd (find_surface (SmallSceneryRemoval_stack height stk) 0)
  = option_map snd (find_surface stk 0).
Proof.
  rewrite SmallSceneryRemoval_stack_spec.
  destruct stk as [| te rest]; [reflexivity |].
  destruct (qualifies_for_removal height te) eqn:Hq.
  - apply qualifies_for_removal_spec in Hq as [Ht _].
    cbn [find_surface]. rewrite Ht. apply find_surface_shift.
  - replace (te :: without_qualifying height rest)
      with (List.filter (fun t => negb (qualifies_for_removal height t)) (te :: rest))
      by (cbn [List.filter]; rewrite Hq; reflexivity).
    apply find_surface_filter.
    intros t Ht. destruct (qualifies_for_removal height t) eqn:Hqt; [| reflexivity].
    apply qualifies_for_removal_spec in Hqt as [Ht' _]. congruence.
Qed.

Lemma GetSmallSceneryRemovalCost_loop_wrapped (height : Z) (stk : list TileElement) :
  money32_add 0 (GetSmallSceneryRemovalCost_loop height stk 0)
  = GetSmallSceneryRemovalCost_loop height stk 0.
Proof.
  unfold money32_add. rewrite Z.add_0_l, GetSmallSceneryRemovalCost_loop_total.
  apply wrap_int32_idem.
Qed.

(** X11. Whenever [Query] accepts a command, [Execute] on the same state
    succeeds and charges exactly the cost [Query] projected. *)
Theorem Execute_charges_projected_cost (a : LandSetHeightAction) (s : GameState) :
  Error (fst (Query E a s)) = Ok ->
  Error (fst (Execute E a s)) = Ok
  /\ Cost (fst (Execute E a s)) = Cost (fst (Query E a s)).
Proof.
  intros HOk. destruct (Query_Ok_cost E a s HOk) as (surf & Hsurf & Hcost).
  rewrite Hcost. clear Hcost HOk.
  unfold map_get_surface_element_at in Hsurf.
  destruct (map_get_first_element_at s (_coords a)) as [stk |] eqn:Hstk; [| discriminate].
  assert (Hunl : map_get_first_element_at (Execute_unlittered E a s) (_coords a) = Some stk)
    by exact Hstk.
  rewrite Execute_run.
  unfold Query_sceneryRemovalCost, Execute_removalCost, Execute_cleared.
  destruct (gCheatsDisableClearanceChecks s).
  - unfold map_get_surface_element_at. rewrite Hunl, Hsurf. split; reflexivity.
  - assert (Hwall : map_get_first_element_at
                      (wall_remove_at (Execute_wall_range a) (Execute_unlittered E a s))
                      (_coords a)
                    = Some (List.filter
                              (fun te => negb (wall_in_range (Execute_wall_range a) te)) stk))
      by (apply (map_get_first_element_at_update (_coords a)), Hunl).
    pose proof (map_get_first_element_at_update (_coords a)
                  (SmallSceneryRemoval_stack (_height a)) _ _ Hwall) as Hclr.
    unfold map_get_surface_element_at. rewrite Hclr.
    assert (Hsame : option_map snd
              (find_surface
                 (SmallSceneryRemoval_stack (_height a)
                    (List.filter (fun te => negb (wall_in_range (Execute_wall_range a) te)) stk))
                 0) = Some (snd surf)).
    { rewrite find_surface_after_removal.
      rewrite (find_surface_filter _ stk) with (j := 0%nat); [rewrite Hsurf; reflexivity |].
      intros te Ht. destruct (wall_in_range (Execute_wall_range a) te) eqn:Hw; [| reflexivity].
      apply wall_in_range_is_wall in Hw. congruence. }
    match type of Hsame with
    | option_map snd ?found = _ => destruct found as [surf' |]; [| discriminate]
    end.
    cbn [option_map] in Hsame. injection Hsame as Hsame. split; [reflexivity |].
    cbn [Cost fst]. rewrite Hsame. f_equal.
    unfold tile_stack. rewrite Hwall, Hstk. cbn [default].
    change (MONEY 0 0) with 0. rewrite GetSmallSceneryRemovalCost_loop_wrapped.
    apply GetSmallSceneryRemovalCost_loop_filter.
    intros te Ht. destruct (wall_in_range (Execute_wall_range a) te) eqn:Hw; [| reflexivity].
    apply wall_in_range_is_wall in Hw. congruence.
Qed.

(** ** What Execute leaves alone *)

Lemma same_outside_cell_refl (c : CoordsXY) (s : GameState) : same_outside_cell c s s.
Proof. unfold same_outside_cell. repeat split; reflexivity. Qed.

Lemma same_outside_cell_trans (c : CoordsXY) (s1 s2 s3 : GameState) :
  same_outside_cell c s1 s2 -> same_outside_cell c s2 s3 -> same_outside_cell c s1 s3.
Proof.
  unfold same_outside_cell.
  intros (A1 & A2 & A3 & A4 & A5 & A6 & A7 & A8 & A9) (B1 & B2 & B3 & B4 & B5 & B6 & B7 & B8 & B9).
  repeat split; try congruence.
  intros k Hk. rewrite B9, A9 by exact Hk. reflexivity.
Qed.

Lemma same_outside_cell_update (c : CoordsXY) (f : list TileElement -> list TileElement)
    (s : GameState) :
  same_outside_cell c s (update_tile_stack c f s).
Proof.
  unfold update_tile_stack.
  destruct (map_get_first_element_at s c); [| apply same_outside_cell_refl].
  unfold same_outside_cell. cbn [set_gTileElements gParkFlags gScreenFlags gCheatsSandboxMode
    gCheatsDisableClearanceChecks gCheatsDisableSupportLimits gMapSizeMaxXY gRides gCash
    gTileElements].
  repeat split. intros k Hk. apply lookup_insert_ne. congruence.
Qed.

Lemma same_outside_cell_litter (c : CoordsXY) (pos : CoordsXYZ) (s : GameState) :
  same_outside_cell c s (footpath_remove_litter pos s).
Proof. unfold same_outside_cell. repeat split; reflexivity. Qed.

Lemma Execute_cleared_same_outside (a : LandSetHeightAction) (s : GameState) :
  same_outside_cell (_coords a) s (Execute_cleared E a s).
Proof.
  unfold Execute_cleared, Execute_unlittered.
  destruct (gCheatsDisableClearanceChecks s); [apply same_outside_cell_litter |].
  eapply same_outside_cell_trans; [apply same_outside_cell_litter |].
  eapply same_outside_cell_trans; [| apply same_outside_cell_update].
  unfold wall_remove_at. change (rxy (Execute_wall_range a)) with (_coords a).
  apply same_outside_cell_update.
Qed.

Lemma update_tile_stack_litter (c : CoordsXY) (f : list TileElement -> list TileElement)
    (s : GameState) :
  gLitter (update_tile_stack c f s) = gLitter s.
Proof. unfold update_tile_stack. destruct (map_get_first_element_at s c); reflexivity. Qed.

(** X12. [Execute] writes nothing but the stack of the target cell and the
    litter: the policy flags, the cheats, the map size, the rides, the cash
    and the stack of every other cell are as before, and the litter left is
    litter that was there.  This holds whether it succeeds or not. *)
Theorem Execute_touches_only_its_cell (a : LandSetHeightAction) (s : GameState) :
  gParkFlags (snd (Execute E a s)) = gParkFlags s
  /\ gScreenFlags (snd (Execute E a s)) = gScreenFlags s
  /\ gCheatsSandboxMode (snd (Execute E a s)) = gCheatsSandboxMode s
  /\ gCheatsDisableClearanceChecks (snd (Execute E a s)) = gCheatsDisableClearanceChecks s
  /\ gCheatsDisableSupportLimits (snd (Execute E a s)) = gCheatsDisableSupportLimits s
  /\ gMapSizeMaxXY (snd (Execute E a s)) = gMapSizeMaxXY s
  /\ gRides (snd (Execute E a s)) = gRides s
  /\ gCash (snd (Execute E a s)) = gCash s
  /\ (forall k, k <> TileCoords (_coords a) ->
        gTileElements (snd (Execute E a s)) !! k = gTileElements s !! k)
  /\ (forall l, In l (gLitter (snd (Execute E a s))) -> In l (gLitter s)).
Proof.
  assert (Hframe : same_outside_cell (_coords a) s (snd (Execute E a s))).
  { rewrite Execute_run.
    destruct (map_get_surface_element_at (Execute_cleared E a s) (_coords a)); cbn [snd].
    - eapply same_outside_cell_trans;
        [apply Execute_cleared_same_outside | apply same_outside_cell_update].
    - apply Execute_cleared_same_outside. }
  destruct Hframe as (A1 & A2 & A3 & A4 & A5 & A6 & A7 & A8 & A9).
  repeat (split; [assumption |]).
  intros l.
  assert (Hl : gLitter (Execute_cleared E a s)
               = List.filter
                   (fun l0 => negb (litter_in_reach
                      {| xy := _coords a; z := tile_element_height E s (_coords a) |} l0))
                   (gLitter s)).
  { unfold Execute_cleared, Execute_unlittered.
    destruct (gCheatsDisableClearanceChecks s); [reflexivity |].
    unfold wall_remove_at. rewrite !update_tile_stack_litter. reflexivity. }
  rewrite Execute_run.
  destruct (map_get_surface_element_at (Execute_cleared E a s) (_coords a)); cbn [snd];
    rewrite ?update_tile_stack_litter, Hl; intros Hin; apply filter_In in Hin; tauto.
Qed.

(** X13. [Execute] on a cell off the map fails with [Unknown] and cost 0 and
    leaves the whole tile grid as it was. *)
Theorem Execute_off_map (a : LandSetHeightAction) (s : GameState) :
  map_is_location_valid (_coords a) = false ->
  fst (Execute E a s) = Result2 Unknown STR_NONE
  /\ gTileElements (snd (Execute E a s)) = gTileElements s.
Proof.
  intros Hoff.
  assert (Hnone : forall st, map_get_first_element_at st (_coords a) = None)
    by (intros st; unfold map_get_first_element_at; rewrite Hoff; reflexivity).
  assert (Hupd : forall f st, update_tile_stack (_coords a) f st = st)
    by (intros f st; unfold update_tile_stack; rewrite Hnone; reflexivity).
  rewrite Execute_run. unfold map_get_surface_element_at. rewrite Hnone. cbn [fst snd].
  split; [reflexivity |].
  unfold Execute_cleared, wall_remove_at.
  change (rxy (Execute_wall_range a)) with (_coords a).
  rewrite !Hupd. destruct (gCheatsDisableClearanceChecks s); reflexivity.
Qed.

(** X14. With clearance checks disabled [Execute] removes nothing: the stack
    keeps every element, walls and scenery included, only the surface being
    rewritten, and the cost is the height-change cost alone. *)
Theorem Execute_without_clearance_checks (a : LandSetHeightAction) (s : GameState)
    (stk : list TileElement) (surfaceElement : nat * TileElement) :
  gCheatsDisableClearanceChecks s = true ->
  map_get_first_element_at s (_coords a) = Some stk ->
  find_surface stk 0 = Some surfaceElement ->
  Error (fst (Execute E a s)) = Ok
  /\ Cost (fst (Execute E a s)) = GetSurfaceHeightChangeCost a (snd surfaceElement)
  /\ tile_stack (snd (Execute E a s)) (_coords a)
     = alter (SetSurfaceHeight_element a) (fst surfaceElement) stk
  /\ length (tile_stack (snd (Execute E a s)) (_coords a)) = length stk.
Proof.
  intros Hdis Hstk Hsurf.
  assert (Hunl : map_get_first_element_at (Execute_cleared E a s) (_coords a) = Some stk)
    by (unfold Execute_cleared; rewrite Hdis; exact Hstk).
  rewrite Execute_run. unfold map_get_surface_element_at. rewrite Hunl, Hsurf.
  cbn [fst snd Error Cost].
  rewrite (tile_stack_update _ _ _ _ Hunl).
  split; [reflexivity |]. split.
  - unfold Execute_removalCost. rewrite Hdis. change (MONEY 0 0) with 0.
    apply money32_add_in_range.
    pose proof (GetSurfaceHeightChangeCost_range a (snd surfaceElement)). lia.
  - split; [reflexivity | apply length_alter].
Qed.

(** ** The height-change cost *)

Lemma corner_cost_zero_iff (delta : Z) : corner_cost delta = 0 <-> delta = 0.
Proof.
  unfold corner_cost, MONEY. change (Z.quot 0 10) with 0.
  rewrite Z.quot_div_nonneg by lia.
  pose proof (Z.div_mod (Z.abs delta * 5) 2).
  pose proof (Z.mod_pos_bound (Z.abs delta * 5) 2).
  split; intros Hd; [| subst delta; reflexivity]. lia.
Qed.

Lemma corner_cost_changed (delta : Z) : delta <> 0 -> 20 <= corner_cost delta.
Proof.
  intros Hd. unfold corner_cost, MONEY. change (Z.quot 0 10) with 0.
  rewrite Z.quot_div_nonneg by lia.
  pose proof (Z.div_mod (Z.abs delta * 5) 2).
  pose proof (Z.mod_pos_bound (Z.abs delta * 5) 2).
  lia.
Qed.

(** X15. The height-change cost lies between 0 and 25480, so it never
    overflows [money32].  It is 0 exactly when none of the four corners
    changes its height, and every corner that does change contributes at
    least 20. *)
Theorem GetSurfaceHeightChangeCost_zero_iff (a : LandSetHeightAction)
    (surfaceElement : TileElement) :
  0 <= GetSurfaceHeightChangeCost a surfaceElement <= 25480
  /\ (GetSurfaceHeightChangeCost a surfaceElement = 0
      <-> forall i, In i ALL_DIRECTIONS -> corner_delta a surfaceElement i = 0)
  /\ (forall i, In i ALL_DIRECTIONS -> corner_delta a surfaceElement i <> 0 ->
                20 <= GetSurfaceHeightChangeCost a surfaceElement).
Proof.
  split; [apply GetSurfaceHeightChangeCost_range |].
  rewrite GetSurfaceHeightChangeCost_sum.
  pose proof (corner_cost_range _ (corner_delta_range a surfaceElement 0)) as R0.
  pose proof (corner_cost_range _ (corner_delta_range a surfaceElement 1)) as R1.
  pose proof (corner_cost_range _ (corner_delta_range a surfaceElement 2)) as R2.
  pose proof (corner_cost_range _ (corner_delta_range a surfaceElement 3)) as R3.
  split; [split |].
  - intros Hsum i Hin.
    assert (Hc : corner_cost (corner_delta a surfaceElement i) = 0)
      by (cbn in Hin; destruct Hin as [<- | [<- | [<- | [<- | []]]]]; lia).
    apply corner_cost_zero_iff, Hc.
  - intros Hall.
    rewrite !(proj2 (corner_cost_zero_iff _)) by (apply Hall; cbn; tauto). reflexivity.
  - intros i Hin Hne. pose proof (corner_cost_changed _ Hne) as Hc.
    cbn in Hin. destruct Hin as [<- | [<- | [<- | [<- | []]]]]; lia.
Qed.

Lemma describes_corner (a : LandSetHeightAction) (te : TileElement) (i : Z) :
  describes a te ->
  tile_element_get_corner_height te i
  = map_get_corner_height (_height a) (Z.land (_style a) TILE_ELEMENT_SURFACE_SLOPE_MASK) i.
Proof.
  intros (sf & Hb & Hh & Hs). unfold tile_element_get_corner_height, AsSurface.
  rewrite Hb, Hh, Hs. reflexivity.
Qed.

Lemma GetSurfaceHeightChangeCost_described (a : LandSetHeightAction) (te : TileElement) :
  describes a te -> GetSurfaceHeightChangeCost a te = 0.
Proof.
  intros H. rewrite GetSurfaceHeightChangeCost_sum.
  assert (Hzero : forall i, corner_delta a te i = 0)
    by (intros i; unfold corner_delta; rewrite (describes_corner a te i H); lia).
  rewrite !Hzero. reflexivity.
Qed.

(** X16. Changing a surface from one shape to another costs the same as
    changing it back: if command [a1] describes surface [te1] and command
    [a2] describes surface [te2], applying [a2] to [te1] costs what applying
    [a1] to [te2] costs.  A command that describes the surface it is applied
    to costs nothing. *)
Theorem GetSurfaceHeightChangeCost_symmetric (a1 a2 : LandSetHeightAction)
    (te1 te2 : TileElement) :
  describes a1 te1 ->
  describes a2 te2 ->
  GetSurfaceHeightChangeCost a2 te1 = GetSurfaceHeightChangeCost a1 te2
  /\ GetSurfaceHeightChangeCost a1 te1 = 0.
Proof.
  intros H1 H2.
  assert (Hopp : forall i, corner_delta a2 te1 i = - corner_delta a1 te2 i).
  { intros i. unfold corner_delta.
    rewrite (describes_corner a1 te1 i H1), (describes_corner a2 te2 i H2). lia. }
  assert (Hzero : forall i, corner_delta a1 te1 i = 0).
  { intros i. unfold corner_delta. rewrite (describes_corner a1 te1 i H1). lia. }
  rewrite !GetSurfaceHeightChangeCost_sum, !Hopp, !Hzero.
  unfold corner_cost. rewrite !Z.abs_opp. split; reflexivity.
Qed.

(** X17. Once [SetSurfaceHeight] has been applied to a surface element, the
    command describes that element, provided its style has no bits outside
    the slope mask: applying the same command again would cost nothing for
    the height change.  Applying [SetSurfaceHeight] twice writes what
    applying it once writes. *)
Theorem SetSurfaceHeight_settles (a : LandSetHeightAction) (te : TileElement)
    (surface : SurfaceElement) :
  body te = Surface surface ->
  Z.land (_style a) TILE_ELEMENT_SURFACE_SLOPE_MASK = _style a ->
  describes a (SetSurfaceHeight_element a te)
  /\ GetSurfaceHeightChangeCost a (SetSurfaceHeight_element a te) = 0
  /\ SetSurfaceHeight_element a (SetSurfaceHeight_element a te) = SetSurfaceHeight_element a te.
Proof.
  intros Hb Hstyle.
  assert (Hdesc : describes a (SetSurfaceHeight_element a te)).
  { unfold describes, SetSurfaceHeight_element. rewrite Hb.
    cbn [body base_height].
    match goal with |- context [if ?c then _ else _] => destruct c end.
    - eexists. split; [reflexivity |]. split; [reflexivity | exact Hstyle].
    - eexists. split; [reflexivity |]. split; [reflexivity | exact Hstyle]. }
  split; [exact Hdesc |]. split.
  - apply (GetSurfaceHeightChangeCost_described a _ Hdesc).
  - unfold SetSurfaceHeight_element. rewrite Hb.
    unfold GetWaterHeight, SetWaterHeight, SetSlope.
    cbn [body base_height clearance_height IsGhost Slope WaterHeight HasTrackThatNeedsWater].
    destruct (negb (Z.quot (wrap_uint32 (WaterHeight surface * 16)) COORDS_Z_STEP =? 0)
              && (Z.quot (wrap_uint32 (WaterHeight surface * 16)) COORDS_Z_STEP <=? _height a))
      eqn:Hc;
      cbn [body Slope WaterHeight HasTrackThatNeedsWater].
    + reflexivity.
    + rewrite Hc. reflexivity.
Qed.

(** ** Execute does not validate *)

Lemma Execute_cleared_surface (a : LandSetHeightAction) (s : GameState) :
  option_map snd (map_get_surface_element_at (Execute_cleared E a s) (_coords a))
  = option_map snd (map_get_surface_element_at s (_coords a)).
Proof.
  unfold map_get_surface_element_at at 2.
  destruct (map_get_first_element_at s (_coords a)) as [stk |] eqn:Hstk.
  - assert (Hunl : map_get_first_element_at (Execute_unlittered E a s) (_coords a) = Some stk)
      by exact Hstk.
    unfold Execute_cleared.
    destruct (gCheatsDisableClearanceChecks s).
    + unfold map_get_surface_element_at. rewrite Hunl. reflexivity.
    + assert (Hwall : map_get_first_element_at
                        (wall_remove_at (Execute_wall_range a) (Execute_unlittered E a s))
                        (_coords a)
                      = Some (List.filter
                                (fun te => negb (wall_in_range (Execute_wall_range a) te)) stk))
        by (apply (map_get_first_element_at_update (_coords a)), Hunl).
      unfold map_get_surface_element_at.
      rewrite (map_get_first_element_at_update (_coords a)
                 (SmallSceneryRemoval_stack (_height a)) _ _ Hwall).
      rewrite find_surface_after_removal.
      apply find_surface_filter.
      intros te Ht. destruct (wall_in_range (Execute_wall_range a) te) eqn:Hw; [| reflexivity].
      apply wall_in_range_is_wall in Hw. congruence.
  - assert (Hunl : map_get_first_element_at (Execute_unlittered E a s) (_coords a) = None)
      by exact Hstk.
    assert (Hclr : Execute_cleared E a s = Execute_unlittered E a s).
    { unfold Execute_cleared. destruct (gCheatsDisableClearanceChecks s); [reflexivity |].
      unfold wall_remove_at. change (rxy (Execute_wall_range a)) with (_coords a).
      unfold update_tile_stack at 2. rewrite Hunl.
      unfold update_tile_stack. rewrite Hunl. reflexivity. }
    rewrite Hclr. unfold map_get_surface_element_at. rewrite Hunl. reflexivity.
Qed.

(** X18. [Execute] runs none of the checks of [Query]: it succeeds exactly
    when the cell has a surface element, whatever the policy flags, the
    ownership of the cell and the validity of height and style, and fails
    with [Unknown] otherwise.  It never answers [Disallowed]. *)
Theorem Execute_succeeds_iff_surface (a : LandSetHeightAction) (s : GameState) :
  (Error (fst (Execute E a s)) = Ok
   <-> exists surfaceElement, map_get_surface_element_at s (_coords a) = Some surfaceElement)
  /\ (Error (fst (Execute E a s)) = Unknown
      <-> map_get_surface_element_at s (_coords a) = None)
  /\ Error (fst (Execute E a s)) <> Disallowed.
Proof.
  pose proof (Execute_cleared_surface a s) as Hsame.
  rewrite Execute_run.
  destruct (map_get_surface_element_at (Execute_cleared E a s) (_coords a)) as [surf' |];
    destruct (map_get_surface_element_at s (_coords a)) as [surf |];
    try discriminate Hsame; cbn [fst Error Result2].
  - split; [split; [eauto | reflexivity] |]. split; [split; discriminate | discriminate].
  - split; [split; [discriminate | intros (x0 & Hx); discriminate] |].
    split; [split; reflexivity | discriminate].
Qed.

(** ** Level crossings, in full *)

(** C8 (as the code has it).  On a cell whose surface carries, at its own
    height, a path element that is an active level crossing, [Query] rejects
    with [Disallowed] for every target height and style, and its result is
    that of the first check, in the order [Query] makes them, that fails:
    "forbidden by the local authority" when the forbid-landscape-changes
    flag is set; else the validation error when parameter validation fails;
    else "land not owned by park" when, outside the scenario editor and
    sandbox mode, the cell is not in the park; else, with clearance checks
    enabled and the forbid-tree-removal flag set, the obstruction message of
    the first small-scenery tree overlapping the target height; else, with
    support limits enabled, "supports can't be extended" when a track
    element exceeds its ride's height limit; else "remove level crossing
    first". *)
Theorem Query_level_crossing (a : LandSetHeightAction) (s : GameState)
    (surfaceElement : nat * TileElement) (path : TileElement) :
  map_get_surface_element_at s (_coords a) = Some surfaceElement ->
  map_get_footpath_element s {| xy := _coords a; z := GetBaseZ (snd surfaceElement) |} = Some path ->
  IsLevelCrossing E s path {| xy := _coords a; z := GetBaseZ (snd surfaceElement) |} = true ->
  Error (fst (Query E a s)) = Disallowed
  /\ fst (Query E a s)
     = (if has_flag (gParkFlags s) PARK_FLAGS_FORBID_LANDSCAPE_CHANGES
        then Result2 Disallowed STR_FORBIDDEN_BY_THE_LOCAL_AUTHORITY
        else if negb (is_STR_NONE (fst (CheckParameters E a s)))
        then Result2 Disallowed (fst (CheckParameters E a s))
        else if negb (has_flag (gScreenFlags s) SCREEN_FLAGS_SCENARIO_EDITOR)
                && negb (gCheatsSandboxMode s)
                && negb (map_is_location_in_park E s (_coords a))
        then Result2 Disallowed STR_LAND_NOT_OWNED_BY_PARK
        else
        match (if negb (gCheatsDisableClearanceChecks s)
                  && has_flag (gParkFlags s) PARK_FLAGS_FORBID_TREE_REMOVAL
               then CheckTreeObstructions_loop (_height a) (tile_stack s (_coords a)) 0
               else None) with
        | Some p =>
          obstruction_result Disallowed (map_obstruction_set_error_text E s (_coords a) p)
        | None =>
          if negb (gCheatsDisableSupportLimits s)
             && existsb (supports_exceeded s (_height a)) (tile_stack s (_coords a))
          then Result2 Disallowed STR_SUPPORTS_CANT_BE_EXTENDED
          else Result2 Disallowed STR_REMOVE_LEVEL_CROSSING_FIRST
        end)
  /\ (forall p,
        CheckTreeObstructions_loop (_height a) (tile_stack s (_coords a)) 0 = Some p ->
        (exists te, tile_stack s (_coords a) !! p = Some te
                    /\ is_obstructing_tree (_height a) te = true)
        /\ (forall q te', (q < p)%nat -> tile_stack s (_coords a) !! q = Some te' ->
                          is_obstructing_tree (_height a) te' = false))
  /\ (has_flag (gParkFlags s) PARK_FLAGS_FORBID_LANDSCAPE_CHANGES = false ->
      fst (CheckParameters E a s) = STR_NONE ->
      (has_flag (gScreenFlags s) SCREEN_FLAGS_SCENARIO_EDITOR = true
       \/ gCheatsSandboxMode s = true
       \/ map_is_location_in_park E s (_coords a) = true) ->
      (gCheatsDisableClearanceChecks s = false ->
       has_flag (gParkFlags s) PARK_FLAGS_FORBID_TREE_REMOVAL = true ->
       CheckTreeObstructions_loop (_height a) (tile_stack s (_coords a)) 0 = None) ->
      (gCheatsDisableSupportLimits s = false ->
       CheckRideSupports_loop s (_height a) (tile_stack s (_coords a)) = STR_NONE) ->
      fst (Query E a s) = Result2 Disallowed STR_REMOVE_LEVEL_CROSSING_FIRST).
Proof.
  intros Hsurf Hpath Hcross.
  split; [eapply Query_level_crossing_status; eassumption |].
  split.
  { rewrite Query_outcome_correct. unfold Query_outcome.
    rewrite Hsurf. cbv zeta. rewrite Hpath, Hcross.
    rewrite CheckRideSupports_loop_existsb.
    destruct (has_flag (gParkFlags s) PARK_FLAGS_FORBID_LANDSCAPE_CHANGES); [reflexivity |].
    destruct (negb (is_STR_NONE (fst (CheckParameters E a s)))); [reflexivity |].
    destruct (negb (has_flag (gScreenFlags s) SCREEN_FLAGS_SCENARIO_EDITOR)
              && negb (gCheatsSandboxMode s)
              && negb (map_is_location_in_park E s (_coords a))); [reflexivity |].
    destruct (if negb (gCheatsDisableClearanceChecks s)
                 && has_flag (gParkFlags s) PARK_FLAGS_FORBID_TREE_REMOVAL
              then CheckTreeObstructions_loop (_height a) (tile_stack s (_coords a)) 0
              else None); [reflexivity |].
    destruct (gCheatsDisableSupportLimits s); cbn [negb andb]; [reflexivity |].
    destruct (existsb (supports_exceeded s (_height a)) (tile_stack s (_coords a)));
      reflexivity. }
  split.
  { intros p Hp.
    pose proof (CheckTreeObstructions_loop_first (_height a) (tile_stack s (_coords a)) 0) as H.
    rewrite Hp in H. destruct H as (_ & Hte & Hbefore). rewrite Nat.sub_0_r in *.
    split; [exact Hte | exact Hbefore]. }
  intros. eapply Query_level_crossing_first; eassumption.
Qed.

End MoreProperties.

(** ** Witnesses of the further properties *)

Lemma Query_off_map_witness :
  let a := {| _coords := {| x := -32; y := 320 |}; _height := 16; _style := 0 |} in
  fst (Query (Scenario.engine true false) a (Scenario.state 0 [Scenario.surface_at 14 0]))
  = Result2 Disallowed STR_OFF_EDGE_OF_MAP.
Proof.
  cbv zeta.
  refine (proj2 (proj2 (Query_off_map (Scenario.engine true false)
                          {| _coords := {| x := -32; y := 320 |}; _height := 16; _style := 0 |}
                          (Scenario.state 0 [Scenario.surface_at 14 0]) _)) _).
  - left. reflexivity.
  - reflexivity.
Defined.

Lemma Query_height_out_of_range_witness :
  let s := Scenario.state 0 [Scenario.surface_at 14 0] in
  fst (CheckParameters (Scenario.engine true false) (Scenario.set_height 1 0) s) = STR_TOO_LOW
  /\ fst (CheckParameters (Scenario.engine true false) (Scenario.set_height 143 0) s)
     = STR_TOO_HIGH.
Proof.
  cbv zeta. split.
  - refine (proj1 (proj1 (Query_height_out_of_range (Scenario.engine true false)
                            (Scenario.set_height 1 0)
                            (Scenario.state 0 [Scenario.surface_at 14 0]) _ _ _) _)).
    + reflexivity.
    + vm_compute; discriminate.
    + vm_compute; discriminate.
    + vm_compute; reflexivity.
  - refine (proj1 (proj2 (Query_height_out_of_range (Scenario.engine true false)
                            (Scenario.set_height 143 0)
                            (Scenario.state 0 [Scenario.surface_at 14 0]) _ _ _) _ _)).
    + reflexivity.
    + vm_compute; discriminate.
    + vm_compute; discriminate.
    + vm_compute; discriminate.
    + vm_compute; reflexivity.
Defined.

Lemma CheckFloatingStructures_blocks_iff_witness :
  let wet := {| Slope := 0; WaterHeight := 10; HasTrackThatNeedsWater := true |} in
  let te := {| body := Surface wet; base_height := 14; clearance_height := 14;
               IsGhost := false |} in
  CheckFloatingStructures (Scenario.set_height 18 1) (0%nat, te) 18 <> None.
Proof.
  cbv zeta.
  refine (proj2 (proj2 (CheckFloatingStructures_blocks_iff (Scenario.set_height 18 1)
                          (0%nat, {| body := Surface {| Slope := 0; WaterHeight := 10;
                                                        HasTrackThatNeedsWater := true |};
                                     base_height := 14; clearance_height := 14;
                                     IsGhost := false |})
                          {| Slope := 0; WaterHeight := 10; HasTrackThatNeedsWater := true |}
                          18 _ _ _)) _).
  - reflexivity.
  - cbn [WaterHeight]. lia.
  - lia.
  - split; [reflexivity |]. split; [discriminate |]. vm_compute. reflexivity.
Defined.

Lemma GetSmallSceneryRemovalCost_exact_witness :
  fst (GetSmallSceneryRemovalCost (Scenario.set_height 14 0)
         (Scenario.state 0 [Scenario.surface_at 14 0; Scenario.bush 3 14 16;
                            Scenario.bush 5 30 32; Scenario.tree 7 12 20]))
  = 100.
Proof.
  rewrite (GetSmallSceneryRemovalCost_exact (Scenario.set_height 14 0)
             (Scenario.state 0 [Scenario.surface_at 14 0; Scenario.bush 3 14 16;
                                Scenario.bush 5 30 32; Scenario.tree 7 12 20])).
  - vm_compute. reflexivity.
  - intros te e Hin Hsc. vm_compute in Hin.
    destruct Hin as [<- | [<- | [<- | [<- | []]]]]; vm_compute in Hsc;
      try discriminate; injection Hsc as <-; vm_compute; split; discriminate.
  - vm_compute. discriminate.
Defined.

Lemma Execute_charges_projected_cost_witness :
  let e := Scenario.engine true false in
  let a := Scenario.set_height 16 1 in
  let s := Scenario.state 0 [Scenario.surface_at 14 0; Scenario.bush 3 16 18] in
  Error (fst (Execute e a s)) = Ok
  /\ Cost (fst (Execute e a s)) = Cost (fst (Query e a s)).
Proof.
  cbv zeta.
  apply (Execute_charges_projected_cost (Scenario.engine true false) (Scenario.set_height 16 1)
           (Scenario.state 0 [Scenario.surface_at 14 0; Scenario.bush 3 16 18])).
  vm_compute. reflexivity.
Defined.

Lemma Execute_off_map_witness :
  let a := {| _coords := {| x := 8192; y := 0 |}; _height := 16; _style := 0 |} in
  fst (Execute (Scenario.engine true false) a (Scenario.state 0 [Scenario.surface_at 14 0]))
  = Result2 Unknown STR_NONE.
Proof.
  cbv zeta.
  refine (proj1 (Execute_off_map (Scenario.engine true false)
                   {| _coords := {| x := 8192; y := 0 |}; _height := 16; _style := 0 |}
                   (Scenario.state 0 [Scenario.surface_at 14 0]) _)).
  reflexivity.
Defined.

Lemma Execute_without_clearance_checks_witness :
  let stk := [Scenario.surface_at 14 0; Scenario.bush 3 14 16;
              {| body := Wall; base_height := 14; clearance_height := 18; IsGhost := false |}] in
  let s := {| gParkFlags := 0; gScreenFlags := 0; gCheatsSandboxMode := false;
              gCheatsDisableClearanceChecks := true; gCheatsDisableSupportLimits := false;
              gMapSizeMaxXY := 4063; gTileElements := {[ (10, 10) := stk ]};
              gRides := ∅; gLitter := []; gCash := 0 |} in
  let a := Scenario.set_height 16 0 in
  Cost (fst (Execute (Scenario.engine true false) a s)) = 200
  /\ length (tile_stack (snd (Execute (Scenario.engine true false) a s)) (_coords a)) = 3%nat.
Proof.
  cbv zeta.
  destruct (Execute_without_clearance_checks (Scenario.engine true false)
              (Scenario.set_height 16 0)
              {| gParkFlags := 0; gScreenFlags := 0; gCheatsSandboxMode := false;
                 gCheatsDisableClearanceChecks := true; gCheatsDisableSupportLimits := false;
                 gMapSizeMaxXY := 4063;
                 gTileElements :=
                   {[ (10, 10) :=
                        [Scenario.surface_at 14 0; Scenario.bush 3 14 16;
                         {| body := Wall; base_height := 14; clearance_height := 18;
                            IsGhost := false |}] ]};
                 gRides := ∅; gLitter := []; gCash := 0 |}
              [Scenario.surface_at 14 0; Scenario.bush 3 14 16;
               {| body := Wall; base_height := 14; clearance_height := 18; IsGhost := false |}]
              (0%nat, Scenario.surface_at 14 0))
    as (_ & Hcost & _ & Hlen).
  - reflexivity.
  - vm_compute. reflexivity.
  - reflexivity.
  - split; [rewrite Hcost; vm_compute; reflexivity | exact Hlen].
Defined.

Lemma GetSurfaceHeightChangeCost_symmetric_witness :
  GetSurfaceHeightChangeCost (Scenario.set_height 18 0) (Scenario.surface_at 14 0)
  = GetSurfaceHeightChangeCost (Scenario.set_height 14 0) (Scenario.surface_at 18 0).
Proof.
  refine (proj1 (GetSurfaceHeightChangeCost_symmetric (Scenario.set_height 14 0)
                   (Scenario.set_height 18 0) (Scenario.surface_at 14 0)
                   (Scenario.surface_at 18 0) _ _)).
  - eexists. split; [reflexivity |]. split; reflexivity.
  - eexists. split; [reflexivity |]. split; reflexivity.
Defined.

Lemma SetSurfaceHeight_settles_witness :
  GetSurfaceHeightChangeCost (Scenario.set_height 16 3)
    (SetSurfaceHeight_element (Scenario.set_height 16 3) (Scenario.surface_at 14 1)) = 0.
Proof.
  refine (proj1 (proj2 (SetSurfaceHeight_settles (Scenario.set_height 16 3)
                          (Scenario.surface_at 14 1)
                          {| Slope := 0; WaterHeight := 1; HasTrackThatNeedsWater := false |}
                          _ _))).
  - reflexivity.
  - reflexivity.
Defined.

Lemma Query_level_crossing_witness :
  let e := Scenario.engine true true in
  let s := Scenario.state 0 [Scenario.surface_at 14 0; Scenario.footpath 14] in
  Error (fst (Query e (Scenario.set_height 16 0) s)) = Disallowed
  /\ fst (Query e (Scenario.set_height 16 0) s)
     = Result2 Disallowed STR_REMOVE_LEVEL_CROSSING_FIRST.
Proof.
  cbv zeta.
  destruct (Query_level_crossing (Scenario.engine true true) (Scenario.set_height 16 0)
              (Scenario.state 0 [Scenario.surface_at 14 0; Scenario.footpath 14])
              (0%nat, Scenario.surface_at 14 0) (Scenario.footpath 14))
    as (Hstatus & Hresult & _).
  - vm_compute; reflexivity.
  - vm_compute; reflexivity.
  - reflexivity.
  - split; [exact Hstatus |]. rewrite Hresult. vm_compute. reflexivity.
Defined.

Lemma Query_result_shape_witness :
  let e := {| MINIMUM_LAND_HEIGHT := 2;
              MAXIMUM_LAND_HEIGHT := 142;
              map_is_location_in_park := fun _ _ => true;
              IsLevelCrossing := fun _ _ _ => false;
              MapCanConstructWithClearAt := fun _ _ => Result2 NoClearance (STR_ID 7);
              map_obstruction_set_error_text := fun _ _ _ => (STR_ID 0, []);
              tile_element_height := fun _ _ => 16 |} in
  let s := Scenario.state 0 [Scenario.surface_at 14 0] in
  fst (Query e (Scenario.set_height 16 0) s) = Result4 Disallowed STR_NONE (STR_ID 7) [].
Proof.
  cbv zeta.
  refine (proj1 (proj2 (proj2 (proj2 (proj2 (proj2 (proj2 (proj2
            (Query_result_shape
               {| MINIMUM_LAND_HEIGHT := 2;
                  MAXIMUM_LAND_HEIGHT := 142;
                  map_is_location_in_park := fun _ _ => true;
                  IsLevelCrossing := fun _ _ _ => false;
                  MapCanConstructWithClearAt := fun _ _ => Result2 NoClearance (STR_ID 7);
                  map_obstruction_set_error_text := fun _ _ _ => (STR_ID 0, []);
                  tile_element_height := fun _ _ => 16 |}
               (Scenario.set_height 16 0)
               (Scenario.state 0 [Scenario.surface_at 14 0])))))))))
            (0%nat, Scenario.surface_at 14 0) _ _ _ _ _ _).
  - split; [reflexivity |]. split; [vm_compute; reflexivity |].
    split; [right; right; reflexivity |].
    split; [intros _ H; vm_compute in H; discriminate H |].
    intros _. vm_compute. reflexivity.
  - vm_compute; reflexivity.
  - vm_compute; reflexivity.
  - vm_compute; reflexivity.
  - reflexivity.
  - cbn. discriminate.
Defined.
